(** * jolecule: the PDB / mmCIF structure parsers

    A shallow embedding of [PdbParser] and [CifParser] (the parser source
    file of the repository) together with the JavaScript primitives they
    call, and the properties of the parsers stated in the specification.

    Conventions of the embedding.
    - A JavaScript string is a [string]: a sequence of code units, here
      the 8-bit ones (the input is 8-bit text).
    - A value that may be [undefined] (an array or string index out of
      range) is a [Js.value].
    - A number produced by [parseInt], or the counter [nextResNum] (which
      starts as [null]), is a [Js.jsnum]; integers are kept exact (the
      rounding of integers beyond 2^53 is not modelled).
    - A number produced by [parseFloat] is a [Js.jsfloat]: the numeric
      lexeme that [parseFloat] accepted, or NaN.  The rounding of the
      lexeme to a double is not modelled.
    - A block that may throw is a computation in the [Js.result] monad. *)

From Stdlib Require Import ZArith Ascii String List Lia Bool.
From Stdlib Require Import Numbers.DecimalString.
From stdpp Require Import base tactics option list strings.
Import ListNotations.

Local Open Scope string_scope.
Local Open Scope list_scope.
Local Open Scope nat_scope.

(* ===================================================================== *)
(** ** JavaScript primitives used by the parsers *)
(* ===================================================================== *)

Module Js.

(** A value read from an index that may be out of range. *)
Inductive value : Type :=
| Undefined
| Str (s : string).

(** Numbers on the integer side: [parseInt] results and the residue
    counter.  [Null] is the initial value of [nextResNum]. *)
Inductive jsnum : Type :=
| Null
| NaN
| Int (z : Z).

(** [parseFloat] results, kept as the accepted lexeme. *)
Inductive jsfloat : Type :=
| FNaN
| FLit (lexeme : string).

(** Computations that may throw. *)
Inductive result (A : Type) : Type :=
| Ok (a : A)
| Throw (msg : string).
Arguments Ok {A} a.
Arguments Throw {A} msg.

Definition bind {A B : Type} (m : result A) (k : A -> result B) : result B :=
  match m with
  | Ok a => k a
  | Throw e => Throw e
  end.

(** *** Equality and arithmetic *)

(** [a === b] on values that are strings or undefined. *)
Definition strictEq (a b : value) : bool :=
  match a, b with
  | Undefined, Undefined => true
  | Str x, Str y => String.eqb x y
  | _, _ => false
  end.

(** [v === s] where [s] is a string literal. *)
Definition isStr (v : value) (s : string) : bool := strictEq v (Str s).

(** ToNumber on [jsnum]: null converts to 0, NaN stays NaN. *)
Definition toNumber (n : jsnum) : option Z :=
  match n with
  | Null => Some 0%Z
  | NaN => None
  | Int z => Some z
  end.

(** [a <= b]: false as soon as one side is NaN. *)
Definition le (a b : jsnum) : bool :=
  match toNumber a, toNumber b with
  | Some x, Some y => (x <=? y)%Z
  | _, _ => false
  end.

(** [n + 1]. *)
Definition add1 (n : jsnum) : jsnum :=
  match toNumber n with
  | Some x => Int (x + 1)
  | None => NaN
  end.

(** [a === b] on numbers: NaN is equal to nothing. *)
Definition numEq (a b : jsnum) : bool :=
  match a, b with
  | Null, Null => true
  | Int x, Int y => (x =? y)%Z
  | _, _ => false
  end.

(** *** Characters *)

Definition isDigit (c : ascii) : bool :=
  let n := nat_of_ascii c in (48 <=? n) && (n <=? 57).

(** The code units below 256 matched by [\s]:
    TAB, LF, VT, FF, CR, SPACE and NBSP. *)
Definition isSpace (c : ascii) : bool :=
  let n := nat_of_ascii c in
  ((9 <=? n) && (n <=? 13)) || (n =? 32) || (n =? 160).

(** *** Strings *)

(** [s.substr(start, len)] for non-negative arguments. *)
Definition substr (start len : nat) (s : string) : string :=
  String.substring start len s.

(** [s.substring(start)]. *)
Fixpoint substringFrom (start : nat) (s : string) : string :=
  match start, s with
  | O, _ => s
  | S n, EmptyString => EmptyString
  | S n, String _ s' => substringFrom n s'
  end.

(** The one-character string holding a double quote. *)
Definition dquote : string := String (ascii_of_nat 34) EmptyString.

(** [s[i]]. *)
Definition charAt (i : nat) (s : string) : value :=
  match String.get i s with
  | Some c => Str (String c EmptyString)
  | None => Undefined
  end.

(** [s.startsWith(p)] and lodash [_.startsWith(s, p)]. *)
Definition startsWith (p s : string) : bool := String.prefix p s.

(** [s.includes(p)]. *)
Fixpoint includes (p s : string) : bool :=
  String.prefix p s ||
  match s with
  | EmptyString => false
  | String _ s' => includes p s'
  end.

Fixpoint trimStart (s : string) : string :=
  match s with
  | EmptyString => EmptyString
  | String c s' => if isSpace c then trimStart s' else s
  end.

Fixpoint trimEnd (s : string) : string :=
  match s with
  | EmptyString => EmptyString
  | String c s' =>
      let t := trimEnd s' in
      if isSpace c && String.eqb t EmptyString then EmptyString
      else String c t
  end.

(** lodash [_.trim(s)] on a string. *)
Definition trim (s : string) : string := trimEnd (trimStart s).

(** [s.replace(p, '')] with a non-empty string pattern [p]:
    the first occurrence of [p] is removed. *)
Fixpoint removeFirst (p s : string) : string :=
  if String.prefix p s then substringFrom (String.length p) s
  else match s with
       | EmptyString => EmptyString
       | String c s' => String c (removeFirst p s')
       end.

(** The longest prefix of characters satisfying [f], and the rest. *)
Fixpoint span (f : ascii -> bool) (s : string) : string * string :=
  match s with
  | EmptyString => (EmptyString, EmptyString)
  | String c s' =>
      if f c then let (a, b) := span f s' in (String c a, b)
      else (EmptyString, s)
  end.

(** [s.replace(/\d+/, '')]: the first maximal run of digits is removed. *)
Fixpoint removeFirstDigits (s : string) : string :=
  match s with
  | EmptyString => EmptyString
  | String c s' =>
      if isDigit c then snd (span isDigit s')
      else String c (removeFirstDigits s')
  end.

(** [text.split(/\r?\n/)].  A piece that is closed by a line feed loses
    one carriage return before it; the last piece is kept as it is. *)
Definition isCR (c : ascii) : bool := nat_of_ascii c =? 13.
Definition isLF (c : ascii) : bool := nat_of_ascii c =? 10.

Fixpoint splitLines (text : string) : list string :=
  match text with
  | EmptyString => [EmptyString]
  | String c rest =>
      if isLF c then EmptyString :: splitLines rest
      else
        match rest with
        | String c' rest' =>
            if isCR c && isLF c' then EmptyString :: splitLines rest'
            else match splitLines rest with
                 | [] => [String c EmptyString]
                 | l :: ls => String c l :: ls
                 end
        | EmptyString => [String c EmptyString]
        end
  end.

(** [line.split(/[ ,]+/)]: the separators are the maximal runs of spaces
    and commas; a run at the start or at the end leaves an empty token. *)
Definition isSep (c : ascii) : bool :=
  let n := nat_of_ascii c in (n =? 32) || (n =? 44).

Fixpoint splitTokens (s : string) : list string :=
  match s with
  | EmptyString => [EmptyString]
  | String c s' =>
      if isSep c then
        match s' with
        | String c' _ =>
            if isSep c' then splitTokens s'
            else EmptyString :: splitTokens s'
        | EmptyString => [EmptyString; EmptyString]
        end
      else
        match splitTokens s' with
        | [] => [String c EmptyString]
        | t :: ts => String c t :: ts
        end
  end.

(** [tokens[i]]. *)
Definition index (tokens : list string) (i : nat) : value :=
  match tokens !! i with
  | Some t => Str t
  | None => Undefined
  end.

(** *** Numbers from strings *)

Definition digitVal (c : ascii) : Z := Z.of_nat (nat_of_ascii c - 48).

Definition isHexDigit (c : ascii) : bool :=
  let n := nat_of_ascii c in
  isDigit c || ((65 <=? n) && (n <=? 70)) || ((97 <=? n) && (n <=? 102)).

Definition hexVal (c : ascii) : Z :=
  let n := nat_of_ascii c in
  if isDigit c then Z.of_nat (n - 48)
  else if n <=? 70 then Z.of_nat (n - 55)
  else Z.of_nat (n - 87).

(** The value of a digit string in base [radix], most significant first. *)
Fixpoint digitsValue (radix : Z) (val : ascii -> Z) (acc : Z) (s : string) : Z :=
  match s with
  | EmptyString => acc
  | String c s' => digitsValue radix val (acc * radix + val c)%Z s'
  end.

(** A leading sign: the factor it stands for and the rest of the string. *)
Definition takeSign (s : string) : Z * string :=
  match s with
  | String "+"%char r => (1%Z, r)
  | String "-"%char r => ((-1)%Z, r)
  | _ => (1%Z, s)
  end.

(** [parseInt(s)] without a radix: leading white space is skipped, a sign
    is read, a [0x] prefix switches to base 16, and the longest prefix of
    digits is the value; with no digit the result is NaN. *)
Definition parseIntStr (s : string) : jsnum :=
  let (sign, s1) := takeSign (trimStart s) in
  let hex := String.prefix "0x" s1 || String.prefix "0X" s1 in
  if hex then
    let ds := fst (span isHexDigit (substringFrom 2 s1)) in
    if String.eqb ds EmptyString then NaN
    else Int (sign * digitsValue 16 hexVal 0 ds)
  else
    let ds := fst (span isDigit s1) in
    if String.eqb ds EmptyString then NaN
    else Int (sign * digitsValue 10 digitVal 0 ds).

(** [parseInt(v)]: [undefined] is first converted to the string
    ["undefined"], which has no digit. *)
Definition parseInt (v : value) : jsnum :=
  match v with
  | Undefined => NaN
  | Str s => parseIntStr s
  end.

(** [parseFloat(s)]: the longest prefix, after leading white space, that
    is a decimal literal (sign, digits, fraction, exponent) or a signed
    [Infinity]; NaN when there is none. *)
Definition signText (s : string) : string * string :=
  match s with
  | String "+"%char r => ("+", r)
  | String "-"%char r => ("-", r)
  | _ => (EmptyString, s)
  end.

Definition isExpMark (c : ascii) : bool :=
  let n := nat_of_ascii c in (n =? 69) || (n =? 101).

Definition exponentText (s : string) : string :=
  match s with
  | String e r =>
      if isExpMark e then
        let (sg, r1) := signText r in
        let ds := fst (span isDigit r1) in
        if String.eqb ds EmptyString then EmptyString
        else String e (sg +:+ ds)
      else EmptyString
  | EmptyString => EmptyString
  end.

Definition parseFloatStr (s : string) : jsfloat :=
  let (sg, s1) := signText (trimStart s) in
  if String.prefix "Infinity" s1 then FLit (sg +:+ "Infinity")
  else
    let (ip, s2) := span isDigit s1 in
    let (fp, s3) :=
      match s2 with
      | String "."%char r => let (d, r') := span isDigit r in (d, r')
      | _ => (EmptyString, s2)
      end in
    let dot := match s2 with String "."%char _ => "." | _ => EmptyString end in
    if String.eqb ip EmptyString && String.eqb fp EmptyString then FNaN
    else FLit (sg +:+ ip +:+ dot +:+ fp +:+ exponentText s3).

Definition parseFloat (v : value) : jsfloat :=
  match v with
  | Undefined => FNaN
  | Str s => parseFloatStr s
  end.

(** The decimal text of a non-negative integer, as string concatenation
    with a number produces it. *)
Definition decimal (n : nat) : string :=
  NilEmpty.string_of_uint (Nat.to_uint n).

End Js.

(* ===================================================================== *)
(** ** The structure store ([soup]) *)
(* ===================================================================== *)

Module Soup.

(** The eleven arguments of one [addAtom] call, in the order
    [x, y, z, bfactor, alt, atomType, elem, resType, resNum, insCode, chain]. *)
Record Atom : Type := mkAtom {
  atom_x : Js.jsfloat;
  atom_y : Js.jsfloat;
  atom_z : Js.jsfloat;
  atom_bfactor : Js.jsfloat;
  atom_alt : Js.value;
  atom_atomType : string;
  atom_elem : Js.value;
  atom_resType : Js.value;
  atom_resNum : Js.jsnum;
  atom_insCode : Js.value;
  atom_chain : Js.value
}.

(** Modelled from the spec: one residue bucket, as the residue proxy
    shows it ([chain], [resNum], [ss]), with the structure and the
    insertion code that [addAtom] keys it by. *)
Record Residue : Type := mkResidue {
  res_iStructure : nat;
  res_chain : Js.value;
  res_resNum : Js.jsnum;
  res_insCode : Js.value;
  res_ss : string
}.

(** Modelled from the spec: the structure store is not part of the parser
    source; only its calls are.  The store keeps the pushed structures
    (identifier and title), the atoms in insertion order and the residue
    buckets in insertion order. *)
Record t : Type := mkSoup {
  structures : list (string * string);
  atoms : list Atom;
  residues : list Residue
}.

(** Modelled from the spec: a store nothing was pushed into. *)
Definition empty : t := mkSoup [] [] [].

(** Modelled from the spec: the secondary-structure code of a residue
    nothing was assigned to (the glossary's implicit coil). *)
Definition coil : string := "C".

(** Modelled from the spec: [soup.iStructure], the index of the structure
    that [pushStructureId] opened last. *)
Definition iStructure (s : t) : nat := Nat.pred (length (structures s)).

(** Modelled from the spec: [pushStructureId(id, title)] begins a new
    structure; later atom insertions target it. *)
Definition pushStructureId (id title : string) (s : t) : t :=
  mkSoup (structures s ++ [(id, title)]) (atoms s) (residues s).

(** Modelled from the spec: the atom belongs to the residue that is
    open: same structure, chain, residue number and insertion code. *)
Definition sameResidue (i : nat) (a : Atom) (r : Residue) : bool :=
  (res_iStructure r =? i) &&
  Js.strictEq (atom_chain a) (res_chain r) &&
  Js.numEq (atom_resNum a) (res_resNum r) &&
  Js.strictEq (atom_insCode a) (res_insCode r).

(** Modelled from the spec: [addAtom] appends one atom to the current
    structure and creates a new residue bucket when (chain, residue
    number, insertion code) differs from the residue that is open. *)
Definition addAtom (a : Atom) (s : t) : t :=
  let i := iStructure s in
  let fresh :=
    mkResidue i (atom_chain a) (atom_resNum a) (atom_insCode a) coil in
  let rs :=
    match last (residues s) with
    | Some r => if sameResidue i a r then residues s else residues s ++ [fresh]
    | None => residues s ++ [fresh]
    end in
  mkSoup (structures s) (atoms s ++ [a]) rs.

(** Modelled from the spec: after [assignResidueProperties] the residues
    of the structure are indexable; in this store they already are. *)
Definition assignResidueProperties (i : nat) (s : t) : t := s.

(** Modelled from the spec: the residue is one of structure [i] with
    the given chain and residue number. *)
Definition matches (i : nat) (chain : Js.value) (resNum : Js.jsnum)
    (r : Residue) : bool :=
  (res_iStructure r =? i) &&
  Js.strictEq (res_chain r) chain &&
  Js.numEq (res_resNum r) resNum.

(** Modelled from the spec: the scan behind [findResidueIndices], over
    the residues from index [k] on. *)
Fixpoint findFrom (k i : nat) (chain : Js.value) (resNum : Js.jsnum)
    (rs : list Residue) : list nat :=
  match rs with
  | [] => []
  | r :: rest =>
      if matches i chain resNum r then k :: findFrom (S k) i chain resNum rest
      else findFrom (S k) i chain resNum rest
  end.

(** Modelled from the spec: [findResidueIndices(iStructure, chain, resNum)]
    returns, in increasing order, the indices of the residues of that
    structure with that chain and residue number. *)
Definition findResidueIndices (i : nat) (chain : Js.value)
    (resNum : Js.jsnum) (s : t) : list nat :=
  findFrom 0 i chain resNum (residues s).

(** Modelled from the spec: the residue proxy is a cursor [iRes] over the
    residues; [residue.ss = code] writes the residue under the cursor. *)
Definition setSs (code : string) (r : Residue) : Residue :=
  mkResidue (res_iStructure r) (res_chain r) (res_resNum r)
            (res_insCode r) code.

(** Modelled from the spec: the write [residue.ss = code] with the
    cursor at [iRes]; past the last residue nothing is stored. *)
Definition writeSs (iRes : nat) (code : string) (s : t) : t :=
  mkSoup (structures s) (atoms s) (alter (setSs code) iRes (residues s)).

End Soup.

(* ===================================================================== *)
(** ** What both parser classes share *)
(* ===================================================================== *)

(** The fields of a parser object.  [parsingError] is not set by the
    constructor, so it starts as [undefined]. *)
Record Parser : Type := mkParser {
  soup : Soup.t;
  hasSecondaryStructure : bool;
  error : string;
  parsingError : Js.value
}.

Definition constructor (s : Soup.t) : Parser :=
  mkParser s false "" Js.Undefined.

Definition withSoup (f : Soup.t -> Soup.t) (p : Parser) : Parser :=
  mkParser (f (soup p)) (hasSecondaryStructure p) (error p) (parsingError p).

Definition setHasSecondaryStructure (b : bool) (p : Parser) : Parser :=
  mkParser (soup p) b (error p) (parsingError p).

Definition setError (e : string) (p : Parser) : Parser :=
  mkParser (soup p) (hasSecondaryStructure p) e (parsingError p).

Definition setParsingError (e : string) (p : Parser) : Parser :=
  mkParser (soup p) (hasSecondaryStructure p) (error p) (Js.Str e).

(** [text.replace(/\d+/, '')]. *)
Definition deleteNumbers (text : string) : string :=
  Js.removeFirstDigits text.

(** [removeQuotes(s)] on a string: when the first and the last character
    are both a double quote, or both a single quote, the result is
    [s.slice(1, n - 1)]; otherwise it is [s]. *)
Definition removeQuotes (s : string) : string :=
  let n := String.length s in
  if Js.isStr (Js.charAt 0 s) Js.dquote && Js.isStr (Js.charAt (n - 1) s) Js.dquote
  then Js.substr 1 (n - 1 - 1) s
  else if Js.isStr (Js.charAt 0 s) "'" && Js.isStr (Js.charAt (n - 1) s) "'"
  then Js.substr 1 (n - 1 - 1) s
  else s.

(** The call [removeQuotes(v)] on a value that may be [undefined]:
    reading [s.length] of [undefined] throws. *)
Definition removeQuotesArg (v : Js.value) : Js.result string :=
  match v with
  | Js.Undefined => Js.Throw "TypeError"
  | Js.Str s => Js.Ok (removeQuotes s)
  end.

(** [elem = deleteNumbers(_.trim(atomType)).substr(0, 1)] when the element
    read from the line is the empty string. *)
Definition inferElem (elem : Js.value) (atomType : string) : Js.value :=
  if Js.isStr elem ""
  then Js.Str (Js.substr 0 1 (deleteNumbers (Js.trim atomType)))
  else elem.

(** The range walk that the four secondary-structure loops repeat:
<<
    residue.iRes = iRes
    while (residue.resNum <= resNumEnd && chain === residue.chain) {
        residue.ss = code
        residue.iRes = residue.iRes + 1
    }
>>
    Modelled from the spec: past the last residue the proxy reads
    [undefined], so the comparison is false and the loop stops.  Every
    turn moves the cursor forward, so the number of residues bounds the
    number of turns ([fuel]; lemma [walk_residues] shows that it is
    enough). *)
Fixpoint walk (fuel : nat) (code : string) (chain : Js.value)
    (resNumEnd : Js.jsnum) (iRes : nat) (s : Soup.t) : Soup.t :=
  match fuel with
  | O => s
  | S fuel' =>
      match Soup.residues s !! iRes with
      | Some r =>
          if Js.le (Soup.res_resNum r) resNumEnd &&
             Js.strictEq chain (Soup.res_chain r)
          then walk fuel' code chain resNumEnd (S iRes)
                    (Soup.writeSs iRes code s)
          else s
      | None => s
      end
  end.

(** [for (let iRes of soup.findResidueIndices(iStructure, chain, start))]
    around the walk. *)
Definition paintRange (code : string) (chain : Js.value)
    (resNumStart resNumEnd : Js.jsnum) (s : Soup.t) : Soup.t :=
  fold_left
    (fun s' iRes => walk (length (Soup.residues s')) code chain resNumEnd iRes s')
    (Soup.findResidueIndices (Soup.iStructure s) chain resNumStart s)
    s.

(* ===================================================================== *)
(** ** [class PdbParser] *)
(* ===================================================================== *)

Module PdbParser.

Definition isAtomLine (line : string) : bool :=
  String.eqb (Js.substr 0 4 line) "ATOM" ||
  String.eqb (Js.substr 0 6 line) "HETATM".

Fixpoint isNmr (lines : list string) : bool :=
  match lines with
  | [] => false
  | line :: rest =>
      if Js.startsWith "EXPDTA" line && Js.includes "NMR" line then true
      else isNmr rest
  end.

(** The [try] block of [parseAtomLines]: the eleven assignments, with the
    element still as read from the line. *)
Definition atomFields (line : string) : Js.result Soup.Atom :=
  let atomType := Js.trim (Js.substr 12 4 line) in
  let alt := Js.trim (Js.substr 16 1 line) in
  let resType := Js.trim (Js.substr 17 3 line) in
  let chain := Js.charAt 21 line in
  let resNum := Js.parseInt (Js.Str (Js.substr 22 4 line)) in
  let insCode := Js.substr 26 1 line in
  let x := Js.parseFloat (Js.Str (Js.substr 30 7 line)) in
  let y := Js.parseFloat (Js.Str (Js.substr 38 7 line)) in
  let z := Js.parseFloat (Js.Str (Js.substr 46 7 line)) in
  let bfactor := Js.parseFloat (Js.Str (Js.substr 60 6 line)) in
  let elem := deleteNumbers (Js.trim (Js.substr 76 2 line)) in
  Js.Ok (Soup.mkAtom x y z bfactor (Js.Str alt) atomType (Js.Str elem)
           (Js.Str resType) resNum (Js.Str insCode) chain).

(** The atom handed to [addAtom]: the element is inferred from the atom
    name when it was read as the empty string. *)
Definition finishAtom (a : Soup.Atom) : Soup.Atom :=
  Soup.mkAtom (Soup.atom_x a) (Soup.atom_y a) (Soup.atom_z a)
    (Soup.atom_bfactor a) (Soup.atom_alt a) (Soup.atom_atomType a)
    (inferElem (Soup.atom_elem a) (Soup.atom_atomType a))
    (Soup.atom_resType a) (Soup.atom_resNum a) (Soup.atom_insCode a)
    (Soup.atom_chain a).

(** One turn of the loop of [parseAtomLines] on line number [iLine]. *)
Definition parseAtomLine (iLine : nat) (line : string) (p : Parser) : Parser :=
  if isAtomLine line then
    match atomFields line with
    | Js.Throw _ => setError ("line " +:+ Js.decimal iLine) p
    | Js.Ok a => withSoup (Soup.addAtom (finishAtom a)) p
    end
  else p.

Fixpoint parseAtomLinesFrom (iLine : nat) (pdbLines : list string)
    (p : Parser) : Parser :=
  match pdbLines with
  | [] => p
  | line :: rest =>
      parseAtomLinesFrom (S iLine) rest (parseAtomLine iLine line p)
  end.

Definition parseAtomLines (pdbLines : list string) (p : Parser) : Parser :=
  parseAtomLinesFrom 0 pdbLines p.

(** One turn of the loop of [parseSecondaryStructureLines]. *)
Definition parseSecondaryStructureLine (line : string) (p : Parser) : Parser :=
  if String.eqb (Js.substr 0 5 line) "HELIX" then
    let chain := Js.Str (Js.substr 19 1 line) in
    let resNumStart := Js.parseInt (Js.Str (Js.substr 21 4 line)) in
    let resNumEnd := Js.parseInt (Js.Str (Js.substr 33 4 line)) in
    withSoup (paintRange "H" chain resNumStart resNumEnd)
      (setHasSecondaryStructure true p)
  else if String.eqb (Js.substr 0 5 line) "SHEET" then
    let chain := Js.Str (Js.substr 21 1 line) in
    let resNumStart := Js.parseInt (Js.Str (Js.substr 22 4 line)) in
    let resNumEnd := Js.parseInt (Js.Str (Js.substr 33 4 line)) in
    withSoup (paintRange "E" chain resNumStart resNumEnd)
      (setHasSecondaryStructure true p)
  else p.

Definition parseSecondaryStructureLines (pdbLines : list string)
    (p : Parser) : Parser :=
  let p0 :=
    withSoup (fun s => Soup.assignResidueProperties (Soup.iStructure s) s) p in
  fold_left (fun q line => parseSecondaryStructureLine line q) pdbLines p0.

Fixpoint parseTitleFrom (result : string) (lines : list string) : string :=
  match lines with
  | [] => result
  | line :: rest =>
      if String.eqb (Js.substr 0 5 line) "TITLE"
      then parseTitleFrom (result +:+ Js.substringFrom 10 line) rest
      else parseTitleFrom result rest
  end.

Definition parseTitle (lines : list string) : string :=
  parseTitleFrom "" lines.

(** The loop of [parsePdbData] that sorts the lines into [models]:
    an atom line is pushed on [models[iModel]]; a line starting with [END]
    stops the loop when [isNmr], and otherwise opens a new bucket. *)
Fixpoint bucketLines (isNmr : bool) (lines : list string)
    (models : list (list string)) (iModel : nat)
    : list (list string) * nat :=
  match lines with
  | [] => (models, iModel)
  | line :: rest =>
      if isAtomLine line then
        bucketLines isNmr rest (alter (fun m => m ++ [line]) iModel models) iModel
      else if String.eqb (Js.substr 0 3 line) "END" then
        if isNmr then (models, iModel)
        else bucketLines isNmr rest (models ++ [[]]) (iModel + 1)
      else bucketLines isNmr rest models iModel
  end.

(** [if (models[iModel].length === 0) models.pop()].  [iModel] always
    indexes the last bucket (lemma [bucketLines_last]), so the read
    cannot be [undefined]. *)
Definition dropEmptyModel (models : list (list string)) (iModel : nat)
    : list (list string) :=
  match models !! iModel with
  | Some m => if length m =? 0 then removelast models else models
  | None => models
  end.

(** The identifier of model number [iModel] of [nModel]:
<<
    let structureId = pdbId
    if (nModel > 1) structureId = `${structureId}[${iModel + 1}]`
>> *)
Definition structureId (pdbId : string) (nModel iModel : nat) : string :=
  if 1 <? nModel
  then pdbId +:+ "[" +:+ Js.decimal (iModel + 1) +:+ "]"
  else pdbId.

(** The loop of [parsePdbData] over the models, from index [iModel]. *)
Fixpoint loadModels (pdbId title : string) (lines : list string)
    (nModel iModel : nat) (models : list (list string)) (p : Parser) : Parser :=
  match models with
  | [] => p
  | model :: rest =>
      let p1 :=
        withSoup
          (Soup.pushStructureId (structureId pdbId nModel iModel) title) p in
      let p2 := parseAtomLines model p1 in
      let p3 := parseSecondaryStructureLines lines p2 in
      loadModels pdbId title lines nModel (S iModel) rest p3
  end.

Definition parsePdbData (pdbText pdbId : string) (p : Parser) : Parser :=
  let lines := Js.splitLines pdbText in
  if length lines =? 0 then setParsingError "No atom lines" p
  else
    let title := parseTitle lines in
    let isNmr := isNmr lines in
    let '(models, iModel) := bucketLines isNmr lines [[]] 0 in
    let models := dropEmptyModel models iModel in
    let nModel := length models in
    loadModels pdbId title lines nModel 0 models p.

End PdbParser.

(* ===================================================================== *)
(** ** [class CifParser] *)
(* ===================================================================== *)

Module CifParser.

Definition isAtomLine (line : string) : bool :=
  String.eqb (Js.substr 0 4 line) "ATOM" ||
  String.eqb (Js.substr 0 6 line) "HETATM".

(** The residue-numbering variables that live across the lines of
    [parseAtomLines]; all three start as [null]. *)
Record Numbering : Type := mkNumbering {
  nextResNum : Js.jsnum;
  lastChain : option Js.value;
  lastEntity : option Js.value
}.

Definition initialNumbering : Numbering := mkNumbering Js.Null None None.

(** [v === last] where [last] is [null] ([None]) or an earlier token. *)
Definition sameAs (v : Js.value) (last : option Js.value) : bool :=
  match last with
  | Some l => Js.strictEq v l
  | None => false
  end.

(** The branch on [tokens[8]] that resolves the residue number. *)
Definition resolveResNum (tokens : list string) (chain entity resType : Js.value)
    (st : Numbering) : Js.jsnum * Numbering :=
  let token := Js.index tokens 8 in
  if Js.isStr token "." then
    let isSameChainAndEntity :=
      sameAs chain (lastChain st) && sameAs entity (lastEntity st) in
    let st' :=
      if negb isSameChainAndEntity || Js.isStr resType "HOH"
      then mkNumbering (Js.add1 (nextResNum st)) (Some chain) (Some entity)
      else st in
    (nextResNum st', st')
  else
    let resNum := Js.parseInt (Js.index tokens 16) in
    (resNum, mkNumbering (Js.add1 resNum) (Some chain) (Some entity)).

(** The [try] block of [parseAtomLines]. *)
Definition atomFields (tokens : list string) (st : Numbering)
    : Js.result (Soup.Atom * Numbering) :=
  let elem := Js.index tokens 2 in
  Js.bind (removeQuotesArg (Js.index tokens 3)) (fun atomType =>
  let alt := if Js.isStr (Js.index tokens 4) "." then Js.Str ""
             else Js.index tokens 4 in
  let resType := Js.index tokens 5 in
  let chain := Js.index tokens 6 in
  let entity := Js.index tokens 7 in
  let insCode := if Js.isStr (Js.index tokens 9) "?" then Js.Str ""
                 else Js.index tokens 9 in
  let x := Js.parseFloat (Js.index tokens 10) in
  let y := Js.parseFloat (Js.index tokens 11) in
  let z := Js.parseFloat (Js.index tokens 12) in
  let bfactor := Js.parseFloat (Js.index tokens 14) in
  let '(resNum, st') := resolveResNum tokens chain entity resType st in
  Js.Ok (Soup.mkAtom x y z bfactor alt atomType elem resType resNum
           insCode chain, st')).

Definition finishAtom (a : Soup.Atom) : Soup.Atom :=
  Soup.mkAtom (Soup.atom_x a) (Soup.atom_y a) (Soup.atom_z a)
    (Soup.atom_bfactor a) (Soup.atom_alt a) (Soup.atom_atomType a)
    (inferElem (Soup.atom_elem a) (Soup.atom_atomType a))
    (Soup.atom_resType a) (Soup.atom_resNum a) (Soup.atom_insCode a)
    (Soup.atom_chain a).

(** One turn of the loop of [parseAtomLines] on line number [iLine]. *)
Definition parseAtomLine (iLine : nat) (line : string)
    (ps : Parser * Numbering) : Parser * Numbering :=
  let '(p, st) := ps in
  if isAtomLine line then
    let tokens := Js.splitTokens line in
    match atomFields tokens st with
    | Js.Throw _ => (setError ("line " +:+ Js.decimal iLine) p, st)
    | Js.Ok (a, st') => (withSoup (Soup.addAtom (finishAtom a)) p, st')
    end
  else ps.

Fixpoint parseAtomLinesFrom (iLine : nat) (pdbLines : list string)
    (ps : Parser * Numbering) : Parser * Numbering :=
  match pdbLines with
  | [] => ps
  | line :: rest =>
      parseAtomLinesFrom (S iLine) rest (parseAtomLine iLine line ps)
  end.

Definition parseAtomLines (pdbLines : list string) (p : Parser) : Parser :=
  fst (parseAtomLinesFrom 0 pdbLines (p, initialNumbering)).

(** The loop of [parseHelixLines]; [isHelixLoop] is the loop flag and the
    [break] at a line starting with [#] ends the scan. *)
Fixpoint helixLoop (isHelixLoop : bool) (pdbLines : list string)
    (p : Parser) : Parser :=
  match pdbLines with
  | [] => p
  | line :: rest =>
      let isHelixLoop :=
        if negb isHelixLoop
        then Js.startsWith "_struct_conf.pdbx_PDB_helix_id" line
        else isHelixLoop in
      if negb isHelixLoop then helixLoop isHelixLoop rest p
      else if Js.startsWith "#" line then p
      else if negb (Js.startsWith "_struct_conf" line) then
        let tokens := Js.splitTokens line in
        let chain := Js.index tokens 4 in
        let resNumStart := Js.parseInt (Js.index tokens 5) in
        let resNumEnd := Js.parseInt (Js.index tokens 9) in
        helixLoop isHelixLoop rest
          (withSoup (paintRange "H" chain resNumStart resNumEnd)
             (setHasSecondaryStructure true p))
      else helixLoop isHelixLoop rest p
  end.

Definition parseHelixLines (pdbLines : list string) (p : Parser) : Parser :=
  helixLoop false pdbLines p.

(** The loop of [parseSheetLines].  The test on the line is
    [line.substr(0, 6) !== '_struct']. *)
Fixpoint sheetLoop (isSheetLoop : bool) (pdbLines : list string)
    (p : Parser) : Parser :=
  match pdbLines with
  | [] => p
  | line :: rest =>
      let isSheetLoop :=
        if negb isSheetLoop
        then Js.startsWith "_struct_sheet_range.sheet_id" line
        else isSheetLoop in
      if negb isSheetLoop then sheetLoop isSheetLoop rest p
      else if Js.startsWith "#" line then p
      else if negb (String.eqb (Js.substr 0 6 line) "_struct") then
        let tokens := Js.splitTokens line in
        let chain := Js.index tokens 3 in
        let resNumStart := Js.parseInt (Js.index tokens 4) in
        let resNumEnd := Js.parseInt (Js.index tokens 8) in
        sheetLoop isSheetLoop rest
          (withSoup (paintRange "E" chain resNumStart resNumEnd)
             (setHasSecondaryStructure true p))
      else sheetLoop isSheetLoop rest p
  end.

Definition parseSheetLines (pdbLines : list string) (p : Parser) : Parser :=
  sheetLoop false pdbLines p.

Definition parseSecondaryStructureLines (pdbLines : list string)
    (p : Parser) : Parser :=
  let p0 := setHasSecondaryStructure false p in
  let p1 :=
    withSoup (fun s => Soup.assignResidueProperties (Soup.iStructure s) s) p0 in
  parseSheetLines pdbLines (parseHelixLines pdbLines p1).

(** The loop of [parseTitle]; [prev] is [lines[i - 1]] when [i > 0]. *)
Fixpoint parseTitleFrom (prev : option string) (lines : list string) : string :=
  match lines with
  | [] => ""
  | line :: rest =>
      let rest' := Js.trim (Js.removeFirst "_struct.title" line) in
      if Js.startsWith "_struct.title" line && negb (String.eqb rest' "")
      then removeQuotes (Js.trim rest')
      else
        match prev with
        | Some prevLine =>
            if Js.startsWith "_struct.title" prevLine
            then removeQuotes (Js.trim line)
            else parseTitleFrom (Some line) rest
        | None => parseTitleFrom (Some line) rest
        end
  end.

Definition parseTitle (lines : list string) : string :=
  parseTitleFrom None lines.

Definition parsePdbData (pdbText pdbId : string) (p : Parser) : Parser :=
  let lines := Js.splitLines pdbText in
  if length lines =? 0 then setParsingError "No atom lines" p
  else
    let p1 := withSoup (Soup.pushStructureId pdbId (parseTitle lines)) p in
    let p2 := parseAtomLines lines p1 in
    parseSecondaryStructureLines lines p2.

End CifParser.

(* ===================================================================== *)
(** ** Vocabulary of the statements *)
(* ===================================================================== *)

(** The atom that [PdbParser.parseAtomLines] hands to [addAtom] for an
    atom line, [None] when the [try] block throws. *)
Definition pdbHandedAtom (line : string) : option Soup.Atom :=
  match PdbParser.atomFields line with
  | Js.Ok a => Some (PdbParser.finishAtom a)
  | Js.Throw _ => None
  end.

(** A terminator line of a PDB file: [line.substr(0, 3) === 'END']
    ([END] and [ENDMDL]). *)
Definition isTerminator (line : string) : bool :=
  String.eqb (Js.substr 0 3 line) "END".

(** One model block of a PDB file: the [MODEL] line, the lines of the
    model, and the terminator line that closes it. *)
Record ModelBlock : Type := mkBlock {
  blockHead : string;
  blockBody : list string;
  blockEnd : string
}.

Definition blockLines (b : ModelBlock) : list string :=
  blockHead b :: blockBody b ++ [blockEnd b].

Definition isBlock (b : ModelBlock) : Prop :=
  Js.startsWith "MODEL" (blockHead b) = true /\
  Forall (fun l => isTerminator l = false) (blockBody b) /\
  isTerminator (blockEnd b) = true.

(** The header declares an NMR ensemble. *)
Definition declaresNmr (header : list string) : Prop :=
  exists l, In l header /\
    Js.startsWith "EXPDTA" l = true /\ Js.includes "NMR" l = true.

(** The walk condition of the range loops on one residue. *)
Definition inWalk (chain : Js.value) (resNumEnd : Js.jsnum)
    (r : Soup.Residue) : bool :=
  Js.le (Soup.res_resNum r) resNumEnd &&
  Js.strictEq chain (Soup.res_chain r).

(** The residues a walk paints: the longest run of residues, from the
    head of the list, that satisfy the walk condition. *)
Fixpoint paintRun (code : string) (chain : Js.value) (resNumEnd : Js.jsnum)
    (rs : list Soup.Residue) : list Soup.Residue :=
  match rs with
  | [] => []
  | r :: rest =>
      if inWalk chain resNumEnd r
      then Soup.setSs code r :: paintRun code chain resNumEnd rest
      else rs
  end.

(** The residues from index [i] to index [j] exist and all satisfy the
    walk condition: a walk that starts at [i] gets as far as [j]. *)
Definition run (chain : Js.value) (resNumEnd : Js.jsnum)
    (rs : list Soup.Residue) (i j : nat) : Prop :=
  i <= j /\
  forall k, i <= k -> k <= j ->
    exists r, rs !! k = Some r /\ inWalk chain resNumEnd r = true.

(** The residue list after one walk from index [i]. *)
Definition painted (code : string) (chain : Js.value) (resNumEnd : Js.jsnum)
    (l : list Soup.Residue) (i : nat) : list Soup.Residue :=
  take i l ++ paintRun code chain resNumEnd (drop i l).

(** What holds of the store [s'] after the walks from the indices
    [done] over a store whose residues were [rs]. *)
Definition walked (code : string) (chain : Js.value) (resNumEnd : Js.jsnum)
    (rs : list Soup.Residue) (done : list nat) (s' : Soup.t) : Prop :=
  length (Soup.residues s') = length rs /\
  forall j r, rs !! j = Some r ->
    (Soup.residues s' !! j = Some r \/
     Soup.residues s' !! j = Some (Soup.setSs code r)) /\
    ((exists i, i ∈ done /\ run chain resNumEnd rs i j) ->
       Soup.residues s' !! j = Some (Soup.setSs code r)) /\
    ((forall i, i ∈ done -> ~ run chain resNumEnd rs i j) ->
       Soup.residues s' !! j = Some r).

(** Residue [j] is reached by a walk that starts at a residue of the
    current structure matching (chain, start). *)
Definition reached (s : Soup.t) (chain : Js.value)
    (resNumStart resNumEnd : Js.jsnum) (j : nat) : Prop :=
  exists i,
    (exists r, Soup.residues s !! i = Some r /\
       Soup.matches (Soup.iStructure s) chain resNumStart r = true) /\
    run chain resNumEnd (Soup.residues s) i j.

(** The first character of [s] that is not a digit, as a string; empty
    when [s] has none. *)
Fixpoint firstNonDigit (s : string) : string :=
  match s with
  | EmptyString => EmptyString
  | String c s' =>
      if Js.isDigit c then firstNonDigit s' else String c EmptyString
  end.

Fixpoint hasDigit (s : string) : bool :=
  match s with
  | EmptyString => false
  | String c s' => Js.isDigit c || hasDigit s'
  end.

(** The lines from the first line that starts with [opener] on. *)
Fixpoint fromOpener (opener : string) (lines : list string) : list string :=
  match lines with
  | [] => []
  | l :: rest =>
      if Js.startsWith opener l then lines else fromOpener opener rest
  end.

(** The lines before the first line that starts with [#]. *)
Fixpoint untilHash (lines : list string) : list string :=
  match lines with
  | [] => []
  | l :: rest =>
      if Js.startsWith "#" l then [] else l :: untilHash rest
  end.

(** The first loop opened by [opener]: from the first line that starts
    with [opener] up to, and without, the next line that starts with [#]. *)
Definition firstLoop (opener : string) (lines : list string) : list string :=
  untilHash (fromOpener opener lines).

(** Line [j] lies in some loop opened by [opener]: a line [i <= j] starts
    with [opener] and no line from [i] to [j] starts with [#]. *)
Definition inSomeLoop (opener : string) (lines : list string) (j : nat) : Prop :=
  exists i, i <= j /\
    (exists l, lines !! i = Some l /\ Js.startsWith opener l = true) /\
    forall k l, i <= k -> k <= j -> lines !! k = Some l ->
      Js.startsWith "#" l = false.

Definition helixOpener : string := "_struct_conf.pdbx_PDB_helix_id".
Definition sheetOpener : string := "_struct_sheet_range.sheet_id".

(** A data row of the helix loop, and of the sheet loop, as the code
    tests it. *)
Definition isHelixRow (line : string) : bool :=
  negb (Js.startsWith "_struct_conf" line).
Definition isSheetRow (line : string) : bool :=
  negb (String.eqb (Js.substr 0 6 line) "_struct").

(** The atom name of a PDB atom line as the specification words it: the
    text of columns 13-16, counted from 0. *)
Module SpecColumns.
Definition atomName (line : string) : string := Js.trim (Js.substr 13 4 line).
End SpecColumns.

(** The four fields a secondary-structure pass cannot change. *)
Definition sameOutside (p q : Parser) : Prop :=
  Soup.structures (soup q) = Soup.structures (soup p) /\
  Soup.atoms (soup q) = Soup.atoms (soup p) /\
  error q = error p /\
  parsingError q = parsingError p.


(** A line that is a one-line title record: it starts with
    [_struct.title] and something other than white space follows. *)
Definition isOneLineTitle (line : string) : bool :=
  Js.startsWith "_struct.title" line &&
  negb (String.eqb (Js.trim (Js.removeFirst "_struct.title" line)) "").

(** An mmCIF atom line whose residue-label token (token 8) is the
    sentinel [.], with the given chain (token 6) and entity (token 7). *)
Definition isSentinelAtom (chain entity : string) (line : string) : Prop :=
  CifParser.isAtomLine line = true /\
  Js.index (Js.splitTokens line) 8 = Js.Str "." /\
  Js.index (Js.splitTokens line) 6 = Js.Str chain /\
  Js.index (Js.splitTokens line) 7 = Js.Str entity.

(** The residue type (token 5) of the line is water. *)
Definition isWater (line : string) : bool :=
  Js.isStr (Js.index (Js.splitTokens line) 5) "HOH".

(* ===================================================================== *)
(** ** Sample inputs *)
(* ===================================================================== *)

Module Samples.

Definition lf : string := String (ascii_of_nat 10) EmptyString.

(** The text of a file from its lines, each closed by a line feed. *)
Fixpoint fileText (lines : list string) : string :=
  match lines with
  | [] => EmptyString
  | l :: rest => l +:+ lf +:+ fileText rest
  end.

Definition atomN : string :=
  "ATOM      1  N   MET A   1      27.340  24.430   2.614  1.00  9.67           N  ".
Definition atomCA : string :=
  "ATOM      2  CA  MET A   1      26.266  25.413   2.842  1.00 10.38           C  ".
Definition atomHD11 : string :=
  "ATOM      3 HD11 LEU A   2      25.112  24.880   3.649  1.00  9.62           H  ".

Definition model (serial : string) (body : list string) : ModelBlock :=
  mkBlock ("MODEL        " +:+ serial) body "ENDMDL".

(** An NMR ensemble of five models. *)
Definition nmrHeader : list string :=
  ["TITLE     SOLUTION STRUCTURE"; "EXPDTA    SOLUTION NMR"].
Definition nmrFirst : ModelBlock := model "1" [atomN; atomCA].
Definition nmrOthers : list ModelBlock :=
  [model "2" [atomN; atomCA]; model "3" [atomN; atomCA];
   model "4" [atomN; atomCA]; model "5" [atomN; atomCA]].
Definition nmrText : string :=
  fileText (nmrHeader ++ concat (map blockLines (nmrFirst :: nmrOthers))).

(** Three models and no NMR header. *)
Definition threeHeader : list string :=
  ["TITLE     THREE MODELS"; "EXPDTA    X-RAY DIFFRACTION"].
Definition three1 : ModelBlock := mkBlock "MODEL        1" [atomN; atomCA] "END".
Definition three2 : ModelBlock := mkBlock "MODEL        2" [atomN] "END".
Definition three3 : ModelBlock := mkBlock "MODEL        3" [atomN; atomCA] "END".
Definition threeText : string :=
  fileText (threeHeader ++ blockLines three1 ++ blockLines three2 ++
            blockLines three3).

(** A file of three atom lines whose second line has a corrupted x
    coordinate. *)
Definition corruptCA : string :=
  "ATOM      2  CA  MET A   1      xx.xxx  25.413   2.842  1.00 10.38           C  ".
Definition corruptText : string := fileText [atomN; corruptCA; atomHD11].

(** The two-line title of the specification. *)
Definition titleText : string := fileText ["_struct.title"; "'My Protein'"].

(** An atom line in the old layout, where columns 73-80 hold the entry
    code and a line number instead of segment, element and charge. *)
Definition atomOldLayout : string :=
  "ATOM      1  N   MET A   1      27.340  24.430   2.614  1.00  9.67      1CRN 170".

(** An mmCIF atom line whose label sequence number is 1 and whose author
    sequence number is 101. *)
Definition cifAtom : string :=
  "ATOM 1 N N . MET A 1 1 ? 27.340 24.430 2.614 1.00 9.67 ? 101 MET A N 1".

Definition cifTokens : list string :=
  ["ATOM"; "1"; "N"; "N"; "."; "MET"; "A"; "1"; "1"; "?"; "27.340"; "24.430";
   "2.614"; "1.00"; "9.67"; "?"; "101"; "MET"; "A"; "N"; "1"].

(** Three mmCIF atom lines with the sentinel as residue label: two atoms
    of a ligand in chain C, then one atom in chain D. *)
Definition ligand1 : string :=
  "HETATM 10 C C1 . NAG C 3 . ? 1.000 2.000 3.000 1.00 20.00 ? 501 NAG A C1 1".
Definition ligand2 : string :=
  "HETATM 11 C C2 . NAG C 3 . ? 2.000 2.000 3.000 1.00 20.00 ? 501 NAG A C2 1".
Definition ligand3 : string :=
  "HETATM 12 C C1 . NAG D 3 . ? 9.000 2.000 3.000 1.00 20.00 ? 502 NAG A C1 1".

(** The tokens of a water atom with the sentinel as residue label. *)
Definition waterTokens : list string :=
  ["HETATM"; "20"; "O"; "O"; "."; "HOH"; "E"; "4"; "."; "?"; "1.000"; "2.000";
   "3.000"; "1.00"; "30.00"; "?"; "601"; "HOH"; "A"; "O"; "1"].

(** A helix record for chain A, residues 10 to 15, and a chain A whose
    residues are numbered 10, 3, 11, 16 in file order. *)
Definition helixLine : string :=
  "HELIX    1   1 ALA A   10  ALA A   15  1".
Definition helixAtoms : list string :=
  ["ATOM      1  CA  ALA A  10       1.000   2.000   3.000  1.00 20.00           C  ";
   "ATOM      2  CA  GLY A   3       2.000   2.000   3.000  1.00 20.00           C  ";
   "ATOM      3  CA  ALA A  11       3.000   2.000   3.000  1.00 20.00           C  ";
   "ATOM      4  CA  ALA A  16       4.000   2.000   3.000  1.00 20.00           C  "].
Definition helixText : string := fileText (helixLine :: helixAtoms).

(** The parser after the atoms of [helixAtoms] were loaded into a first
    structure. *)
Definition helixLoaded : Parser :=
  PdbParser.parseAtomLines helixAtoms
    (withSoup (Soup.pushStructureId "1abc" "") (constructor Soup.empty)).

(** An mmCIF text with two helix loops: the first has no row, the second
    has one. *)
Definition twoLoops : list string :=
  ["_struct_conf.pdbx_PDB_helix_id";
   "#";
   "_struct_conf.pdbx_PDB_helix_id";
   "HELX_P HELX_P1 1 SER A 5 ? GLN A 10 ? 1";
   "#"].
Definition twoLoopsText : string := fileText twoLoops.

(** A PDB text without any atom record. *)
Definition noAtomsText : string := fileText ["HEADER    EMPTY"; "END"].

(** The three models of [threeText], with the usual closing [END] line
    after the last [ENDMDL]. *)
Definition threeWithEndText : string :=
  fileText (threeHeader ++
            blockLines (model "1" [atomN; atomCA]) ++
            blockLines (model "2" [atomN]) ++
            blockLines (model "3" [atomN; atomCA]) ++ ["END"]).

(** An mmCIF text whose second atom line is cut after three tokens. *)
Definition cifCutText : string :=
  fileText [ligand1; "HETATM 11 C"; ligand3].

End Samples.

(* ===================================================================== *)
(** ** [handlers.js]: the pure helpers of the file browser *)
(* ===================================================================== *)

Module Handlers.

(** The loop of [parsetTitleFromPdbText] over the lines of the text. *)
Fixpoint titleFrom (result : string) (lines : list string) : string :=
  match lines with
  | [] => result
  | line :: rest =>
      if String.eqb (Js.substr 0 5 line) "TITLE"
      then titleFrom (result +:+ Js.substringFrom 10 line) rest
      else titleFrom result rest
  end.

Definition parsetTitleFromPdbText (text : string) : string :=
  titleFrom "" (Js.splitLines text).

(** [pdb.replace('.pdb', '').replace('.pdb1', '').replace('.cif', '')]
    followed by [filename += '.views.json']. *)
Definition getViewsJson (pdb : string) : string :=
  let filename :=
    Js.removeFirst ".cif" (Js.removeFirst ".pdb1" (Js.removeFirst ".pdb" pdb)) in
  filename +:+ ".views.json".

End Handlers.

(* ===================================================================== *)
(** ** Vocabulary of the further properties *)
(* ===================================================================== *)

(** A [TITLE] line of a PDB file, as both title loops test it. *)
Definition isTitleLine (line : string) : bool :=
  String.eqb (Js.substr 0 5 line) "TITLE".

(** The strings of a list, one after the other. *)
Fixpoint joinAll (parts : list string) : string :=
  match parts with
  | [] => EmptyString
  | s :: rest => s +:+ joinAll rest
  end.

(** [lines.join(sep)]. *)
Fixpoint joinWith (sep : string) (lines : list string) : string :=
  match lines with
  | [] => EmptyString
  | l :: rest =>
      match rest with
      | [] => l
      | _ :: _ => l +:+ sep +:+ joinWith sep rest
      end
  end.

Fixpoint allChars (f : ascii -> bool) (s : string) : bool :=
  match s with
  | EmptyString => true
  | String c s' => f c && allChars f s'
  end.

(** A line without carriage return and line feed. *)
Definition plainLine (l : string) : bool :=
  allChars (fun c => negb (Js.isCR c) && negb (Js.isLF c)) l.

(** The two line breaks that [split(/\r?\n/)] accepts. *)
Definition lf : string := String (ascii_of_nat 10) EmptyString.
Definition crlf : string :=
  String (ascii_of_nat 13) (String (ascii_of_nat 10) EmptyString).

(** The first character of the string is a digit. *)
Definition headIsDigit (s : string) : bool :=
  match s with
  | EmptyString => false
  | String c _ => Js.isDigit c
  end.

(** A [HELIX] or [SHEET] record of a PDB file. *)
Definition isSsRecord (line : string) : bool :=
  String.eqb (Js.substr 0 5 line) "HELIX" ||
  String.eqb (Js.substr 0 5 line) "SHEET".

(** Residue [r'] is residue [r] with, at most, its secondary-structure
    code replaced by [H] or [E]. *)
Definition ssOnly (r r' : Soup.Residue) : Prop :=
  Soup.res_iStructure r' = Soup.res_iStructure r /\
  Soup.res_chain r' = Soup.res_chain r /\
  Soup.res_resNum r' = Soup.res_resNum r /\
  Soup.res_insCode r' = Soup.res_insCode r /\
  (Soup.res_ss r' = Soup.res_ss r \/ Soup.res_ss r' = "H" \/
   Soup.res_ss r' = "E").

(** The lines before the first terminator line. *)
Fixpoint beforeTerminator (lines : list string) : list string :=
  match lines with
  | [] => []
  | l :: rest => if isTerminator l then [] else l :: beforeTerminator rest
  end.

(** The lines after the last terminator line; [cur] holds the lines since
    the last terminator seen so far. *)
Fixpoint lastSegment (cur lines : list string) : list string :=
  match lines with
  | [] => cur
  | l :: rest =>
      if isTerminator l then lastSegment [] rest
      else lastSegment (cur ++ [l]) rest
  end.

(** The number of models a PDB text without NMR header is loaded as: one
    per terminator line, and one more when an atom line follows the last
    terminator. *)
Definition modelCount (lines : list string) : nat :=
  length (List.filter isTerminator lines) +
  (if existsb PdbParser.isAtomLine (lastSegment [] lines) then 1 else 0).

(** An mmCIF atom line whose [try] block throws (fewer than four tokens),
    and one that reaches [addAtom]. *)
Definition cifDropped (line : string) : bool :=
  CifParser.isAtomLine line && (length (Js.splitTokens line) <=? 3).
Definition cifKept (line : string) : bool :=
  CifParser.isAtomLine line && (3 <? length (Js.splitTokens line)).

(** The line numbers, counted from [i], of the lines whose [try] block
    throws. *)
Fixpoint droppedAt (i : nat) (lines : list string) : list nat :=
  match lines with
  | [] => []
  | l :: rest =>
      if cifDropped l then i :: droppedAt (S i) rest
      else droppedAt (S i) rest
  end.

(** A line that, if it is an mmCIF atom line, has the sentinel as its
    residue-label token. *)
Definition labelIsSentinel (line : string) : Prop :=
  CifParser.isAtomLine line = true ->
  Js.index (Js.splitTokens line) 8 = Js.Str ".".

(** Each number of the list is [n] or [n + 1], where [n] is the number
    before it ([n] itself for the first one). *)
Fixpoint stepsFrom (n : Z) (ns : list Js.jsnum) : Prop :=
  match ns with
  | [] => True
  | m :: rest =>
      (m = Js.Int n /\ stepsFrom n rest) \/
      (m = Js.Int (n + 1) /\ stepsFrom (n + 1) rest)
  end.

(** The numbers start at 1 and go up in steps of 0 or 1. *)
Definition countsFromOne (ns : list Js.jsnum) : Prop :=
  match ns with
  | [] => True
  | m :: rest => m = Js.Int 1 /\ stepsFrom 1 rest
  end.


(** Further sample inputs. *)
Module MoreSamples.

(** A sheet record for chain A, residues 10 to 15. *)
Definition sheetLine : string :=
  "SHEET    1   A 2 ALA A  10  ALA A  15  0".

(** A helix record whose end lies below its start. *)
Definition backwardHelix : string :=
  "HELIX    1   1 ALA A   11  ALA A   10  1".

(** The lines of a PDB file with a title, two models closed by [ENDMDL]
    and the closing [END] line. *)
Definition twoModels : list string :=
  ["TITLE     TWO "; "TITLE    2MODELS";
   "MODEL        1"; Samples.atomN; Samples.atomCA; "ENDMDL";
   "MODEL        2"; Samples.atomN; "ENDMDL"; "END"; ""].

(** The lines of an NMR file whose first model is closed by [ENDMDL]. *)
Definition nmrLines : list string :=
  ["EXPDTA    SOLUTION NMR";
   "MODEL        1"; Samples.atomN; Samples.atomCA; "ENDMDL";
   "MODEL        2"; Samples.atomN; Samples.atomCA; "ENDMDL"; "END"; ""].

(** mmCIF atom lines: a full one, one cut after three tokens, a full
    one, and a last one cut after two tokens. *)
Definition cutLines : list string :=
  [Samples.ligand1; "HETATM 11 C"; Samples.ligand3; "ATOM 13"].


Definition twoModelsText : string := joinWith lf twoModels.
Definition nmrLinesText : string := joinWith lf nmrLines.

End MoreSamples.

(* ===================================================================== *)
(** ** Frame lemmas: what each operation leaves alone *)
(* ===================================================================== *)

Create Rewrite HintDb frame.

Lemma walk_structures fuel code chain e i s :
  Soup.structures (walk fuel code chain e i s) = Soup.structures s.
Proof.
  revert i s. induction fuel as [|fuel IH]; intros i s; simpl; [reflexivity|].
  destruct (Soup.residues s !! i) as [r|]; [|reflexivity].
  destruct (_ && _); [|reflexivity].
  rewrite IH. reflexivity.
Qed.

Lemma walk_atoms fuel code chain e i s :
  Soup.atoms (walk fuel code chain e i s) = Soup.atoms s.
Proof.
  revert i s. induction fuel as [|fuel IH]; intros i s; simpl; [reflexivity|].
  destruct (Soup.residues s !! i) as [r|]; [|reflexivity].
  destruct (_ && _); [|reflexivity].
  rewrite IH. reflexivity.
Qed.

Lemma walk_length fuel code chain e i s :
  length (Soup.residues (walk fuel code chain e i s)) = length (Soup.residues s).
Proof.
  revert i s. induction fuel as [|fuel IH]; intros i s; simpl; [reflexivity|].
  destruct (Soup.residues s !! i) as [r|]; [|reflexivity].
  destruct (_ && _); [|reflexivity].
  rewrite IH. simpl. apply length_alter.
Qed.

Lemma paintRange_fold_structures code chain e idxs s :
  Soup.structures
    (fold_left
       (fun s' iRes => walk (length (Soup.residues s')) code chain e iRes s')
       idxs s) = Soup.structures s.
Proof.
  revert s. induction idxs as [|i idxs IH]; intros s; simpl; [reflexivity|].
  rewrite IH. apply walk_structures.
Qed.

Lemma paintRange_fold_atoms code chain e idxs s :
  Soup.atoms
    (fold_left
       (fun s' iRes => walk (length (Soup.residues s')) code chain e iRes s')
       idxs s) = Soup.atoms s.
Proof.
  revert s. induction idxs as [|i idxs IH]; intros s; simpl; [reflexivity|].
  rewrite IH. apply walk_atoms.
Qed.

Lemma paintRange_structures code chain st e s :
  Soup.structures (paintRange code chain st e s) = Soup.structures s.
Proof. apply paintRange_fold_structures. Qed.

Lemma paintRange_atoms code chain st e s :
  Soup.atoms (paintRange code chain st e s) = Soup.atoms s.
Proof. apply paintRange_fold_atoms. Qed.

#[export] Hint Rewrite walk_structures walk_atoms paintRange_structures
  paintRange_atoms : frame.

Lemma sameOutside_refl p : sameOutside p p.
Proof. repeat split. Qed.

Lemma sameOutside_trans p q r :
  sameOutside p q -> sameOutside q r -> sameOutside p r.
Proof.
  intros (a1 & a2 & a3 & a4) (b1 & b2 & b3 & b4).
  repeat split; congruence.
Qed.

Lemma sameOutside_paint code chain st e b p :
  sameOutside p
    (withSoup (paintRange code chain st e) (setHasSecondaryStructure b p)).
Proof.
  repeat split; simpl; autorewrite with frame; reflexivity.
Qed.

Lemma pdb_ss_line_frame line p :
  sameOutside p (PdbParser.parseSecondaryStructureLine line p).
Proof.
  unfold PdbParser.parseSecondaryStructureLine.
  destruct (String.eqb _ "HELIX"); [apply sameOutside_paint|].
  destruct (String.eqb _ "SHEET"); [apply sameOutside_paint|].
  apply sameOutside_refl.
Qed.

Lemma pdb_ss_fold_frame lines p :
  sameOutside p
    (fold_left (fun q line => PdbParser.parseSecondaryStructureLine line q)
       lines p).
Proof.
  revert p. induction lines as [|l lines IH]; intros p; simpl.
  - apply sameOutside_refl.
  - eapply sameOutside_trans; [apply pdb_ss_line_frame | apply IH].
Qed.

Lemma pdb_ss_frame lines p :
  sameOutside p (PdbParser.parseSecondaryStructureLines lines p).
Proof.
  unfold PdbParser.parseSecondaryStructureLines.
  eapply sameOutside_trans; [|apply pdb_ss_fold_frame].
  repeat split.
Qed.

Lemma cif_helix_frame b lines p :
  sameOutside p (CifParser.helixLoop b lines p).
Proof.
  revert b p. induction lines as [|l lines IH]; intros b p; simpl.
  - apply sameOutside_refl.
  - destruct (negb (if negb b then _ else b)); [apply IH|].
    destruct (Js.startsWith "#" l); [apply sameOutside_refl|].
    destruct (negb (Js.startsWith "_struct_conf" l)); [|apply IH].
    eapply sameOutside_trans; [apply sameOutside_paint | apply IH].
Qed.

Lemma cif_sheet_frame b lines p :
  sameOutside p (CifParser.sheetLoop b lines p).
Proof.
  revert b p. induction lines as [|l lines IH]; intros b p; simpl.
  - apply sameOutside_refl.
  - destruct (negb (if negb b then _ else b)); [apply IH|].
    destruct (Js.startsWith "#" l); [apply sameOutside_refl|].
    destruct (negb (String.eqb _ "_struct")); [|apply IH].
    eapply sameOutside_trans; [apply sameOutside_paint | apply IH].
Qed.

Lemma cif_ss_frame lines p :
  sameOutside p (CifParser.parseSecondaryStructureLines lines p).
Proof.
  unfold CifParser.parseSecondaryStructureLines,
    CifParser.parseSheetLines, CifParser.parseHelixLines.
  eapply sameOutside_trans; [|apply cif_sheet_frame].
  eapply sameOutside_trans; [|apply cif_helix_frame].
  repeat split.
Qed.

(* ===================================================================== *)
(** ** [PdbParser.parseAtomLines] *)
(* ===================================================================== *)

(** No assignment of the [try] block of the PDB parser can throw. *)
Lemma pdb_atomFields_ok line :
  exists a, PdbParser.atomFields line = Js.Ok a.
Proof. eexists. reflexivity. Qed.

Lemma pdbHandedAtom_total line : is_Some (pdbHandedAtom line).
Proof. eexists. reflexivity. Qed.

(** What one turn of the loop does to the parser. *)
Lemma pdb_parseAtomLine_spec i line p :
  let q := PdbParser.parseAtomLine i line p in
  Soup.structures (soup q) = Soup.structures (soup p) /\
  Soup.atoms (soup q) =
    Soup.atoms (soup p) ++
    omap pdbHandedAtom (List.filter PdbParser.isAtomLine [line]) /\
  error q = error p /\
  parsingError q = parsingError p /\
  hasSecondaryStructure q = hasSecondaryStructure p.
Proof.
  unfold PdbParser.parseAtomLine. simpl.
  destruct (PdbParser.isAtomLine line); simpl.
  - repeat split.
  - rewrite app_nil_r. repeat split.
Qed.

Lemma filter_cons_app {A} (f : A -> bool) x l :
  List.filter f (x :: l) = List.filter f [x] ++ List.filter f l.
Proof. simpl. destruct (f x); reflexivity. Qed.

Lemma pdb_parseAtomLinesFrom_spec lines : forall i p,
  let q := PdbParser.parseAtomLinesFrom i lines p in
  Soup.structures (soup q) = Soup.structures (soup p) /\
  Soup.atoms (soup q) =
    Soup.atoms (soup p) ++
    omap pdbHandedAtom (List.filter PdbParser.isAtomLine lines) /\
  error q = error p /\
  parsingError q = parsingError p /\
  hasSecondaryStructure q = hasSecondaryStructure p.
Proof.
  induction lines as [|l lines IH]; intros i p.
  - simpl. rewrite app_nil_r. repeat split.
  - cbn [PdbParser.parseAtomLinesFrom]. cbv zeta.
    destruct (IH (S i) (PdbParser.parseAtomLine i l p))
      as (h1 & h2 & h3 & h4 & h5).
    destruct (pdb_parseAtomLine_spec i l p) as (g1 & g2 & g3 & g4 & g5).
    rewrite h1, h2, h3, h4, h5, g1, g2, g3, g4, g5.
    rewrite (filter_cons_app _ l lines), omap_app, app_assoc.
    repeat split.
Qed.

Lemma length_omap_total {A B} (f : A -> option B) (l : list A) :
  (forall x, is_Some (f x)) -> length (omap f l) = length l.
Proof.
  intros Hf. induction l as [|x l IH]; [reflexivity|].
  cbn [omap list_omap]. destruct (Hf x) as [y Hy]. rewrite Hy.
  simpl. f_equal. exact IH.
Qed.

(** Every atom line, well formed or not, reaches [addAtom]; [error] is
    never written. *)
Lemma pdb_parseAtomLines_keeps_every_atom_line lines p :
  let q := PdbParser.parseAtomLines lines p in
  length (Soup.atoms (soup q)) =
    length (Soup.atoms (soup p)) +
    length (List.filter PdbParser.isAtomLine lines) /\
  error q = error p.
Proof.
  unfold PdbParser.parseAtomLines.
  destruct (pdb_parseAtomLinesFrom_spec lines 0 p) as (_ & h2 & h3 & _).
  cbv zeta. rewrite h2, h3, length_app. split; [|reflexivity].
  f_equal. apply length_omap_total, pdbHandedAtom_total.
Qed.

(* ===================================================================== *)
(** ** [PdbParser.parsePdbData]: sorting the lines into models *)
(* ===================================================================== *)

Lemma terminator_not_atom l :
  isTerminator l = true -> PdbParser.isAtomLine l = false.
Proof.
  unfold isTerminator, PdbParser.isAtomLine, Js.substr. intros H.
  apply String.eqb_eq in H.
  destruct l as [|c1 [|c2 [|c3 l]]]; cbn in H; try discriminate H.
  injection H as -> -> ->.
  destruct l as [|c4 [|c5 [|c6 l]]]; reflexivity.
Qed.

Lemma model_line_plain l :
  Js.startsWith "MODEL" l = true ->
  PdbParser.isAtomLine l = false /\ isTerminator l = false.
Proof.
  unfold Js.startsWith. intros H.
  apply String.prefix_correct in H. cbn in H.
  unfold isTerminator, PdbParser.isAtomLine, Js.substr.
  destruct l as [|c1 [|c2 [|c3 [|c4 [|c5 l]]]]]; cbn in H; try discriminate H.
  injection H as -> -> -> -> ->.
  split; [destruct l as [|c6 l]|]; reflexivity.
Qed.

(** A stretch of lines without a terminator only feeds the open bucket. *)
Lemma bucketLines_segment nmr seg : forall rest done cur,
  Forall (fun l => isTerminator l = false) seg ->
  PdbParser.bucketLines nmr (seg ++ rest) (done ++ [cur]) (length done) =
  PdbParser.bucketLines nmr rest
    (done ++ [cur ++ List.filter PdbParser.isAtomLine seg]) (length done).
Proof.
  induction seg as [|l seg IH]; intros rest done cur Hseg.
  - simpl. rewrite app_nil_r. reflexivity.
  - inversion Hseg as [|? ? Hl Hseg']; subst.
    cbn [app PdbParser.bucketLines List.filter].
    destruct (PdbParser.isAtomLine l) eqn:Ha.
    + replace (alter (fun m => m ++ [l]) (length done) (done ++ [cur]))
        with (done ++ [cur ++ [l]]).
      * rewrite IH by assumption.
        rewrite <- app_assoc. reflexivity.
      * rewrite alter_app_r_alt by lia.
        rewrite Nat.sub_diag. reflexivity.
    + unfold isTerminator in Hl. rewrite Hl. apply IH. assumption.
Qed.

Lemma bucketLines_terminator l rest models i :
  isTerminator l = true ->
  PdbParser.bucketLines false (l :: rest) models i =
  PdbParser.bucketLines false rest (models ++ [[]]) (i + 1).
Proof.
  intros H. cbn [PdbParser.bucketLines].
  rewrite (terminator_not_atom l H).
  unfold isTerminator in H. rewrite H. reflexivity.
Qed.

Lemma bucketLines_terminator_nmr l rest models i :
  isTerminator l = true ->
  PdbParser.bucketLines true (l :: rest) models i = (models, i).
Proof.
  intros H. cbn [PdbParser.bucketLines].
  rewrite (terminator_not_atom l H).
  unfold isTerminator in H. rewrite H. reflexivity.
Qed.

(** [iModel] indexes the last bucket at every turn, so the read
    [models[iModel]] after the loop is never [undefined]. *)
Lemma bucketLines_last nmr lines : forall done cur,
  exists done' cur',
    PdbParser.bucketLines nmr lines (done ++ [cur]) (length done) =
    (done' ++ [cur'], length done').
Proof.
  induction lines as [|l lines IH]; intros done cur.
  - exists done, cur. reflexivity.
  - cbn [PdbParser.bucketLines].
    destruct (PdbParser.isAtomLine l).
    + rewrite alter_app_r_alt by lia. rewrite Nat.sub_diag. apply IH.
    + destruct (String.eqb _ "END"); [|apply IH].
      destruct nmr; [exists done, cur; reflexivity|].
      replace (length done + 1) with (length (done ++ [cur]))
        by (rewrite length_app; reflexivity).
      apply IH.
Qed.

Lemma dropEmptyModel_empty done :
  PdbParser.dropEmptyModel (done ++ [[]]) (length done) = done.
Proof.
  unfold PdbParser.dropEmptyModel.
  rewrite lookup_app_r by lia. rewrite Nat.sub_diag. simpl.
  apply removelast_last.
Qed.

Lemma dropEmptyModel_full done m :
  m <> [] ->
  PdbParser.dropEmptyModel (done ++ [m]) (length done) = done ++ [m].
Proof.
  intros Hm. unfold PdbParser.dropEmptyModel.
  rewrite lookup_app_r by lia. rewrite Nat.sub_diag. simpl.
  destruct m; [congruence|reflexivity].
Qed.

Lemma dropEmptyModel_single m :
  m <> [] -> PdbParser.dropEmptyModel [m] 0 = [m].
Proof. exact (dropEmptyModel_full [] m). Qed.

(** Loading the models pushes one structure per model, in order. *)
Lemma loadModels_structures pdbId title lines nModel models : forall iModel p,
  Soup.structures
    (soup (PdbParser.loadModels pdbId title lines nModel iModel models p)) =
  Soup.structures (soup p) ++
  map (fun k => (PdbParser.structureId pdbId nModel k, title))
      (seq iModel (length models)).
Proof.
  induction models as [|m models IH]; intros iModel p.
  - simpl. rewrite app_nil_r. reflexivity.
  - cbn [PdbParser.loadModels length seq map]. cbv zeta.
    rewrite IH.
    match goal with
    | |- context [PdbParser.parseSecondaryStructureLines lines ?q] =>
        destruct (pdb_ss_frame lines q) as (h1 & _); rewrite h1
    end.
    match goal with
    | |- context [PdbParser.parseAtomLines m ?q] =>
        destruct (pdb_parseAtomLinesFrom_spec m 0 q) as (g1 & _);
        unfold PdbParser.parseAtomLines; rewrite g1
    end.
    cbn [withSoup soup Soup.pushStructureId Soup.structures].
    rewrite <- app_assoc. reflexivity.
Qed.

(** Loading the models hands over the atoms of each model in turn. *)
Lemma loadModels_atoms pdbId title lines nModel models : forall iModel p,
  Soup.atoms
    (soup (PdbParser.loadModels pdbId title lines nModel iModel models p)) =
  Soup.atoms (soup p) ++
  omap pdbHandedAtom (List.filter PdbParser.isAtomLine (concat models)).
Proof.
  induction models as [|m models IH]; intros iModel p.
  - simpl. rewrite app_nil_r. reflexivity.
  - cbn [PdbParser.loadModels concat]. cbv zeta.
    rewrite IH.
    match goal with
    | |- context [PdbParser.parseSecondaryStructureLines lines ?q] =>
        destruct (pdb_ss_frame lines q) as (_ & h2 & _); rewrite h2
    end.
    match goal with
    | |- context [PdbParser.parseAtomLines m ?q] =>
        destruct (pdb_parseAtomLinesFrom_spec m 0 q) as (_ & g2 & _);
        unfold PdbParser.parseAtomLines; rewrite g2
    end.
    simpl. rewrite List.filter_app, omap_app, <- app_assoc. reflexivity.
Qed.

Lemma bucketLines_block seg t : forall rest done cur,
  Forall (fun l => isTerminator l = false) seg ->
  isTerminator t = true ->
  PdbParser.bucketLines false (seg ++ t :: rest) (done ++ [cur]) (length done) =
  PdbParser.bucketLines false rest
    ((done ++ [cur ++ List.filter PdbParser.isAtomLine seg]) ++ [[]])
    (length (done ++ [cur ++ List.filter PdbParser.isAtomLine seg])).
Proof.
  intros rest done cur Hseg Ht.
  rewrite bucketLines_segment by assumption.
  rewrite bucketLines_terminator by assumption.
  rewrite length_app. reflexivity.
Qed.

Lemma isNmr_declared header rest :
  declaresNmr header -> PdbParser.isNmr (header ++ rest) = true.
Proof.
  intros (l & Hin & Hs & Hi).
  induction header as [|h header IH]; [destruct Hin|].
  cbn [app PdbParser.isNmr].
  destruct Hin as [->|Hin].
  - rewrite Hs, Hi. reflexivity.
  - destruct (_ && _); [reflexivity|]. apply IH. assumption.
Qed.

Lemma block_segment (b : ModelBlock) :
  isBlock b ->
  Forall (fun l => isTerminator l = false) (blockHead b :: blockBody b) /\
  List.filter PdbParser.isAtomLine (blockHead b :: blockBody b) =
    List.filter PdbParser.isAtomLine (blockBody b).
Proof.
  intros (Hh & Hb & _).
  destruct (model_line_plain _ Hh) as (Ha & Ht).
  split.
  - constructor; assumption.
  - cbn [List.filter]. rewrite Ha. reflexivity.
Qed.

Lemma filter_idem {A} (f : A -> bool) l :
  List.filter f (List.filter f l) = List.filter f l.
Proof.
  induction l as [|x l IH]; [reflexivity|].
  simpl. destruct (f x) eqn:E; simpl; rewrite ?E, IH; reflexivity.
Qed.

Lemma filter_nonempty {A} (f : A -> bool) l :
  existsb f l = true -> List.filter f l <> [].
Proof.
  induction l as [|x l IH]; simpl; [discriminate|].
  destruct (f x); simpl; [discriminate|exact IH].
Qed.

(** With an NMR header the scan stops at the first terminator: one bucket,
    filled with the atom lines before it. *)
Lemma nmr_models header first rest :
  declaresNmr header ->
  Forall (fun l => isTerminator l = false) header ->
  isBlock first ->
  PdbParser.bucketLines true (header ++ blockLines first ++ rest) [[]] 0 =
  ([List.filter PdbParser.isAtomLine (header ++ blockBody first)], 0).
Proof.
  intros Hnmr Hheader Hfirst.
  destruct (block_segment first Hfirst) as (Hseg & Hfilter).
  destruct Hfirst as (_ & _ & Hend).
  unfold blockLines.
  replace (header ++ (blockHead first :: blockBody first ++ [blockEnd first]) ++ rest)
    with ((header ++ blockHead first :: blockBody first) ++ blockEnd first :: rest).
  2:{ rewrite <- !app_assoc. simpl. rewrite <- !app_assoc. reflexivity. }
  rewrite (bucketLines_segment true _ _ [] []).
  2:{ apply Forall_app. split; assumption. }
  rewrite bucketLines_terminator_nmr by assumption.
  cbn [app length]. rewrite !List.filter_app, Hfilter. reflexivity.
Qed.

(** C4.  A PDB file whose header has an [EXPDTA] line with [NMR] and
    which holds a first [MODEL]/[ENDMDL] block (with at least one atom
    line) followed by any number of further blocks: [parsePdbData] pushes
    exactly one structure, under the caller's identifier without a
    suffix, and hands over exactly the atom lines that precede the first
    terminator line; nothing of the later blocks is read. *)
Theorem nmr_ensemble_keeps_first_model_only
    (pdbText pdbId : string) (p : Parser)
    (header trailer : list string)
    (first : ModelBlock) (others : list ModelBlock) :
  Js.splitLines pdbText =
    header ++ concat (map blockLines (first :: others)) ++ trailer ->
  declaresNmr header ->
  Forall (fun l => isTerminator l = false) header ->
  isBlock first ->
  existsb PdbParser.isAtomLine (blockBody first) = true ->
  let q := PdbParser.parsePdbData pdbText pdbId p in
  Soup.structures (soup q) =
    Soup.structures (soup p) ++
    [(pdbId, PdbParser.parseTitle (Js.splitLines pdbText))] /\
  Soup.atoms (soup q) =
    Soup.atoms (soup p) ++
    omap pdbHandedAtom
      (List.filter PdbParser.isAtomLine (header ++ blockBody first)).
Proof.
  intros Hlines Hnmr Hheader Hfirst Hatom.
  unfold PdbParser.parsePdbData. rewrite Hlines. cbv zeta.
  rewrite (isNmr_declared header _ Hnmr).
  replace (length (header ++ concat (map blockLines (first :: others)) ++ trailer) =? 0)
    with false.
  2:{ symmetry. apply Nat.eqb_neq. rewrite length_app. simpl. lia. }
  cbn [map concat]. rewrite <- (app_assoc (blockLines first)).
  rewrite nmr_models by assumption.
  rewrite dropEmptyModel_single.
  2:{ rewrite List.filter_app. intros Hnil.
      apply app_eq_nil in Hnil. destruct Hnil as (_ & Hnil).
      exact (filter_nonempty _ _ Hatom Hnil). }
  split.
  - rewrite loadModels_structures. reflexivity.
  - rewrite loadModels_atoms. cbn [app concat]. rewrite app_nil_r.
    rewrite filter_idem. reflexivity.
Qed.

Lemma nmr_ensemble_witness :
  let q := PdbParser.parsePdbData Samples.nmrText "1abc"
             (constructor Soup.empty) in
  Soup.structures (soup q) = [("1abc", "SOLUTION STRUCTURE")] /\
  Soup.atoms (soup q) =
    omap pdbHandedAtom [Samples.atomN; Samples.atomCA].
Proof.
  refine (nmr_ensemble_keeps_first_model_only Samples.nmrText "1abc"
            (constructor Soup.empty) Samples.nmrHeader [""]
            Samples.nmrFirst Samples.nmrOthers _ _ _ _ _).
  - vm_compute. reflexivity.
  - exists "EXPDTA    SOLUTION NMR". repeat split. right. left. reflexivity.
  - repeat constructor.
  - repeat split. repeat constructor.
  - reflexivity.
Defined.

(** Without an NMR header, three blocks fill three buckets and leave a
    fourth, empty one open for the lines that follow. *)
Lemma three_models header rest b1 b2 b3 :
  Forall (fun l => isTerminator l = false) header ->
  isBlock b1 -> isBlock b2 -> isBlock b3 ->
  PdbParser.bucketLines false
    (header ++ blockLines b1 ++ blockLines b2 ++ blockLines b3 ++ rest)
    [[]] 0 =
  PdbParser.bucketLines false rest
    [List.filter PdbParser.isAtomLine (header ++ blockBody b1);
     List.filter PdbParser.isAtomLine (blockBody b2);
     List.filter PdbParser.isAtomLine (blockBody b3);
     []] 3.
Proof.
  intros Hheader H1 H2 H3.
  destruct (block_segment b1 H1) as (Hs1 & Hf1).
  destruct (block_segment b2 H2) as (Hs2 & Hf2).
  destruct (block_segment b3 H3) as (Hs3 & Hf3).
  destruct H1 as (_ & _ & He1), H2 as (_ & _ & He2), H3 as (_ & _ & He3).
  unfold blockLines.
  replace (header ++
      (blockHead b1 :: blockBody b1 ++ [blockEnd b1]) ++
      (blockHead b2 :: blockBody b2 ++ [blockEnd b2]) ++
      (blockHead b3 :: blockBody b3 ++ [blockEnd b3]) ++ rest)
    with ((header ++ blockHead b1 :: blockBody b1) ++ blockEnd b1 ::
          ((blockHead b2 :: blockBody b2) ++ blockEnd b2 ::
           ((blockHead b3 :: blockBody b3) ++ blockEnd b3 :: rest))).
  2:{ repeat (progress (rewrite <- ?app_assoc; cbn [app])). reflexivity. }
  rewrite (bucketLines_block _ _ _ [] []);
    [|apply Forall_app; split; assumption|assumption].
  rewrite (bucketLines_block _ _ _ _ []); [|assumption|assumption].
  rewrite (bucketLines_block _ _ _ _ []); [|assumption|assumption].
  cbn [app length].
  rewrite !List.filter_app, Hf1, Hf2, Hf3. reflexivity.
Qed.

(** Every further terminator line opens one more bucket. *)
Lemma bucketLines_terminators closing : forall rest models i,
  Forall (fun l => isTerminator l = true) closing ->
  PdbParser.bucketLines false (closing ++ rest) models i =
  PdbParser.bucketLines false rest
    (models ++ replicate (length closing) []) (i + length closing).
Proof.
  induction closing as [|l closing IH]; intros rest models i Hall.
  - cbn [app length replicate]. rewrite app_nil_r, Nat.add_0_r. reflexivity.
  - inversion Hall as [|? ? Hl Hall']; subst.
    cbn [app length replicate].
    rewrite bucketLines_terminator by assumption.
    rewrite IH by assumption. rewrite <- app_assoc. cbn [app].
    f_equal. lia.
Qed.

(** Three blocks, [closing] terminator lines and a trailer: the buckets
    of the blocks, one empty bucket per closing line, and the bucket of
    the trailer. *)
Lemma three_models_closed header closing trailer b1 b2 b3 :
  Forall (fun l => isTerminator l = false) header ->
  isBlock b1 -> isBlock b2 -> isBlock b3 ->
  Forall (fun l => isTerminator l = true) closing ->
  Forall (fun l => isTerminator l = false) trailer ->
  let done :=
    [List.filter PdbParser.isAtomLine (header ++ blockBody b1);
     List.filter PdbParser.isAtomLine (blockBody b2);
     List.filter PdbParser.isAtomLine (blockBody b3)] ++
    replicate (length closing) [] in
  PdbParser.bucketLines false
    (header ++ blockLines b1 ++ blockLines b2 ++ blockLines b3 ++
     closing ++ trailer) [[]] 0 =
  (done ++ [List.filter PdbParser.isAtomLine trailer], length done).
Proof.
  intros Hheader H1 H2 H3 Hclosing Htrailer. cbv zeta.
  rewrite three_models by assumption.
  rewrite bucketLines_terminators by assumption.
  cbn [app]. rewrite replicate_cons_app.
  match goal with
  | |- PdbParser.bucketLines false trailer (?m1 :: ?m2 :: ?m3 :: ?r ++ [[]]) _
       = _ =>
      change (m1 :: m2 :: m3 :: r ++ [[]]) with (([m1; m2; m3] ++ r) ++ [[]])
  end.
  replace (3 + length closing)
    with (length
            ([List.filter PdbParser.isAtomLine (header ++ blockBody b1);
              List.filter PdbParser.isAtomLine (blockBody b2);
              List.filter PdbParser.isAtomLine (blockBody b3)] ++
             replicate (length closing) []))
    by (rewrite length_app, length_replicate; reflexivity).
  pose proof (bucketLines_segment false trailer []
    ([List.filter PdbParser.isAtomLine (header ++ blockBody b1);
      List.filter PdbParser.isAtomLine (blockBody b2);
      List.filter PdbParser.isAtomLine (blockBody b3)] ++
     replicate (length closing) []) [] Htrailer) as Hseg.
  rewrite app_nil_r in Hseg. cbn [PdbParser.bucketLines app] in Hseg.
  exact Hseg.
Qed.

Lemma concat_replicate_nil {A} n : concat (replicate n (@nil A)) = [].
Proof. induction n as [|n IH]; [reflexivity|exact IH]. Qed.

Lemma filter_none {A} (f : A -> bool) l :
  Forall (fun x => f x = false) l -> List.filter f l = [].
Proof.
  induction 1 as [|x l Hx _ IH]; [reflexivity|].
  cbn [List.filter]. rewrite Hx. exact IH.
Qed.

(** C5.  A PDB file without NMR header that holds three [MODEL] blocks,
    each closed by one line starting with [END], then [closing], any
    number of further lines starting with [END], then a trailer without
    terminator and atom lines.  [parsePdbData] loads one model per block,
    from the atom lines of that block (those of the header go with the
    first), and one model without lines per closing line; it pushes one
    structure for each, under the caller's identifier followed by [[1]],
    [[2]], [[3]], ... in file order.  With no closing line these are
    exactly three structures, and the empty bucket behind the last
    terminator pushes nothing.  With the closing [END] line of the usual
    layout there is a fourth structure without atoms: only the last
    bucket is ever dropped. *)
Theorem three_models_get_suffixes
    (pdbText pdbId : string) (p : Parser)
    (header closing trailer : list string) (b1 b2 b3 : ModelBlock) :
  Js.splitLines pdbText =
    header ++ blockLines b1 ++ blockLines b2 ++ blockLines b3 ++
    closing ++ trailer ->
  PdbParser.isNmr (Js.splitLines pdbText) = false ->
  Forall (fun l => isTerminator l = false) header ->
  isBlock b1 -> isBlock b2 -> isBlock b3 ->
  Forall (fun l => isTerminator l = true) closing ->
  Forall (fun l => isTerminator l = false) trailer ->
  Forall (fun l => PdbParser.isAtomLine l = false) trailer ->
  let q := PdbParser.parsePdbData pdbText pdbId p in
  let lines := Js.splitLines pdbText in
  let title := PdbParser.parseTitle lines in
  let n := 3 + length closing in
  q = PdbParser.loadModels pdbId title lines n 0
        ([List.filter PdbParser.isAtomLine (header ++ blockBody b1);
          List.filter PdbParser.isAtomLine (blockBody b2);
          List.filter PdbParser.isAtomLine (blockBody b3)] ++
         replicate (length closing) []) p /\
  Soup.structures (soup q) =
    Soup.structures (soup p) ++
    [(pdbId +:+ "[1]", title); (pdbId +:+ "[2]", title);
     (pdbId +:+ "[3]", title)] ++
    map (fun k => (pdbId +:+ "[" +:+ Js.decimal (k + 1) +:+ "]", title))
        (seq 3 (length closing)) /\
  Soup.atoms (soup q) =
    Soup.atoms (soup p) ++
    omap pdbHandedAtom
      (List.filter PdbParser.isAtomLine
         (header ++ blockBody b1 ++ blockBody b2 ++ blockBody b3)).
Proof.
  intros Hlines Hnmr Hheader H1 H2 H3 Hclosing Hterm Hatom. cbv zeta.
  assert (Hq : PdbParser.parsePdbData pdbText pdbId p =
    PdbParser.loadModels pdbId (PdbParser.parseTitle (Js.splitLines pdbText))
      (Js.splitLines pdbText) (3 + length closing) 0
      ([List.filter PdbParser.isAtomLine (header ++ blockBody b1);
        List.filter PdbParser.isAtomLine (blockBody b2);
        List.filter PdbParser.isAtomLine (blockBody b3)] ++
       replicate (length closing) []) p).
  { assert (Hlen : (length (Js.splitLines pdbText) =? 0) = false).
    { apply Nat.eqb_neq. rewrite Hlines, !length_app.
      unfold blockLines. cbn [length]. lia. }
    unfold PdbParser.parsePdbData. rewrite Hlen, Hnmr. cbv zeta.
    pose proof (three_models_closed header closing trailer b1 b2 b3
                  Hheader H1 H2 H3 Hclosing Hterm) as Hb.
    cbv zeta in Hb. rewrite <- Hlines in Hb.
    rewrite Hb, (filter_none _ _ Hatom).
    rewrite dropEmptyModel_empty.
    rewrite length_app, length_replicate. reflexivity. }
  split; [exact Hq|]. rewrite Hq. split.
  - rewrite loadModels_structures, length_app, length_replicate.
    cbn [length Nat.add seq map PdbParser.structureId Nat.ltb Nat.leb].
    repeat f_equal.
  - rewrite loadModels_atoms.
    rewrite concat_app, concat_replicate_nil, app_nil_r.
    cbn [concat]. rewrite app_nil_r.
    rewrite !List.filter_app, !filter_idem, <- !app_assoc. reflexivity.
Qed.

Lemma three_models_witness :
  Soup.structures
    (soup (PdbParser.parsePdbData Samples.threeText "1abc"
             (constructor Soup.empty))) =
    [("1abc[1]", "THREE MODELS"); ("1abc[2]", "THREE MODELS");
     ("1abc[3]", "THREE MODELS")] /\
  Soup.structures
    (soup (PdbParser.parsePdbData Samples.threeWithEndText "1abc"
             (constructor Soup.empty))) =
    [("1abc[1]", "THREE MODELS"); ("1abc[2]", "THREE MODELS");
     ("1abc[3]", "THREE MODELS"); ("1abc[4]", "THREE MODELS")] /\
  Soup.atoms
    (soup (PdbParser.parsePdbData Samples.threeWithEndText "1abc"
             (constructor Soup.empty))) =
    omap pdbHandedAtom
      [Samples.atomN; Samples.atomCA; Samples.atomN; Samples.atomN;
       Samples.atomCA].
Proof.
  split; [|split].
  - rewrite (proj1 (proj2 (three_models_get_suffixes Samples.threeText "1abc"
               (constructor Soup.empty) Samples.threeHeader [] [""]
               Samples.three1 Samples.three2 Samples.three3
               ltac:(vm_compute; reflexivity) ltac:(vm_compute; reflexivity)
               ltac:(repeat constructor)
               ltac:(repeat split; repeat constructor)
               ltac:(repeat split; repeat constructor)
               ltac:(repeat split; repeat constructor)
               ltac:(constructor) ltac:(repeat constructor)
               ltac:(repeat constructor)))).
    vm_compute. reflexivity.
  - rewrite (proj1 (proj2 (three_models_get_suffixes Samples.threeWithEndText
               "1abc" (constructor Soup.empty) Samples.threeHeader
               ["END"] [""]
               (Samples.model "1" [Samples.atomN; Samples.atomCA])
               (Samples.model "2" [Samples.atomN])
               (Samples.model "3" [Samples.atomN; Samples.atomCA])
               ltac:(vm_compute; reflexivity) ltac:(vm_compute; reflexivity)
               ltac:(repeat constructor)
               ltac:(repeat split; repeat constructor)
               ltac:(repeat split; repeat constructor)
               ltac:(repeat split; repeat constructor)
               ltac:(repeat constructor) ltac:(repeat constructor)
               ltac:(repeat constructor)))).
    vm_compute. reflexivity.
  - rewrite (proj2 (proj2 (three_models_get_suffixes Samples.threeWithEndText
               "1abc" (constructor Soup.empty) Samples.threeHeader
               ["END"] [""]
               (Samples.model "1" [Samples.atomN; Samples.atomCA])
               (Samples.model "2" [Samples.atomN])
               (Samples.model "3" [Samples.atomN; Samples.atomCA])
               ltac:(vm_compute; reflexivity) ltac:(vm_compute; reflexivity)
               ltac:(repeat constructor)
               ltac:(repeat split; repeat constructor)
               ltac:(repeat split; repeat constructor)
               ltac:(repeat split; repeat constructor)
               ltac:(repeat constructor) ltac:(repeat constructor)
               ltac:(repeat constructor)))).
    vm_compute. reflexivity.
Defined.

(* ===================================================================== *)
(** ** The guards on malformed and empty input *)
(* ===================================================================== *)

(** [split] never returns an empty array: the test
    [lines.length === 0] of both [parsePdbData] is always false. *)
Lemma splitLines_nonempty text : Js.splitLines text <> [].
Proof.
  destruct text as [|c rest]; simpl; [discriminate|].
  destruct (Js.isLF c); [discriminate|].
  destruct rest as [|c' rest']; [discriminate|].
  destruct (Js.isCR c && Js.isLF c'); [discriminate|].
  destruct (Js.splitLines (String c' rest')); discriminate.
Qed.

Lemma splitLines_length text : (length (Js.splitLines text) =? 0) = false.
Proof.
  apply Nat.eqb_neq. pose proof (splitLines_nonempty text) as H.
  destruct (Js.splitLines text); [congruence|simpl; lia].
Qed.

Lemma loadModels_parsingError pdbId title lines nModel models : forall iModel p,
  parsingError (PdbParser.loadModels pdbId title lines nModel iModel models p) =
  parsingError p.
Proof.
  induction models as [|m models IH]; intros iModel p; [reflexivity|].
  cbn [PdbParser.loadModels]. cbv zeta. rewrite IH.
  match goal with
  | |- context [PdbParser.parseSecondaryStructureLines lines ?q] =>
      destruct (pdb_ss_frame lines q) as (_ & _ & _ & h); rewrite h
  end.
  match goal with
  | |- context [PdbParser.parseAtomLines m ?q] =>
      destruct (pdb_parseAtomLinesFrom_spec m 0 q) as (_ & _ & _ & g & _);
      unfold PdbParser.parseAtomLines; rewrite g
  end.
  reflexivity.
Qed.

(** [PdbParser.parsePdbData] never records the "No atom lines" condition,
    whatever the text. *)
Lemma pdb_no_atom_lines_never_recorded pdbText pdbId p :
  parsingError (PdbParser.parsePdbData pdbText pdbId p) = parsingError p.
Proof.
  unfold PdbParser.parsePdbData. rewrite splitLines_length. cbv zeta.
  destruct (PdbParser.bucketLines _ _ _ _) as [models iModel].
  apply loadModels_parsingError.
Qed.

Lemma cif_parseAtomLine_frame i line ps :
  let qs := CifParser.parseAtomLine i line ps in
  Soup.structures (soup (fst qs)) = Soup.structures (soup (fst ps)) /\
  parsingError (fst qs) = parsingError (fst ps) /\
  hasSecondaryStructure (fst qs) = hasSecondaryStructure (fst ps).
Proof.
  destruct ps as [p st]. unfold CifParser.parseAtomLine. cbv zeta.
  destruct (CifParser.isAtomLine line); [|repeat split].
  destruct (CifParser.atomFields _ st) as [[a st']|msg]; repeat split.
Qed.

Lemma cif_parseAtomLinesFrom_frame lines : forall i ps,
  let qs := CifParser.parseAtomLinesFrom i lines ps in
  Soup.structures (soup (fst qs)) = Soup.structures (soup (fst ps)) /\
  parsingError (fst qs) = parsingError (fst ps) /\
  hasSecondaryStructure (fst qs) = hasSecondaryStructure (fst ps).
Proof.
  induction lines as [|l lines IH]; intros i ps; [repeat split|].
  cbn [CifParser.parseAtomLinesFrom]. cbv zeta.
  destruct (IH (S i) (CifParser.parseAtomLine i l ps)) as (h1 & h2 & h3).
  destruct (cif_parseAtomLine_frame i l ps) as (g1 & g2 & g3).
  rewrite h1, h2, h3. repeat split; assumption.
Qed.

(** [CifParser.parsePdbData] pushes one structure for every text, and
    never records the "No atom lines" condition. *)
Lemma cif_always_pushes pdbText pdbId p :
  let q := CifParser.parsePdbData pdbText pdbId p in
  Soup.structures (soup q) =
    Soup.structures (soup p) ++
    [(pdbId, CifParser.parseTitle (Js.splitLines pdbText))] /\
  parsingError q = parsingError p.
Proof.
  unfold CifParser.parsePdbData. rewrite splitLines_length. cbv zeta.
  match goal with
  | |- context [CifParser.parseSecondaryStructureLines ?ls ?q] =>
      destruct (cif_ss_frame ls q) as (h1 & _ & _ & h4); rewrite h1, h4
  end.
  unfold CifParser.parseAtomLines.
  match goal with
  | |- context [CifParser.parseAtomLinesFrom 0 ?ls ?ps] =>
      destruct (cif_parseAtomLinesFrom_frame ls 0 ps) as (g1 & g2 & _);
      rewrite g1, g2
  end.
  split; reflexivity.
Qed.

(** C7.  The empty text in both parsers: the "No atom lines" condition is
    not recorded ([parsingError] stays [undefined], [error] stays empty),
    and [CifParser.parsePdbData] pushes a structure.  A PDB text with no
    atom record and an [END] line: nothing is recorded either, and
    [PdbParser.parsePdbData] pushes a structure without atoms. *)
Theorem empty_input_is_not_reported (pdbId : string) :
  let pdb := PdbParser.parsePdbData "" pdbId (constructor Soup.empty) in
  let cif := CifParser.parsePdbData "" pdbId (constructor Soup.empty) in
  let pdbEnd := PdbParser.parsePdbData Samples.noAtomsText pdbId
                  (constructor Soup.empty) in
  (parsingError pdb = Js.Undefined /\ error pdb = "" /\
   Soup.structures (soup pdb) = []) /\
  (parsingError cif = Js.Undefined /\ error cif = "" /\
   Soup.structures (soup cif) = [(pdbId, "")]) /\
  (parsingError pdbEnd = Js.Undefined /\ error pdbEnd = "" /\
   Soup.structures (soup pdbEnd) = [(pdbId, "")] /\
   Soup.atoms (soup pdbEnd) = []).
Proof. repeat split. Qed.

(** C1.  A file of three atom lines whose second line has an unreadable
    x coordinate: [PdbParser.parsePdbData] hands all three lines to
    [addAtom], the corrupted one with a NaN x coordinate, and records no
    error. *)
Theorem pdb_corrupted_atom_line_is_kept :
  let q := PdbParser.parsePdbData Samples.corruptText "1abc"
             (constructor Soup.empty) in
  length (Soup.atoms (soup q)) = 3 /\
  Soup.atom_x <$> (Soup.atoms (soup q) !! 1) = Some Js.FNaN /\
  error q = "".
Proof. vm_compute. repeat split. Qed.

(* ===================================================================== *)
(** ** [CifParser.parseTitle] *)
(* ===================================================================== *)

Lemma trimEnd_idem s : Js.trimEnd (Js.trimEnd s) = Js.trimEnd s.
Proof.
  induction s as [|c s IH]; [reflexivity|].
  cbn [Js.trimEnd]. cbv zeta.
  destruct (Js.isSpace c && String.eqb (Js.trimEnd s) "") eqn:E;
    [reflexivity|].
  cbn [Js.trimEnd]. cbv zeta. rewrite IH, E. reflexivity.
Qed.

Lemma trimStart_head s :
  Js.trimStart s = "" \/
  exists c t, Js.trimStart s = String c t /\ Js.isSpace c = false.
Proof.
  induction s as [|c s IH]; [left; reflexivity|].
  cbn [Js.trimStart]. destruct (Js.isSpace c) eqn:E; [exact IH|].
  right. exists c, s. split; [reflexivity|exact E].
Qed.

Lemma trim_idem s : Js.trim (Js.trim s) = Js.trim s.
Proof.
  unfold Js.trim.
  destruct (trimStart_head s) as [->|(c & t & -> & Hc)]; [reflexivity|].
  cbn [Js.trimEnd]. cbv zeta. rewrite Hc. cbn [andb Js.trimStart].
  rewrite Hc. cbn [Js.trimEnd]. cbv zeta.
  rewrite Hc, trimEnd_idem. reflexivity.
Qed.

Lemma removeFirst_title value :
  Js.removeFirst "_struct.title" ("_struct.title" +:+ value) = value.
Proof. destruct value; reflexivity. Qed.

Lemma startsWith_title value :
  Js.startsWith "_struct.title" ("_struct.title" +:+ value) = true.
Proof. destruct value; reflexivity. Qed.

(** Lines before the first title record are passed over. *)
Lemma parseTitleFrom_skip pre : forall prev rest,
  Forall (fun l => Js.startsWith "_struct.title" l = false) pre ->
  (forall l, prev = Some l -> Js.startsWith "_struct.title" l = false) ->
  exists prev',
    (forall l, prev' = Some l -> Js.startsWith "_struct.title" l = false) /\
    CifParser.parseTitleFrom prev (pre ++ rest) =
    CifParser.parseTitleFrom prev' rest.
Proof.
  induction pre as [|x pre IH]; intros prev rest Hpre Hprev.
  - exists prev. split; [exact Hprev|reflexivity].
  - inversion Hpre as [|? ? Hx Hpre']; subst.
    destruct (IH (Some x) rest Hpre') as (prev' & Hp' & Heq).
    { intros l [= <-]. exact Hx. }
    exists prev'. split; [exact Hp'|].
    cbn [app CifParser.parseTitleFrom]. cbv zeta. rewrite Hx. cbn [andb].
    destruct prev as [l|]; [|exact Heq].
    rewrite (Hprev l eq_refl). exact Heq.
Qed.

Lemma parseTitleFrom_one_line prev line post :
  isOneLineTitle line = true ->
  CifParser.parseTitleFrom prev (line :: post) =
  removeQuotes (Js.trim (Js.removeFirst "_struct.title" line)).
Proof.
  unfold isOneLineTitle. intros H.
  cbn [CifParser.parseTitleFrom]. cbv zeta. rewrite H, trim_idem.
  reflexivity.
Qed.

Lemma parseTitleFrom_two_lines prev keyLine next post :
  (forall l, prev = Some l -> Js.startsWith "_struct.title" l = false) ->
  Js.startsWith "_struct.title" keyLine = true ->
  isOneLineTitle keyLine = false ->
  isOneLineTitle next = false ->
  CifParser.parseTitleFrom prev (keyLine :: next :: post) =
  removeQuotes (Js.trim next).
Proof.
  unfold isOneLineTitle. intros Hprev Hkey Hbare Hnext.
  cbn [CifParser.parseTitleFrom]. cbv zeta. rewrite Hbare, Hnext, Hkey.
  destruct prev as [l|]; [rewrite (Hprev l eq_refl)|]; reflexivity.
Qed.

(** [removeQuotes] strips one pair of matching quotes. *)
Lemma get_app_end s c t : String.get (String.length s) (s +:+ String c t) = Some c.
Proof. induction s as [|a s IH]; [reflexivity|exact IH]. Qed.

Lemma substring_app_start s t :
  String.substring 0 (String.length s) (s +:+ t) = s.
Proof.
  induction s as [|a s IH]; [destruct t; reflexivity|].
  simpl. rewrite IH. reflexivity.
Qed.

Lemma length_app_char s c :
  String.length (s +:+ String c "") = S (String.length s).
Proof. induction s as [|a s IH]; [reflexivity|simpl; rewrite IH; reflexivity]. Qed.

Lemma removeQuotes_single body :
  removeQuotes ("'" +:+ body +:+ "'") = body.
Proof.
  change ("'" +:+ body +:+ "'") with (String "'"%char (body +:+ "'")).
  unfold removeQuotes, Js.charAt, Js.substr.
  cbn [String.length String.get Js.isStr Js.strictEq].
  rewrite length_app_char. cbn [Nat.sub]. rewrite Nat.sub_0_r.
  change (String.eqb "'" Js.dquote) with false. cbn [andb].
  change (String.get (S (String.length body)) (String "'" (body +:+ "'")))
    with (String.get (String.length body) (body +:+ "'")).
  rewrite get_app_end.
  change (String.eqb "'" "'") with true. cbn [andb].
  change (String.substring 1 (String.length body) (String "'" (body +:+ "'")))
    with (String.substring 0 (String.length body) (body +:+ "'")).
  apply substring_app_start.
Qed.

Lemma removeQuotes_double body :
  removeQuotes (Js.dquote +:+ body +:+ Js.dquote) = body.
Proof.
  unfold Js.dquote at 1 2.
  set (q := ascii_of_nat 34).
  change (String q "" +:+ body +:+ String q "")
    with (String q (body +:+ String q "")).
  unfold removeQuotes, Js.charAt, Js.substr.
  cbn [String.length String.get Js.isStr Js.strictEq].
  rewrite length_app_char. cbn [Nat.sub]. rewrite Nat.sub_0_r.
  change (String.get (S (String.length body)) (String q (body +:+ String q "")))
    with (String.get (String.length body) (body +:+ String q "")).
  rewrite get_app_end.
  change (String.eqb (String q "") Js.dquote) with true. cbn [andb].
  change (String.substring 1 (String.length body)
            (String q (body +:+ String q "")))
    with (String.substring 0 (String.length body) (body +:+ String q "")).
  apply substring_app_start.
Qed.

(** C9.  The first line that starts with [_struct.title] decides the
    title, whatever follows it.  If it is a bare key line, the title is
    the next line, trimmed and with its quotes removed (the next line
    being a value, not itself a one-line title record).  If it carries
    its value on the same line, the title is that value, trimmed and
    with its quotes removed. *)
Theorem cif_title_first_record_wins
    (pre post : list string) (keyLine : string) :
  Forall (fun l => Js.startsWith "_struct.title" l = false) pre ->
  Js.startsWith "_struct.title" keyLine = true ->
  (forall next,
     isOneLineTitle keyLine = false ->
     isOneLineTitle next = false ->
     CifParser.parseTitle (pre ++ keyLine :: next :: post) =
     removeQuotes (Js.trim next)) /\
  (forall value,
     keyLine = "_struct.title" +:+ value ->
     Js.trim value <> "" ->
     CifParser.parseTitle (pre ++ keyLine :: post) =
     removeQuotes (Js.trim value)).
Proof.
  intros Hpre Hkey. unfold CifParser.parseTitle. split.
  - intros next Hbare Hnext.
    destruct (parseTitleFrom_skip pre None (keyLine :: next :: post) Hpre)
      as (prev' & Hp' & ->); [discriminate|].
    apply parseTitleFrom_two_lines; assumption.
  - intros value -> Hvalue.
    destruct (parseTitleFrom_skip pre None
                (("_struct.title" +:+ value) :: post) Hpre)
      as (prev' & Hp' & ->); [discriminate|].
    rewrite parseTitleFrom_one_line.
    + rewrite removeFirst_title. reflexivity.
    + unfold isOneLineTitle.
      rewrite startsWith_title, removeFirst_title. cbn [andb].
      apply negb_true_iff, String.eqb_neq. exact Hvalue.
Qed.

Lemma cif_title_witness :
  CifParser.parseTitle (Js.splitLines Samples.titleText) = "My Protein" /\
  CifParser.parseTitle ["data_1ABC"; "_struct.title   'My Protein' "; "#"] =
    "My Protein".
Proof.
  split.
  - refine (proj1 (cif_title_first_record_wins [] [""] "_struct.title" _ _)
                  "'My Protein'" _ _).
    + constructor.
    + reflexivity.
    + reflexivity.
    + reflexivity.
  - refine (proj2 (cif_title_first_record_wins ["data_1ABC"] ["#"]
                     "_struct.title   'My Protein' " _ _)
                  "   'My Protein' " _ _).
    + repeat constructor.
    + reflexivity.
    + reflexivity.
    + discriminate.
Defined.

(* ===================================================================== *)
(** ** The fields of an atom record *)
(* ===================================================================== *)

Lemma substr01_after_digits s :
  Js.substr 0 1 (snd (Js.span Js.isDigit s)) = firstNonDigit s.
Proof.
  induction s as [|c s IH]; [reflexivity|].
  cbn [Js.span firstNonDigit].
  destruct (Js.isDigit c).
  - destruct (Js.span Js.isDigit s) as [a b]. exact IH.
  - destruct s; reflexivity.
Qed.

(** The first character of [deleteNumbers(s)] is the first character of
    [s] that is not a digit. *)
Lemma substr01_deleteNumbers s :
  Js.substr 0 1 (deleteNumbers s) = firstNonDigit s.
Proof.
  unfold deleteNumbers. destruct s as [|c s]; [reflexivity|].
  cbn [Js.removeFirstDigits firstNonDigit].
  destruct (Js.isDigit c).
  - apply substr01_after_digits.
  - destruct (Js.removeFirstDigits s); reflexivity.
Qed.

Lemma deleteNumbers_no_digit s :
  hasDigit s = false -> deleteNumbers s = s.
Proof.
  unfold deleteNumbers. induction s as [|c s IH]; [reflexivity|].
  cbn [hasDigit Js.removeFirstDigits]. intros H.
  apply orb_false_iff in H. destruct H as (Hc & Hs).
  rewrite Hc, (IH Hs). reflexivity.
Qed.

Lemma inferElem_nonempty e atomType :
  e <> "" -> inferElem (Js.Str e) atomType = Js.Str e.
Proof.
  intros He. unfold inferElem, Js.isStr, Js.strictEq.
  destruct (String.eqb_spec e ""); [contradiction|reflexivity].
Qed.

Lemma inferElem_empty atomType :
  inferElem (Js.Str "") atomType =
  Js.Str (firstNonDigit (Js.trim atomType)).
Proof.
  unfold inferElem. cbn [Js.isStr Js.strictEq String.eqb].
  rewrite substr01_deleteNumbers. reflexivity.
Qed.

(** [line.substr(start, len)] is the text of the columns [start] to
    [start + len - 1] of the line, counted from 0. *)
Lemma substr_columns start len line p :
  p < len ->
  String.get p (Js.substr start len line) = String.get (start + p) line.
Proof.
  intros Hp. unfold Js.substr. rewrite Nat.add_comm.
  apply String.substring_correct1. exact Hp.
Qed.

Lemma substr_past_window start len line p :
  len <= p -> String.get p (Js.substr start len line) = None.
Proof.
  intros Hp. unfold Js.substr.
  apply String.substring_correct2. exact Hp.
Qed.

(** The exact windows of the three coordinates. *)
Lemma pdb_coordinate_windows line a :
  pdbHandedAtom line = Some a ->
  Soup.atom_x a = Js.parseFloat (Js.Str (Js.substr 30 7 line)) /\
  Soup.atom_y a = Js.parseFloat (Js.Str (Js.substr 38 7 line)) /\
  Soup.atom_z a = Js.parseFloat (Js.Str (Js.substr 46 7 line)).
Proof. intros [= <-]. repeat split. Qed.

(** C8.  On every PDB atom line, with columns counted from 0, the atom
    name is read from columns 12-15, the b-factor from columns 60-65 and
    the element from columns 76-77, and each coordinate is read from
    seven columns: x from 30-36, y from 38-44, z from 46-52.  The last
    column of each eight-column coordinate field (37, 45 and 53) is never
    read.  On the sample line the z field holds [2.614], and so does the
    window 47-54; the atom handed to [addAtom] has z 2.61. *)
Theorem pdb_atom_line_columns :
  (forall line, exists a, pdbHandedAtom line = Some a /\
     Soup.atom_atomType a = Js.trim (Js.substr 12 4 line) /\
     Soup.atom_bfactor a = Js.parseFloat (Js.Str (Js.substr 60 6 line)) /\
     Soup.atom_elem a =
       inferElem (Js.Str (deleteNumbers (Js.trim (Js.substr 76 2 line))))
         (Soup.atom_atomType a) /\
     Soup.atom_x a = Js.parseFloat (Js.Str (Js.substr 30 7 line)) /\
     Soup.atom_y a = Js.parseFloat (Js.Str (Js.substr 38 7 line)) /\
     Soup.atom_z a = Js.parseFloat (Js.Str (Js.substr 46 7 line))) /\
  (exists a, pdbHandedAtom Samples.atomN = Some a /\
     Js.substr 46 8 Samples.atomN = "   2.614" /\
     Js.parseFloat (Js.Str (Js.substr 46 8 Samples.atomN)) =
       Js.FLit "2.614" /\
     Js.parseFloat (Js.Str (Js.substr 47 8 Samples.atomN)) =
       Js.FLit "2.614" /\
     Js.substr 46 7 Samples.atomN = "   2.61" /\
     Soup.atom_z a = Js.FLit "2.61").
Proof.
  split.
  - intros line. eexists. split; [reflexivity|]. repeat split.
  - eexists. split; [reflexivity|]. repeat split.
Qed.

(** The column numbers of the specification count from 1: on this line
    the atom name handed to [addAtom] is the text of columns 12-15
    counted from 0, [HD11]; columns 13-16 counted from 0 hold [D11]. *)
Lemma pdb_atom_name_not_in_columns_13_16 :
  exists a, pdbHandedAtom Samples.atomHD11 = Some a /\
    Soup.atom_atomType a = "HD11" /\
    SpecColumns.atomName Samples.atomHD11 = "D11" /\
    Soup.atom_atomType a <> SpecColumns.atomName Samples.atomHD11.
Proof.
  eexists. split; [reflexivity|].
  repeat split. vm_compute. discriminate.
Qed.

(** C6, as amended.  For a PDB atom line, let [field] be the trimmed text
    of columns 76-77 and [name] the trimmed atom name.  When [field]
    with its first run of digits deleted is not empty, that text is the
    element handed to [addAtom]; so a field without digits is handed over
    as it is.  When it is empty (a blank field, or digits only), the
    element is the first character of [name] that is not a digit.  For an
    mmCIF atom line that reaches [addAtom], the element is token 2 as it
    is when that token is not the empty string, and the first character
    of the trimmed atom name that is not a digit otherwise. *)
Theorem element_handed_to_addAtom :
  (forall line a,
     pdbHandedAtom line = Some a ->
     let field := Js.trim (Js.substr 76 2 line) in
     let name := Js.trim (Js.substr 12 4 line) in
     (deleteNumbers field <> "" ->
        Soup.atom_elem a = Js.Str (deleteNumbers field)) /\
     (field <> "" -> hasDigit field = false ->
        Soup.atom_elem a = Js.Str field) /\
     (deleteNumbers field = "" ->
        Soup.atom_elem a = Js.Str (firstNonDigit name)) /\
     (field = "" -> Soup.atom_elem a = Js.Str (firstNonDigit name))) /\
  (forall tokens st a st',
     CifParser.atomFields tokens st = Js.Ok (a, st') ->
     let handed := CifParser.finishAtom a in
     (forall t, Js.index tokens 2 = Js.Str t -> t <> "" ->
        Soup.atom_elem handed = Js.Str t) /\
     (Js.index tokens 2 = Js.Str "" ->
        Soup.atom_elem handed =
          Js.Str (firstNonDigit (Js.trim (Soup.atom_atomType a))))).
Proof.
  split.
  - intros line a [= <-]. cbv zeta.
    cbn [PdbParser.finishAtom Soup.atom_elem Soup.atom_atomType].
    assert (Hempty : deleteNumbers (Js.trim (Js.substr 76 2 line)) = "" ->
      inferElem (Js.Str (deleteNumbers (Js.trim (Js.substr 76 2 line))))
        (Js.trim (Js.substr 12 4 line)) =
      Js.Str (firstNonDigit (Js.trim (Js.substr 12 4 line)))).
    { intros ->. rewrite inferElem_empty, trim_idem. reflexivity. }
    repeat split.
    + intros H. apply inferElem_nonempty. exact H.
    + intros Hne Hnd. rewrite (deleteNumbers_no_digit _ Hnd).
      apply inferElem_nonempty. exact Hne.
    + exact Hempty.
    + intros H. apply Hempty. rewrite H. reflexivity.
  - intros tokens st a st' H. cbv zeta.
    unfold CifParser.atomFields in H.
    destruct (removeQuotesArg (Js.index tokens 3)) as [atomType|msg];
      [|discriminate H].
    cbn [Js.bind] in H.
    destruct (CifParser.resolveResNum _ _ _ _ st) as [resNum st2].
    injection H as <- <-.
    cbn [CifParser.finishAtom Soup.atom_elem Soup.atom_atomType].
    split.
    + intros t -> Ht. apply inferElem_nonempty. exact Ht.
    + intros ->. apply inferElem_empty.
Qed.

Lemma element_handed_witness :
  (exists a, pdbHandedAtom Samples.atomCA = Some a /\
     Soup.atom_elem a = Js.Str "C") /\
  (exists a, pdbHandedAtom Samples.atomOldLayout = Some a /\
     Soup.atom_elem a = Js.Str "N") /\
  (exists a st',
     CifParser.atomFields Samples.cifTokens CifParser.initialNumbering =
       Js.Ok (a, st') /\
     Soup.atom_elem (CifParser.finishAtom a) = Js.Str "N").
Proof.
  destruct element_handed_to_addAtom as [Hpdb Hcif].
  split; [|split].
  - eexists. split; [reflexivity|].
    refine (proj1 (Hpdb Samples.atomCA _ eq_refl) _).
    vm_compute. discriminate.
  - eexists. split; [reflexivity|].
    refine (proj1 (proj2 (proj2 (Hpdb Samples.atomOldLayout _ eq_refl))) _).
    vm_compute. reflexivity.
  - eexists. eexists. split; [reflexivity|].
    refine (proj1 (Hcif Samples.cifTokens CifParser.initialNumbering
                     _ _ eq_refl) "N" _ _).
    + reflexivity.
    + discriminate.
Defined.

(** C6, as stated, fails: on this line columns 76-77 hold [ 1], which is
    not blank, and the element handed to [addAtom] is [N], taken from the
    atom name. *)
Lemma element_with_digits_not_verbatim :
  exists a, pdbHandedAtom Samples.atomOldLayout = Some a /\
    Js.trim (Js.substr 76 2 Samples.atomOldLayout) = "1" /\
    Soup.atom_elem a = Js.Str "N" /\
    Soup.atom_elem a <>
      Js.Str (Js.trim (Js.substr 76 2 Samples.atomOldLayout)).
Proof.
  eexists. split; [reflexivity|].
  repeat split. vm_compute. discriminate.
Qed.

(* ===================================================================== *)
(** ** [CifParser.parseAtomLines]: tokens, the [try] block, residue numbering *)
(* ===================================================================== *)

Lemma index_defined_below tokens k j t :
  Js.index tokens k = Js.Str t -> j <= k ->
  exists u, Js.index tokens j = Js.Str u.
Proof.
  unfold Js.index. intros H Hle.
  destruct (tokens !! k) as [x|] eqn:Ek; [|discriminate H].
  assert (Hlt : j < length tokens).
  { apply lookup_lt_Some in Ek. lia. }
  apply lookup_lt_is_Some in Hlt. destruct Hlt as [u ->].
  exists u. reflexivity.
Qed.

(** The [try] block on a line whose token 8 is defined cannot throw. *)
Lemma cif_atomFields_ok tokens st t :
  Js.index tokens 8 = Js.Str t ->
  exists a st', CifParser.atomFields tokens st = Js.Ok (a, st').
Proof.
  intros H. destruct (index_defined_below tokens 8 3 t H) as [u Hu]; [lia|].
  unfold CifParser.atomFields. rewrite Hu. cbn [removeQuotesArg Js.bind].
  destruct (CifParser.resolveResNum _ _ _ _ st) as [resNum st'].
  eexists. eexists. reflexivity.
Qed.

(** The [try] block throws exactly on the lines with fewer than four
    tokens. *)
Lemma cif_atomFields_throws tokens st :
  (exists msg, CifParser.atomFields tokens st = Js.Throw msg) <->
  length tokens <= 3.
Proof.
  unfold CifParser.atomFields, Js.index.
  destruct (tokens !! 3) as [u|] eqn:E.
  - cbn [removeQuotesArg Js.bind].
    destruct (CifParser.resolveResNum _ _ _ _ st) as [resNum st'].
    split.
    + intros (msg & H). discriminate H.
    + intros Hlen. apply lookup_lt_Some in E. lia.
  - cbn [removeQuotesArg Js.bind]. split.
    + intros _. apply lookup_ge_None in E. lia.
    + intros _. eexists. reflexivity.
Qed.

(** Tokens: only the first and the last token of a line can be empty. *)
Lemma splitTokens_nonempty s : Js.splitTokens s <> [].
Proof.
  induction s as [|c s IH]; cbn [Js.splitTokens]; [discriminate|].
  destruct (Js.isSep c).
  - destruct s as [|c' s']; [discriminate|].
    destruct (Js.isSep c'); [exact IH|discriminate].
  - destruct (Js.splitTokens s); discriminate.
Qed.

Lemma splitTokens_head c s :
  Js.isSep c = false ->
  exists t ts, Js.splitTokens (String c s) = String c t :: ts.
Proof.
  intros Hc. cbn [Js.splitTokens]. rewrite Hc.
  destruct (Js.splitTokens s) as [|t ts]; eexists; eexists; reflexivity.
Qed.

Lemma splitTokens_interior s : forall i t,
  Js.splitTokens s !! i = Some t ->
  0 < i -> S i < length (Js.splitTokens s) ->
  t <> "".
Proof.
  induction s as [|c s IH]; intros i t Hi Hpos Hlen.
  - cbn in Hlen. lia.
  - cbn [Js.splitTokens] in Hi, Hlen.
    destruct (Js.isSep c) eqn:Ec.
    + destruct s as [|c' s'].
      * cbn in Hlen. lia.
      * destruct (Js.isSep c') eqn:Ec'; [exact (IH i t Hi Hpos Hlen)|].
        destruct i as [|i]; [lia|].
        change (Js.splitTokens (String c' s') !! i = Some t) in Hi.
        cbn [length] in Hlen.
        destruct i as [|i].
        -- destruct (splitTokens_head c' s' Ec') as (t0 & ts & E).
           rewrite E in Hi. injection Hi as <-. discriminate.
        -- apply (IH (S i) t Hi); lia.
    + pose proof (splitTokens_nonempty s) as Hne.
      destruct (Js.splitTokens s) as [|t0 ts] eqn:E; [congruence|].
      destruct i as [|i]; [lia|].
      change (ts !! i = Some t) in Hi. cbn [length] in Hlen.
      apply (IH (S i) t); [exact Hi|lia|cbn [length]; lia].
Qed.

(** In the mmCIF parser the element of an atom that reaches [addAtom] is
    always token 2 as it is: that token cannot be the empty string. *)
Lemma cif_element_is_token_2 line st a st' :
  CifParser.atomFields (Js.splitTokens line) st = Js.Ok (a, st') ->
  exists t, t <> "" /\
    Js.index (Js.splitTokens line) 2 = Js.Str t /\
    Soup.atom_elem (CifParser.finishAtom a) = Js.Str t.
Proof.
  intros Hok.
  assert (Hlen : 3 < length (Js.splitTokens line)).
  { destruct (le_lt_dec (length (Js.splitTokens line)) 3) as [Hle|Hlt];
      [|exact Hlt].
    apply (cif_atomFields_throws _ st) in Hle. destruct Hle as (msg & Hmsg).
    rewrite Hmsg in Hok. discriminate Hok. }
  assert (H2 : 2 < length (Js.splitTokens line)) by lia.
  apply lookup_lt_is_Some in H2. destruct H2 as [t Ht].
  assert (Hne : t <> "").
  { apply (splitTokens_interior line 2 t Ht); lia. }
  exists t. split; [exact Hne|].
  assert (Hidx : Js.index (Js.splitTokens line) 2 = Js.Str t).
  { unfold Js.index. rewrite Ht. reflexivity. }
  split; [exact Hidx|].
  unfold CifParser.atomFields in Hok.
  destruct (removeQuotesArg (Js.index (Js.splitTokens line) 3))
    as [atomType|msg]; [|discriminate Hok].
  cbn [Js.bind] in Hok.
  destruct (CifParser.resolveResNum _ _ _ _ st) as [resNum st2].
  injection Hok as <- <-.
  cbn [CifParser.finishAtom Soup.atom_elem Soup.atom_atomType].
  rewrite Hidx. apply inferElem_nonempty. exact Hne.
Qed.

(** What the [try] block resolves, read off [resolveResNum]. *)
Lemma cif_atomFields_resNum tokens st a st' :
  CifParser.atomFields tokens st = Js.Ok (a, st') ->
  (Soup.atom_resNum a, st') =
  CifParser.resolveResNum tokens (Js.index tokens 6) (Js.index tokens 7)
    (Js.index tokens 5) st.
Proof.
  unfold CifParser.atomFields.
  destruct (removeQuotesArg (Js.index tokens 3)) as [atomType|msg];
    [|discriminate].
  cbn [Js.bind].
  destruct (CifParser.resolveResNum _ _ _ _ st) as [resNum st2].
  intros [= <- <-]. reflexivity.
Qed.

Lemma strictEq_refl s : Js.strictEq (Js.Str s) (Js.Str s) = true.
Proof. apply String.eqb_refl. Qed.

Lemma strictEq_neq s t : s <> t -> Js.strictEq (Js.Str s) (Js.Str t) = false.
Proof. intros H. apply String.eqb_neq. exact H. Qed.

(** One turn of the loop on a sentinel atom line. *)
Lemma cif_sentinel_step i line p st chain entity :
  isSentinelAtom chain entity line ->
  exists a,
    CifParser.parseAtomLine i line (p, st) =
      (withSoup (Soup.addAtom (CifParser.finishAtom a)) p,
       snd (CifParser.resolveResNum (Js.splitTokens line) (Js.Str chain)
              (Js.Str entity) (Js.index (Js.splitTokens line) 5) st)) /\
    Soup.atom_resNum (CifParser.finishAtom a) =
      fst (CifParser.resolveResNum (Js.splitTokens line) (Js.Str chain)
             (Js.Str entity) (Js.index (Js.splitTokens line) 5) st).
Proof.
  intros (Hatom & H8 & H6 & H7).
  destruct (cif_atomFields_ok (Js.splitTokens line) st "." H8)
    as (a & st' & Hok).
  pose proof (cif_atomFields_resNum _ _ _ _ Hok) as Hres.
  rewrite H6, H7 in Hres.
  exists a. unfold CifParser.parseAtomLine. rewrite Hatom, Hok.
  rewrite <- Hres. split; reflexivity.
Qed.

(** Inside a run: chain and entity are those of the last atom, the line
    is not water, so the counter is reused as it is. *)
Lemma resolve_same_residue tokens chain entity resType st :
  Js.index tokens 8 = Js.Str "." ->
  CifParser.lastChain st = Some (Js.Str chain) ->
  CifParser.lastEntity st = Some (Js.Str entity) ->
  Js.isStr resType "HOH" = false ->
  CifParser.resolveResNum tokens (Js.Str chain) (Js.Str entity) resType st =
  (CifParser.nextResNum st, st).
Proof.
  intros H8 Hc He Hw. unfold CifParser.resolveResNum.
  rewrite H8, Hc, He, Hw. cbn [Js.isStr CifParser.sameAs].
  rewrite !strictEq_refl. reflexivity.
Qed.

(** A sentinel atom always leaves its own chain and entity behind. *)
Lemma resolve_sentinel_last tokens chain entity resType st :
  Js.index tokens 8 = Js.Str "." ->
  let st' := snd (CifParser.resolveResNum tokens (Js.Str chain)
                    (Js.Str entity) resType st) in
  CifParser.lastChain st' = Some (Js.Str chain) /\
  CifParser.lastEntity st' = Some (Js.Str entity) /\
  fst (CifParser.resolveResNum tokens (Js.Str chain) (Js.Str entity)
         resType st) = CifParser.nextResNum st'.
Proof.
  intros H8. unfold CifParser.resolveResNum. rewrite H8.
  change (Js.isStr (Js.Str ".") ".") with true. cbv iota.
  destruct (negb _ || _) eqn:E; cbn [snd fst]; [repeat split|].
  apply orb_false_iff in E. destruct E as (E & _).
  apply negb_false_iff, andb_true_iff in E. destruct E as (Ec & Ee).
  unfold CifParser.sameAs in Ec, Ee.
  destruct (CifParser.lastChain st) as [[|c]|] eqn:Hc; try discriminate Ec.
  destruct (CifParser.lastEntity st) as [[|e]|] eqn:He; try discriminate Ee.
  apply String.eqb_eq in Ec, Ee. subst. repeat split.
Qed.

(** A sentinel atom on another chain takes the counter plus one. *)
Lemma resolve_new_chain tokens chain chain' entity' resType st :
  Js.index tokens 8 = Js.Str "." ->
  CifParser.lastChain st = Some (Js.Str chain) ->
  chain' <> chain ->
  fst (CifParser.resolveResNum tokens (Js.Str chain') (Js.Str entity')
         resType st) = Js.add1 (CifParser.nextResNum st).
Proof.
  intros H8 Hc Hne. unfold CifParser.resolveResNum.
  rewrite H8, Hc. change (Js.isStr (Js.Str ".") ".") with true.
  cbn [CifParser.sameAs].
  rewrite (strictEq_neq chain' chain Hne). reflexivity.
Qed.

(** The atoms of a run that follows an atom of the same chain and
    entity: all carry the counter, which does not move. *)
Lemma cif_run_tail run : forall i p st chain entity,
  Forall (fun l => isSentinelAtom chain entity l /\ isWater l = false) run ->
  CifParser.lastChain st = Some (Js.Str chain) ->
  CifParser.lastEntity st = Some (Js.Str entity) ->
  exists atomsRun q,
    CifParser.parseAtomLinesFrom i run (p, st) = (q, st) /\
    Soup.atoms (soup q) = Soup.atoms (soup p) ++ atomsRun /\
    length atomsRun = length run /\
    Forall (fun a => Soup.atom_resNum a = CifParser.nextResNum st) atomsRun.
Proof.
  induction run as [|l run IH]; intros i p st chain entity Hrun Hc He.
  - exists [], p. rewrite app_nil_r. repeat split. constructor.
  - inversion Hrun as [|? ? (Hl & Hw) Hrun']; subst.
    destruct (cif_sentinel_step i l p st chain entity Hl) as (a & Hstep & Hnum).
    destruct Hl as (_ & H8 & _ & _).
    rewrite (resolve_same_residue _ _ _ _ _ H8 Hc He Hw) in Hstep, Hnum.
    cbn [fst snd] in Hstep, Hnum.
    destruct (IH (S i) (withSoup (Soup.addAtom (CifParser.finishAtom a)) p)
                st chain entity Hrun' Hc He)
      as (atomsRun & q & Hq & Hatoms & Hlen & Hall).
    exists (CifParser.finishAtom a :: atomsRun), q.
    cbn [CifParser.parseAtomLinesFrom]. rewrite Hstep, Hq.
    split; [reflexivity|]. split; [|split].
    + rewrite Hatoms. cbn [withSoup soup Soup.addAtom Soup.atoms].
      rewrite <- app_assoc. reflexivity.
    + simpl. rewrite Hlen. reflexivity.
    + constructor; assumption.
Qed.

Lemma cif_parseAtomLinesFrom_app l1 : forall l2 i ps,
  CifParser.parseAtomLinesFrom i (l1 ++ l2) ps =
  CifParser.parseAtomLinesFrom (i + length l1) l2
    (CifParser.parseAtomLinesFrom i l1 ps).
Proof.
  induction l1 as [|x l1 IH]; intros l2 i ps.
  - simpl. rewrite Nat.add_0_r. reflexivity.
  - cbn [app CifParser.parseAtomLinesFrom length].
    rewrite IH. f_equal. lia.
Qed.

(** A sentinel run, followed by a sentinel atom of another chain. *)
Lemma cif_sentinel_run run next i p st chain entity chain' entity' :
  run <> [] ->
  Forall (fun l => isSentinelAtom chain entity l /\ isWater l = false) run ->
  isSentinelAtom chain' entity' next ->
  chain' <> chain ->
  exists n atomsRun aNext,
    Soup.atoms
      (soup (fst (CifParser.parseAtomLinesFrom i (run ++ [next]) (p, st)))) =
      Soup.atoms (soup p) ++ atomsRun ++ [aNext] /\
    length atomsRun = length run /\
    Forall (fun a => Soup.atom_resNum a = n) atomsRun /\
    Soup.atom_resNum aNext = Js.add1 n.
Proof.
  intros Hne Hrun Hnext Hchain.
  destruct run as [|l run]; [congruence|].
  inversion Hrun as [|? ? (Hl & Hw) Hrun']; subst.
  destruct (cif_sentinel_step i l p st chain entity Hl) as (a & Hstep & Hnum).
  pose proof Hl as (_ & H8 & _ & _).
  destruct (resolve_sentinel_last (Js.splitTokens l) chain entity
              (Js.index (Js.splitTokens l) 5) st H8) as (Hc & He & Hn).
  set (st1 := snd (CifParser.resolveResNum (Js.splitTokens l) (Js.Str chain)
                     (Js.Str entity) (Js.index (Js.splitTokens l) 5) st)) in *.
  rewrite Hn in Hnum.
  destruct (cif_run_tail run (S i)
              (withSoup (Soup.addAtom (CifParser.finishAtom a)) p)
              st1 chain entity Hrun' Hc He)
    as (atomsRun & q & Hq & Hatoms & Hlen & Hall).
  destruct (cif_sentinel_step (S i + length run) next q st1 chain' entity'
              Hnext) as (b & Hstepb & Hnumb).
  pose proof Hnext as (_ & H8' & _ & _).
  rewrite (resolve_new_chain _ chain chain' entity' _ st1 H8' Hc Hchain)
    in Hnumb.
  exists (CifParser.nextResNum st1),
         (CifParser.finishAtom a :: atomsRun), (CifParser.finishAtom b).
  change ((l :: run) ++ [next]) with (l :: (run ++ [next])).
  cbn [CifParser.parseAtomLinesFrom]. rewrite Hstep.
  rewrite cif_parseAtomLinesFrom_app, Hq.
  cbn [CifParser.parseAtomLinesFrom]. rewrite Hstepb.
  cbn [fst withSoup soup Soup.addAtom Soup.atoms].
  split; [|split; [|split]].
  - rewrite Hatoms. cbn [withSoup soup Soup.addAtom Soup.atoms].
    rewrite <- !app_assoc. reflexivity.
  - simpl. rewrite Hlen. reflexivity.
  - constructor; assumption.
  - exact Hnumb.
Qed.

(** C3, as amended.  In [CifParser.parseAtomLines]:
    - the atoms of a run of consecutive atom lines with the sentinel [.]
      as residue label, the same chain and entity and a residue type
      other than water all get the same residue number, and a sentinel
      atom of another chain that follows gets that number plus one;
    - an atom whose residue-label token (token 8) is not the sentinel
      gets the integer read from token 16, the author sequence number,
      and the counter becomes that value plus one;
    - a sentinel atom whose residue type is water gets the counter plus
      one, and the counter is moved there, whatever chain and entity
      are. *)
Theorem cif_residue_numbering :
  (forall run next i p st chain entity chain' entity',
     run <> [] ->
     Forall (fun l => isSentinelAtom chain entity l /\ isWater l = false)
       run ->
     isSentinelAtom chain' entity' next ->
     chain' <> chain ->
     exists n atomsRun aNext,
       Soup.atoms
         (soup (fst (CifParser.parseAtomLinesFrom i (run ++ [next]) (p, st))))
         = Soup.atoms (soup p) ++ atomsRun ++ [aNext] /\
       length atomsRun = length run /\
       Forall (fun a => Soup.atom_resNum a = n) atomsRun /\
       Soup.atom_resNum aNext = Js.add1 n) /\
  (forall tokens st a st',
     CifParser.atomFields tokens st = Js.Ok (a, st') ->
     Js.isStr (Js.index tokens 8) "." = false ->
     Soup.atom_resNum a = Js.parseInt (Js.index tokens 16) /\
     CifParser.nextResNum st' = Js.add1 (Js.parseInt (Js.index tokens 16)) /\
     CifParser.lastChain st' = Some (Js.index tokens 6) /\
     CifParser.lastEntity st' = Some (Js.index tokens 7)) /\
  (forall tokens st a st',
     CifParser.atomFields tokens st = Js.Ok (a, st') ->
     Js.index tokens 8 = Js.Str "." ->
     Js.index tokens 5 = Js.Str "HOH" ->
     Soup.atom_resNum a = Js.add1 (CifParser.nextResNum st) /\
     CifParser.nextResNum st' = Js.add1 (CifParser.nextResNum st)).
Proof.
  split; [|split].
  - intros. eapply cif_sentinel_run; eassumption.
  - intros tokens st a st' Hok H8.
    apply cif_atomFields_resNum in Hok.
    unfold CifParser.resolveResNum in Hok. rewrite H8 in Hok.
    injection Hok as -> ->. repeat split.
  - intros tokens st a st' Hok H8 H5.
    apply cif_atomFields_resNum in Hok.
    unfold CifParser.resolveResNum in Hok. rewrite H8, H5 in Hok.
    change (Js.isStr (Js.Str ".") ".") with true in Hok.
    change (Js.isStr (Js.Str "HOH") "HOH") with true in Hok.
    rewrite orb_true_r in Hok. cbv iota in Hok.
    injection Hok as -> ->. repeat split.
Qed.

Lemma cif_residue_numbering_witness :
  (exists n atomsRun aNext,
     Soup.atoms
       (soup (fst (CifParser.parseAtomLinesFrom 0
                     ([Samples.ligand1; Samples.ligand2] ++ [Samples.ligand3])
                     (constructor Soup.empty, CifParser.initialNumbering))))
       = Soup.atoms (soup (constructor Soup.empty)) ++ atomsRun ++ [aNext] /\
     length atomsRun = length [Samples.ligand1; Samples.ligand2] /\
     Forall (fun a => Soup.atom_resNum a = n) atomsRun /\
     Soup.atom_resNum aNext = Js.add1 n) /\
  (exists a st',
     CifParser.atomFields Samples.cifTokens CifParser.initialNumbering =
       Js.Ok (a, st') /\
     Soup.atom_resNum a = Js.parseInt (Js.index Samples.cifTokens 16) /\
     CifParser.nextResNum st' =
       Js.add1 (Js.parseInt (Js.index Samples.cifTokens 16))) /\
  (exists a st',
     CifParser.atomFields Samples.waterTokens
       (CifParser.mkNumbering (Js.Int 7) (Some (Js.Str "E")) (Some (Js.Str "4")))
       = Js.Ok (a, st') /\
     Soup.atom_resNum a = Js.Int 8 /\ CifParser.nextResNum st' = Js.Int 8).
Proof.
  destruct cif_residue_numbering as (Hrun & Hexplicit & Hwater).
  split; [|split].
  - apply (Hrun [Samples.ligand1; Samples.ligand2] Samples.ligand3 0
             (constructor Soup.empty) CifParser.initialNumbering
             "C" "3" "D" "3").
    + discriminate.
    + repeat constructor; vm_compute; reflexivity.
    + repeat split; vm_compute; reflexivity.
    + discriminate.
  - eexists. eexists. split; [reflexivity|].
    refine (let H := Hexplicit Samples.cifTokens CifParser.initialNumbering
                       _ _ eq_refl eq_refl in
            conj (proj1 H) (proj1 (proj2 H))).
  - eexists. eexists. split; [reflexivity|].
    exact (Hwater Samples.waterTokens
             (CifParser.mkNumbering (Js.Int 7) (Some (Js.Str "E"))
                (Some (Js.Str "4")))
             _ _ eq_refl eq_refl eq_refl).
Defined.

(** C3, as stated, fails: on this line the residue-label token is the
    integer 1, and the atom gets residue number 101, read from token 16;
    the counter becomes 102. *)
Lemma cif_explicit_label_not_adopted :
  exists a st',
    CifParser.atomFields (Js.splitTokens Samples.cifAtom)
      CifParser.initialNumbering = Js.Ok (a, st') /\
    Js.parseInt (Js.index (Js.splitTokens Samples.cifAtom) 8) = Js.Int 1 /\
    Soup.atom_resNum a = Js.Int 101 /\
    CifParser.nextResNum st' = Js.Int 102.
Proof.
  eexists. eexists. split; [vm_compute; reflexivity|].
  repeat split.
Qed.

(* ===================================================================== *)
(** ** The range walk of the secondary-structure annotator *)
(* ===================================================================== *)

Section Walk.

Variables (code : string) (chain : Js.value) (resNumEnd : Js.jsnum).

Local Abbreviation cond := (inWalk chain resNumEnd).
Local Abbreviation mark := (Soup.setSs code).

Lemma inWalk_setSs r : cond (mark r) = cond r.
Proof. reflexivity. Qed.

Lemma setSs_idem r : mark (mark r) = mark r.
Proof. reflexivity. Qed.

Lemma paintRun_length l : length (paintRun code chain resNumEnd l) = length l.
Proof.
  induction l as [|r l IH]; [reflexivity|].
  cbn [paintRun]. destruct (cond r); [|reflexivity].
  simpl. rewrite IH. reflexivity.
Qed.

(** The walk with enough fuel paints the run that starts under the
    cursor, and nothing else. *)
Lemma walk_residues fuel : forall iRes s,
  length (Soup.residues s) <= iRes + fuel ->
  Soup.residues (walk fuel code chain resNumEnd iRes s) =
  take iRes (Soup.residues s) ++
  paintRun code chain resNumEnd (drop iRes (Soup.residues s)).
Proof.
  induction fuel as [|fuel IH]; intros iRes s Hfuel.
  - cbn [walk]. rewrite take_ge, drop_ge by lia.
    rewrite app_nil_r. reflexivity.
  - cbn [walk].
    destruct (Soup.residues s !! iRes) as [r|] eqn:Er.
    + rewrite (drop_S _ _ _ Er). cbn [paintRun]. unfold inWalk.
      destruct (Js.le (Soup.res_resNum r) resNumEnd &&
                Js.strictEq chain (Soup.res_chain r)) eqn:Ec.
      * rewrite IH.
        2:{ cbn [Soup.writeSs Soup.residues]. rewrite length_alter. lia. }
        cbn [Soup.writeSs Soup.residues].
        rewrite take_alter_lt by lia.
        rewrite (take_S_r _ _ _ Er).
        rewrite alter_app_r_alt.
        2:{ rewrite length_take. apply lookup_lt_Some in Er. lia. }
        replace (iRes - length (take iRes (Soup.residues s))) with 0.
        2:{ rewrite length_take. apply lookup_lt_Some in Er. lia. }
        rewrite drop_alter_lt by lia.
        cbn [alter list_alter]. rewrite <- app_assoc. reflexivity.
      * rewrite <- (drop_S _ _ _ Er). rewrite take_drop. reflexivity.
    + apply lookup_ge_None in Er.
      rewrite take_ge, drop_ge by lia. rewrite app_nil_r. reflexivity.
Qed.

(** Inside the painted run. *)
Lemma paintRun_in l : forall m x,
  (forall k, k <= m -> exists r, l !! k = Some r /\ cond r = true) ->
  l !! m = Some x ->
  paintRun code chain resNumEnd l !! m = Some (mark x).
Proof.
  induction l as [|r l IH]; intros m x Hall Hm; [discriminate Hm|].
  cbn [paintRun].
  destruct (Hall 0) as (r0 & Hr0 & Hc0); [lia|].
  injection Hr0 as <-. rewrite Hc0.
  destruct m as [|m].
  - injection Hm as <-. reflexivity.
  - cbn. apply IH; [|exact Hm].
    intros k Hk. apply (Hall (S k)). lia.
Qed.

(** Past the painted run. *)
Lemma paintRun_out l : forall m,
  ~ (forall k, k <= m -> exists r, l !! k = Some r /\ cond r = true) ->
  paintRun code chain resNumEnd l !! m = l !! m.
Proof.
  induction l as [|r l IH]; intros m Hnot; [reflexivity|].
  cbn [paintRun]. destruct (cond r) eqn:Ec; [|reflexivity].
  destruct m as [|m].
  - exfalso. apply Hnot. intros k Hk. exists r.
    replace k with 0 by lia. split; [reflexivity|exact Ec].
  - cbn. apply IH. intros Hall. apply Hnot.
    intros [|k] Hk.
    + exists r. split; [reflexivity|exact Ec].
    + apply (Hall k). lia.
Qed.

(** A residue is left as it is or marked. *)
Lemma paintRun_any l : forall m x,
  l !! m = Some x ->
  paintRun code chain resNumEnd l !! m = Some x \/
  paintRun code chain resNumEnd l !! m = Some (mark x).
Proof.
  induction l as [|r l IH]; intros m x Hm; [discriminate Hm|].
  cbn [paintRun]. destruct (cond r); [|left; exact Hm].
  destruct m as [|m].
  - injection Hm as <-. right. reflexivity.
  - cbn. apply IH. exact Hm.
Qed.

Lemma painted_length l i : length (painted code chain resNumEnd l i) = length l.
Proof.
  unfold painted. rewrite length_app, paintRun_length, length_take, length_drop.
  lia.
Qed.

Lemma painted_before l i j : j < i -> painted code chain resNumEnd l i !! j = l !! j.
Proof.
  intros Hlt. unfold painted.
  destruct (decide (j < length l)) as [Hj|Hj].
  - rewrite lookup_app_l by (rewrite length_take; lia).
    apply lookup_take_lt. exact Hlt.
  - rewrite take_ge, drop_ge by lia. rewrite app_nil_r. reflexivity.
Qed.

Lemma painted_from l i j :
  i <= j -> i <= length l ->
  painted code chain resNumEnd l i !! j = paintRun code chain resNumEnd (drop i l) !! (j - i).
Proof.
  intros Hle Hlen. unfold painted.
  rewrite lookup_app_r by (rewrite length_take; lia).
  rewrite length_take. f_equal. lia.
Qed.

Lemma painted_in l i j x :
  run chain resNumEnd l i j -> l !! j = Some x ->
  painted code chain resNumEnd l i !! j = Some (mark x).
Proof.
  intros (Hle & Hall) Hj.
  assert (Hlen : j < length l) by (apply lookup_lt_Some in Hj; exact Hj).
  rewrite painted_from by lia.
  apply paintRun_in.
  - intros k Hk. rewrite lookup_drop. apply Hall; lia.
  - rewrite lookup_drop. replace (i + (j - i)) with j by lia. exact Hj.
Qed.

Lemma painted_out l i j :
  ~ run chain resNumEnd l i j -> painted code chain resNumEnd l i !! j = l !! j.
Proof.
  intros Hnot.
  destruct (decide (j < i)) as [Hlt|Hge]; [apply painted_before; exact Hlt|].
  destruct (decide (i <= length l)) as [Hlen|Hlen].
  - rewrite painted_from by lia.
    rewrite paintRun_out.
    + rewrite lookup_drop. f_equal. lia.
    + intros Hall. apply Hnot. split; [lia|].
      intros k Hik Hkj. specialize (Hall (k - i)).
      rewrite lookup_drop in Hall.
      replace (i + (k - i)) with k in Hall by lia.
      apply Hall. lia.
  - unfold painted. rewrite take_ge, drop_ge by lia.
    rewrite app_nil_r. reflexivity.
Qed.

Lemma painted_any l i j x :
  l !! j = Some x ->
  painted code chain resNumEnd l i !! j = Some x \/ painted code chain resNumEnd l i !! j = Some (mark x).
Proof.
  intros Hj.
  destruct (decide (j < i)) as [Hlt|Hge].
  - left. rewrite painted_before by exact Hlt. exact Hj.
  - assert (Hlen : j < length l) by (apply lookup_lt_Some in Hj; exact Hj).
    rewrite painted_from by lia.
    apply paintRun_any. rewrite lookup_drop.
    replace (i + (j - i)) with j by lia. exact Hj.
Qed.

End Walk.

Lemma findFrom_spec i chain resNum rs : forall k j,
  j ∈ Soup.findFrom k i chain resNum rs <->
  k <= j /\ exists r, rs !! (j - k) = Some r /\
    Soup.matches i chain resNum r = true.
Proof.
  induction rs as [|r rs IH]; intros k j.
  - cbn [Soup.findFrom]. split.
    + intros H. inversion H.
    + intros (_ & x & Hx & _). discriminate Hx.
  - cbn [Soup.findFrom].
    destruct (Soup.matches i chain resNum r) eqn:Em.
    + rewrite elem_of_cons, IH. split.
      * intros [->|(Hk & x & Hx & Hm)].
        -- split; [lia|]. exists r. rewrite Nat.sub_diag. split; [reflexivity|exact Em].
        -- split; [lia|]. exists x. split; [|exact Hm].
           replace (j - k) with (S (j - S k)) by lia. exact Hx.
      * intros (Hk & x & Hx & Hm).
        destruct (decide (j = k)) as [->|Hne]; [left; reflexivity|].
        right. split; [lia|]. exists x. split; [|exact Hm].
        replace (j - k) with (S (j - S k)) in Hx by lia. exact Hx.
    + rewrite IH. split.
      * intros (Hk & x & Hx & Hm).
        split; [lia|]. exists x. split; [|exact Hm].
        replace (j - k) with (S (j - S k)) by lia. exact Hx.
      * intros (Hk & x & Hx & Hm).
        destruct (decide (j = k)) as [->|Hne].
        -- rewrite Nat.sub_diag in Hx. injection Hx as <-. congruence.
        -- split; [lia|]. exists x. split; [|exact Hm].
           replace (j - k) with (S (j - S k)) in Hx by lia. exact Hx.
Qed.

Section PaintRange.

Variables (code : string) (chain : Js.value) (resNumEnd : Js.jsnum).
Variable rs : list Soup.Residue.

Local Abbreviation mark := (Soup.setSs code).

Lemma walked_run done s' i j :
  walked code chain resNumEnd rs done s' ->
  run chain resNumEnd rs i j <-> run chain resNumEnd (Soup.residues s') i j.
Proof.
  intros (Hlen & Hinv). split; intros (Hle & Hall); (split; [exact Hle|]);
    intros k Hik Hkj; destruct (Hall k Hik Hkj) as (x & Hx & Hc).
  - destruct (Hinv k x Hx) as ([H|H] & _); eexists; (split; [exact H|]);
      exact Hc.
  - assert (Hk : k < length rs).
    { rewrite <- Hlen. apply lookup_lt_Some in Hx. exact Hx. }
    apply lookup_lt_is_Some in Hk. destruct Hk as [y Hy].
    exists y. split; [exact Hy|].
    destruct (Hinv k y Hy) as ([H|H] & _); rewrite H in Hx;
      injection Hx as <-; exact Hc.
Qed.

Lemma walked_step done s' i :
  walked code chain resNumEnd rs done s' ->
  walked code chain resNumEnd rs (done ++ [i])
    (walk (length (Soup.residues s')) code chain resNumEnd i s').
Proof.
  intros Hw. pose proof Hw as (Hlen & Hinv).
  unfold walked. rewrite walk_residues by lia.
  fold (painted code chain resNumEnd (Soup.residues s') i).
  split; [rewrite painted_length; exact Hlen|].
  intros j r Hr. destruct (Hinv j r Hr) as (Hany & Hin & Hout).
  split; [|split].
  - destruct Hany as [H|H];
      destruct (painted_any code chain resNumEnd _ i j _ H) as [H'|H'];
      rewrite H'; auto.
  - intros (i' & Hi' & Hrun).
    apply elem_of_app in Hi'. destruct Hi' as [Hi'|Hi'].
    + assert (H : Soup.residues s' !! j = Some (mark r)).
      { apply Hin. exists i'. split; assumption. }
      destruct (painted_any code chain resNumEnd _ i j _ H) as [H'|H'];
        rewrite H'; reflexivity.
    + apply list_elem_of_singleton in Hi'. subst i'.
      apply (walked_run done s' i j Hw) in Hrun.
      destruct Hany as [H|H];
        rewrite (painted_in code chain resNumEnd _ i j _ Hrun H);
        reflexivity.
  - intros Hnone.
    rewrite painted_out.
    + apply Hout. intros i' Hi'. apply Hnone, elem_of_app. left. exact Hi'.
    + intros Hrun. apply (walked_run done s' i j Hw) in Hrun.
      apply (Hnone i); [|exact Hrun].
      apply elem_of_app. right. apply list_elem_of_singleton. reflexivity.
Qed.

Lemma walked_fold idxs : forall done s',
  walked code chain resNumEnd rs done s' ->
  walked code chain resNumEnd rs (done ++ idxs)
    (fold_left
       (fun s iRes =>
          walk (length (Soup.residues s)) code chain resNumEnd iRes s)
       idxs s').
Proof.
  induction idxs as [|i idxs IH]; intros done s' Hw.
  - rewrite app_nil_r. exact Hw.
  - cbn [fold_left].
    replace (done ++ i :: idxs) with ((done ++ [i]) ++ idxs)
      by (rewrite <- app_assoc; reflexivity).
    apply IH, walked_step, Hw.
Qed.

End PaintRange.

(** The residues after [paintRange]: the reached ones carry the code,
    the others are as before. *)
Lemma paintRange_residues code chain resNumStart resNumEnd s :
  let s' := paintRange code chain resNumStart resNumEnd s in
  length (Soup.residues s') = length (Soup.residues s) /\
  forall j r, Soup.residues s !! j = Some r ->
    (reached s chain resNumStart resNumEnd j ->
       Soup.residues s' !! j = Some (Soup.setSs code r)) /\
    (~ reached s chain resNumStart resNumEnd j ->
       Soup.residues s' !! j = Some r).
Proof.
  cbv zeta. unfold paintRange.
  pose proof (walked_fold code chain resNumEnd (Soup.residues s)
    (Soup.findResidueIndices (Soup.iStructure s) chain resNumStart s) [] s)
    as Hw.
  cbn [app] in Hw. destruct Hw as (Hlen & Hinv).
  { split; [reflexivity|]. intros j r Hr. split; [left; exact Hr|].
    split; [|intros _; exact Hr].
    intros (i & Hi & _). inversion Hi. }
  split; [exact Hlen|].
  intros j r Hr. destruct (Hinv j r Hr) as (_ & Hin & Hout).
  assert (Hfind : forall i,
    i ∈ Soup.findResidueIndices (Soup.iStructure s) chain resNumStart s <->
    exists x, Soup.residues s !! i = Some x /\
      Soup.matches (Soup.iStructure s) chain resNumStart x = true).
  { intros i. unfold Soup.findResidueIndices. rewrite findFrom_spec.
    rewrite Nat.sub_0_r. split; [intros (_ & H); exact H|].
    intros H. split; [lia|exact H]. }
  split.
  - intros (i & Hm & Hrun). apply Hin. exists i.
    split; [apply Hfind; exact Hm|exact Hrun].
  - intros Hnot. apply Hout. intros i Hi Hrun. apply Hnot.
    exists i. split; [apply Hfind; exact Hi|exact Hrun].
Qed.

Lemma strictEq_Str c v : Js.strictEq (Js.Str c) v = true -> v = Js.Str c.
Proof.
  destruct v as [|s]; cbn [Js.strictEq]; [discriminate|].
  intros H. apply String.eqb_eq in H. subst. reflexivity.
Qed.

(** C2, as amended.  After a [HELIX] record that announces chain [c]
    and the range from [s] to [e], the residues that carry [H] because of
    the record are exactly those reached by a walk from a residue index
    of the current structure that matches (c, s), every matching index
    starting a walk; a walk goes forward as long as the residue number
    is at most [e] and the chain is [c], and halts at the first residue
    that fails either test or at the end of the residues.  Every residue
    so reached is of chain [c] with a number at most [e]; its number may
    lie below [s].  All other residues keep the code they had. *)
Theorem helix_record_paints_walks (line : string) (p : Parser) :
  Js.substr 0 5 line = "HELIX" ->
  let chain := Js.Str (Js.substr 19 1 line) in
  let resNumStart := Js.parseInt (Js.Str (Js.substr 21 4 line)) in
  let resNumEnd := Js.parseInt (Js.Str (Js.substr 33 4 line)) in
  let q := PdbParser.parseSecondaryStructureLine line p in
  hasSecondaryStructure q = true /\
  length (Soup.residues (soup q)) = length (Soup.residues (soup p)) /\
  forall j r, Soup.residues (soup p) !! j = Some r ->
    (reached (soup p) chain resNumStart resNumEnd j ->
       Soup.residues (soup q) !! j = Some (Soup.setSs "H" r) /\
       Soup.res_chain r = chain /\
       Js.le (Soup.res_resNum r) resNumEnd = true) /\
    (~ reached (soup p) chain resNumStart resNumEnd j ->
       Soup.residues (soup q) !! j = Some r).
Proof.
  intros Hhelix. cbv zeta.
  unfold PdbParser.parseSecondaryStructureLine. rewrite Hhelix.
  cbn [String.eqb Ascii.eqb Bool.eqb].
  cbn [withSoup setHasSecondaryStructure soup hasSecondaryStructure].
  destruct (paintRange_residues "H" (Js.Str (Js.substr 19 1 line))
              (Js.parseInt (Js.Str (Js.substr 21 4 line)))
              (Js.parseInt (Js.Str (Js.substr 33 4 line))) (soup p))
    as (Hlen & Hres).
  split; [reflexivity|]. split; [exact Hlen|].
  intros j r Hr. destruct (Hres j r Hr) as (Hin & Hout).
  split; [|exact Hout].
  intros Hreached. split; [apply Hin; exact Hreached|].
  destruct Hreached as (i & _ & Hle & Hall).
  destruct (Hall j Hle (Nat.le_refl j)) as (x & Hx & Hc).
  rewrite Hr in Hx. injection Hx as <-.
  unfold inWalk in Hc. apply andb_true_iff in Hc. destruct Hc as (Hnum & Hch).
  split; [apply strictEq_Str; exact Hch|exact Hnum].
Qed.

Lemma helix_record_witness :
  let q := PdbParser.parseSecondaryStructureLine Samples.helixLine
             Samples.helixLoaded in
  hasSecondaryStructure q = true /\
  Soup.residues (soup q) !! 1 =
    Some (Soup.mkResidue 0 (Js.Str "A") (Js.Int 3) (Js.Str " ") "H") /\
  Soup.residues (soup q) !! 3 =
    Some (Soup.mkResidue 0 (Js.Str "A") (Js.Int 16) (Js.Str " ") Soup.coil).
Proof.
  destruct (helix_record_paints_walks Samples.helixLine Samples.helixLoaded
              eq_refl) as (Hflag & _ & Hres).
  split; [exact Hflag|]. split.
  - refine (proj1 (proj1 (Hres 1
              (Soup.mkResidue 0 (Js.Str "A") (Js.Int 3) (Js.Str " ") Soup.coil)
              _) _)).
    + vm_compute. reflexivity.
    + exists 0. split.
      * eexists. split; vm_compute; reflexivity.
      * split; [lia|]. intros k Hk0 Hk1.
        assert (Hk : k = 0 \/ k = 1) by lia.
        destruct Hk as [-> | ->]; eexists; split; vm_compute; reflexivity.
  - refine (proj2 (Hres 3
              (Soup.mkResidue 0 (Js.Str "A") (Js.Int 16) (Js.Str " ") Soup.coil)
              _) _).
    + vm_compute. reflexivity.
    + intros (i & _ & Hle & Hall).
      destruct (Hall 3 Hle (Nat.le_refl 3)) as (x & Hx & Hc).
      vm_compute in Hx. injection Hx as <-.
      vm_compute in Hc. discriminate Hc.
Defined.

(** C2, as stated, fails: chain A has residues numbered 10, 3, 11, 16 in
    file order and the record announces 10 to 15; the residue numbered 3,
    outside the range, carries [H] after the parse. *)
Lemma helix_paints_residue_below_start :
  let q := PdbParser.parsePdbData Samples.helixText "1abc"
             (constructor Soup.empty) in
  map (fun r => (Soup.res_chain r, Soup.res_resNum r, Soup.res_ss r))
      (Soup.residues (soup q)) =
  [(Js.Str "A", Js.Int 10, "H"); (Js.Str "A", Js.Int 3, "H");
   (Js.Str "A", Js.Int 11, "H"); (Js.Str "A", Js.Int 16, "C")].
Proof. vm_compute. reflexivity. Qed.

(* ===================================================================== *)
(** ** [CifParser]: the flag [hasSecondaryStructure] *)
(* ===================================================================== *)


Lemma flag_after_paint code chain st e p :
  hasSecondaryStructure
    (withSoup (paintRange code chain st e) (setHasSecondaryStructure true p))
  = true.
Proof. reflexivity. Qed.

Lemma helixLoop_flag lines : forall b p,
  hasSecondaryStructure (CifParser.helixLoop b lines p) =
  hasSecondaryStructure p ||
  existsb isHelixRow
    (if b then untilHash lines else firstLoop helixOpener lines).
Proof.
  unfold firstLoop, helixOpener.
  induction lines as [|l lines IH]; intros b p.
  - destruct b; cbn; rewrite orb_false_r; reflexivity.
  - cbn [CifParser.helixLoop fromOpener untilHash]. cbv zeta.
    assert (Hin : forall p,
      hasSecondaryStructure
        (if Js.startsWith "#" l then p
         else if negb (Js.startsWith "_struct_conf" l)
              then CifParser.helixLoop true lines
                     (withSoup
                        (paintRange "H" (Js.index (Js.splitTokens l) 4)
                           (Js.parseInt (Js.index (Js.splitTokens l) 5))
                           (Js.parseInt (Js.index (Js.splitTokens l) 9)))
                        (setHasSecondaryStructure true p))
              else CifParser.helixLoop true lines p) =
      hasSecondaryStructure p || existsb isHelixRow (untilHash (l :: lines))).
    { intros p0. cbn [untilHash].
      destruct (Js.startsWith "#" l); [cbn; rewrite orb_false_r; reflexivity|].
      cbn [existsb]. unfold isHelixRow at 1.
      destruct (negb (Js.startsWith "_struct_conf" l)).
      - rewrite IH, flag_after_paint. cbn. rewrite orb_true_r. reflexivity.
      - rewrite IH. reflexivity. }
    destruct b; cbn [negb].
    + apply Hin.
    + destruct (Js.startsWith "_struct_conf.pdbx_PDB_helix_id" l) eqn:Eo;
        cbn [negb].
      * apply Hin.
      * rewrite IH. reflexivity.
Qed.

Lemma sheetLoop_flag lines : forall b p,
  hasSecondaryStructure (CifParser.sheetLoop b lines p) =
  hasSecondaryStructure p ||
  existsb isSheetRow
    (if b then untilHash lines else firstLoop sheetOpener lines).
Proof.
  unfold firstLoop, sheetOpener.
  induction lines as [|l lines IH]; intros b p.
  - destruct b; cbn; rewrite orb_false_r; reflexivity.
  - cbn [CifParser.sheetLoop fromOpener untilHash]. cbv zeta.
    assert (Hin : forall p,
      hasSecondaryStructure
        (if Js.startsWith "#" l then p
         else if negb (String.eqb (Js.substr 0 6 l) "_struct")
              then CifParser.sheetLoop true lines
                     (withSoup
                        (paintRange "E" (Js.index (Js.splitTokens l) 3)
                           (Js.parseInt (Js.index (Js.splitTokens l) 4))
                           (Js.parseInt (Js.index (Js.splitTokens l) 8)))
                        (setHasSecondaryStructure true p))
              else CifParser.sheetLoop true lines p) =
      hasSecondaryStructure p || existsb isSheetRow (untilHash (l :: lines))).
    { intros p0. cbn [untilHash].
      destruct (Js.startsWith "#" l); [cbn; rewrite orb_false_r; reflexivity|].
      cbn [existsb]. unfold isSheetRow at 1.
      destruct (negb (String.eqb (Js.substr 0 6 l) "_struct")).
      - rewrite IH, flag_after_paint. cbn. rewrite orb_true_r. reflexivity.
      - rewrite IH. reflexivity. }
    destruct b; cbn [negb].
    + apply Hin.
    + destruct (Js.startsWith "_struct_sheet_range.sheet_id" l) eqn:Eo;
        cbn [negb].
      * apply Hin.
      * rewrite IH. reflexivity.
Qed.

(** The flag after [parseSecondaryStructureLines] does not depend on the
    flag before: it is reset first. *)
Lemma cif_ss_flag lines p :
  hasSecondaryStructure (CifParser.parseSecondaryStructureLines lines p) =
  existsb isHelixRow (firstLoop helixOpener lines) ||
  existsb isSheetRow (firstLoop sheetOpener lines).
Proof.
  unfold CifParser.parseSecondaryStructureLines, CifParser.parseSheetLines,
    CifParser.parseHelixLines.
  rewrite sheetLoop_flag, helixLoop_flag. reflexivity.
Qed.

(** C10, as amended.  After [CifParser.parsePdbData] the flag is true if
    and only if the first helix loop (from the first line that starts
    with [_struct_conf.pdbx_PDB_helix_id] up to the next line that starts
    with [#]) holds a line that does not start with [_struct_conf], or
    the first sheet loop (from the first line that starts with
    [_struct_sheet_range.sheet_id] up to the next line that starts with
    [#]) holds a line whose first six characters are not [_struct].  The
    store plays no part, and neither does the flag before the call. *)
Theorem cif_flag_iff_first_loops_have_rows (pdbText pdbId : string) (p : Parser) :
  let lines := Js.splitLines pdbText in
  hasSecondaryStructure (CifParser.parsePdbData pdbText pdbId p) = true <->
  (exists l, In l (firstLoop helixOpener lines) /\
     Js.startsWith "_struct_conf" l = false) \/
  (exists l, In l (firstLoop sheetOpener lines) /\
     Js.substr 0 6 l <> "_struct").
Proof.
  cbv zeta. unfold CifParser.parsePdbData.
  rewrite splitLines_length, cif_ss_flag, orb_true_iff, !existsb_exists.
  unfold isHelixRow, isSheetRow.
  split; (intros [(l & Hl & H)|(l & Hl & H)]; [left|right]); exists l;
    (split; [exact Hl|]).
  - apply negb_true_iff. exact H.
  - apply negb_true_iff, String.eqb_neq in H. exact H.
  - apply negb_true_iff. exact H.
  - apply negb_true_iff, String.eqb_neq. exact H.
Qed.

(** C10, as stated, fails: in this text line 3 lies in a helix loop
    (opened by line 2) and does not start with [_struct_conf], and the
    flag is false after the parse: only the first helix loop, closed by
    line 1, was read. *)
Lemma cif_second_helix_loop_is_not_read :
  let lines := Js.splitLines Samples.twoLoopsText in
  hasSecondaryStructure
    (CifParser.parsePdbData Samples.twoLoopsText "1abc"
       (constructor Soup.empty)) = false /\
  exists l, lines !! 3 = Some l /\
    inSomeLoop helixOpener lines 3 /\
    Js.startsWith "_struct_conf" l = false.
Proof.
  split; [vm_compute; reflexivity|].
  eexists. split; [vm_compute; reflexivity|].
  split; [|reflexivity].
  exists 2. split; [lia|]. split.
  - eexists. split; vm_compute; reflexivity.
  - intros k l Hk1 Hk2 Hl.
    assert (Hk : k = 2 \/ k = 3) by lia.
    destruct Hk as [-> | ->]; vm_compute in Hl; injection Hl as <-;
      reflexivity.
Qed.

(* ===================================================================== *)
(** ** Further evaluations *)
(* ===================================================================== *)

(** Only the bucket after the last terminator is dropped: a closing
    [END] line after the third [ENDMDL] leaves an empty fourth model. *)
Example closing_end_line_adds_a_structure :
  let q := PdbParser.parsePdbData Samples.threeWithEndText "1abc"
             (constructor Soup.empty) in
  map fst (Soup.structures (soup q)) =
    ["1abc[1]"; "1abc[2]"; "1abc[3]"; "1abc[4]"] /\
  length (Soup.atoms (soup q)) = 5.
Proof. vm_compute. split; reflexivity. Qed.

(** The three ligand atoms of the samples get the residue numbers 1, 1
    and 2. *)
Example cif_ligand_numbers :
  map Soup.atom_resNum
    (Soup.atoms
       (soup (CifParser.parseAtomLines
                [Samples.ligand1; Samples.ligand2; Samples.ligand3]
                (constructor Soup.empty)))) =
  [Js.Int 1; Js.Int 1; Js.Int 2].
Proof. vm_compute. reflexivity. Qed.

(** In the mmCIF parser a line with fewer than four tokens is dropped and
    its index recorded; the lines around it keep their atoms. *)
Example cif_cut_line_is_dropped :
  let q := CifParser.parsePdbData Samples.cifCutText "1abc"
             (constructor Soup.empty) in
  length (Soup.atoms (soup q)) = 2 /\ error q = "line 1".
Proof. vm_compute. split; reflexivity. Qed.

(** The tokens of the sample mmCIF atom line. *)
Example cifAtom_tokens : Js.splitTokens Samples.cifAtom = Samples.cifTokens.
Proof. vm_compute. reflexivity. Qed.

(* ===================================================================== *)
(** ** Titles of PDB files *)
(* ===================================================================== *)

Lemma string_app_cons (x : ascii) (a b : string) :
  String x a +:+ b = String x (a +:+ b).
Proof. reflexivity. Qed.

Lemma string_app_assoc (a b c : string) : (a +:+ b) +:+ c = a +:+ (b +:+ c).
Proof.
  induction a as [|x a IH]; [reflexivity|].
  rewrite !string_app_cons, IH. reflexivity.
Qed.

Lemma string_app_nil_r (a : string) : a +:+ "" = a.
Proof.
  induction a as [|x a IH]; [reflexivity|].
  rewrite string_app_cons, IH. reflexivity.
Qed.

Lemma pdb_parseTitleFrom_acc lines : forall result,
  PdbParser.parseTitleFrom result lines =
  result +:+ joinAll (map (Js.substringFrom 10) (List.filter isTitleLine lines)).
Proof.
  induction lines as [|l lines IH]; intros result.
  - cbn. rewrite string_app_nil_r. reflexivity.
  - cbn [PdbParser.parseTitleFrom List.filter]. unfold isTitleLine at 1.
    destruct (String.eqb (Js.substr 0 5 l) "TITLE").
    + rewrite IH. cbn [map joinAll]. apply string_app_assoc.
    + apply IH.
Qed.

Lemma joinAll_app a b : joinAll (a ++ b) = joinAll a +:+ joinAll b.
Proof.
  induction a as [|x a IH]; [reflexivity|].
  cbn [app joinAll]. rewrite IH. symmetry. apply string_app_assoc.
Qed.

(** X1.  [PdbParser.parseTitle] returns the payloads (the text from
    column 10 on) of the [TITLE] lines, in file order, with nothing put
    between them; so the title of two stretches of lines put together is
    the two titles put together, and lines other than [TITLE] lines add
    nothing. *)
Theorem pdb_title_concatenates_title_lines :
  (forall lines,
     PdbParser.parseTitle lines =
     joinAll (map (Js.substringFrom 10) (List.filter isTitleLine lines))) /\
  (forall a b,
     PdbParser.parseTitle (a ++ b) =
     PdbParser.parseTitle a +:+ PdbParser.parseTitle b) /\
  (forall lines,
     Forall (fun l => isTitleLine l = false) lines ->
     PdbParser.parseTitle lines = "").
Proof.
  assert (H : forall lines,
     PdbParser.parseTitle lines =
     joinAll (map (Js.substringFrom 10) (List.filter isTitleLine lines))).
  { intros lines. unfold PdbParser.parseTitle.
    rewrite pdb_parseTitleFrom_acc. reflexivity. }
  split; [exact H|]. split.
  - intros a b. rewrite !H, List.filter_app, map_app. apply joinAll_app.
  - intros lines Hno. rewrite H.
    induction Hno as [|l lines Hl _ IH]; [reflexivity|].
    cbn [List.filter]. rewrite Hl. exact IH.
Qed.

Lemma pdb_title_witness :
  PdbParser.parseTitle ["HEADER    X"; "REMARK   1"] = "".
Proof.
  apply (proj2 (proj2 pdb_title_concatenates_title_lines)).
  repeat constructor.
Defined.

Lemma handlers_titleFrom_eq lines : forall result,
  Handlers.titleFrom result lines = PdbParser.parseTitleFrom result lines.
Proof.
  induction lines as [|l lines IH]; intros result; [reflexivity|].
  cbn [Handlers.titleFrom PdbParser.parseTitleFrom].
  destruct (String.eqb (Js.substr 0 5 l) "TITLE"); apply IH.
Qed.

(** X2.  The title that the file browser shows for a text
    ([parsetTitleFromPdbText]) is the payloads of its [TITLE] lines, one
    after the other, and it is the title that [PdbParser.parsePdbData]
    pushes with every structure of that text. *)
Theorem handlers_title_is_parser_title (text pdbId : string) (p : Parser) :
  Handlers.parsetTitleFromPdbText text =
    joinAll (map (Js.substringFrom 10)
               (List.filter isTitleLine (Js.splitLines text))) /\
  exists ids,
    Soup.structures (soup (PdbParser.parsePdbData text pdbId p)) =
    Soup.structures (soup p) ++
    map (fun id => (id, Handlers.parsetTitleFromPdbText text)) ids.
Proof.
  assert (Ht : Handlers.parsetTitleFromPdbText text =
               PdbParser.parseTitle (Js.splitLines text)).
  { unfold Handlers.parsetTitleFromPdbText, PdbParser.parseTitle.
    apply handlers_titleFrom_eq. }
  split.
  - rewrite Ht. apply (proj1 pdb_title_concatenates_title_lines).
  - unfold PdbParser.parsePdbData.
    rewrite splitLines_length. cbv zeta.
    destruct (PdbParser.bucketLines _ _ _ _) as [models iModel].
    rewrite loadModels_structures, Ht.
    eexists (map _ (seq 0 _)). rewrite map_map. reflexivity.
Qed.

(* ===================================================================== *)
(** ** [getViewsJson]: the name of the views file *)
(* ===================================================================== *)

Section Occurrences.

(** The pattern is [String d q]; [c] is a character that does not occur
    in [q]. *)
Variables (d c : ascii) (q : string).
Hypothesis c_foreign : allChars (fun x => negb (Ascii.eqb x c)) q = true.

Lemma prefix_nil s : String.prefix "" s = true.
Proof. destruct s; reflexivity. Qed.

Lemma prefix_app_foreign_tail : forall q' b t,
  allChars (fun x => negb (Ascii.eqb x c)) q' = true ->
  String.prefix q' (b +:+ String c t) = String.prefix q' b.
Proof.
  induction q' as [|e q' IH]; intros b t Hq.
  - rewrite !prefix_nil. reflexivity.
  - cbn [allChars] in Hq. apply andb_true_iff in Hq. destruct Hq as (He & Hq).
    apply negb_true_iff, Ascii.eqb_neq in He.
    destruct b as [|f b].
    + change ("" +:+ String c t) with (String c t). cbn [String.prefix].
      destruct (ascii_dec e c); [contradiction|reflexivity].
    + rewrite string_app_cons. cbn [String.prefix].
      destruct (ascii_dec e f); [apply IH; exact Hq|reflexivity].
Qed.

Lemma prefix_app_foreign b t :
  String.prefix (String d q) (b +:+ String c t) =
  match b with
  | EmptyString => String.prefix (String d q) (String c t)
  | String _ _ => String.prefix (String d q) b
  end.
Proof.
  destruct b as [|f b]; [reflexivity|].
  rewrite string_app_cons. cbn [String.prefix].
  destruct (ascii_dec d f); [|reflexivity].
  apply prefix_app_foreign_tail. exact c_foreign.
Qed.

Lemma includes_app_foreign b t :
  Js.includes (String d q) (b +:+ String c t) =
  Js.includes (String d q) b || Js.includes (String d q) (String c t).
Proof.
  induction b as [|f b IH]; [reflexivity|].
  rewrite string_app_cons.
  change (Js.includes (String d q) (String f (b +:+ String c t)))
    with (String.prefix (String d q) (String f (b +:+ String c t)) ||
          Js.includes (String d q) (b +:+ String c t)).
  change (Js.includes (String d q) (String f b))
    with (String.prefix (String d q) (String f b) ||
          Js.includes (String d q) b).
  rewrite <- string_app_cons, prefix_app_foreign, IH, orb_assoc.
  reflexivity.
Qed.

End Occurrences.

Lemma includes_no_prefix p s :
  Js.includes p s = false -> String.prefix p s = false.
Proof.
  destruct s; cbn [Js.includes]; intros H;
    apply orb_false_iff in H; exact (proj1 H).
Qed.

Lemma removeFirst_absent p s :
  Js.includes p s = false -> Js.removeFirst p s = s.
Proof.
  induction s as [|x s IH]; intros H.
  - cbn [Js.removeFirst]. rewrite (includes_no_prefix _ _ H). reflexivity.
  - cbn [Js.removeFirst]. rewrite (includes_no_prefix _ _ H).
    cbn [Js.includes] in H. apply orb_false_iff in H.
    rewrite (IH (proj2 H)). reflexivity.
Qed.

Lemma prefix_app_self p t : String.prefix p (p +:+ t) = true.
Proof.
  induction p as [|x p IH]; [apply prefix_nil|].
  rewrite string_app_cons. cbn [String.prefix].
  destruct (ascii_dec x x); [exact IH|congruence].
Qed.

Lemma substringFrom_app p t : Js.substringFrom (String.length p) (p +:+ t) = t.
Proof. induction p as [|x p IH]; [reflexivity|exact IH]. Qed.

(** The first occurrence of a pattern whose first character does not
    come back in it, behind a text that does not hold the pattern. *)
Lemma removeFirst_behind d q b t :
  allChars (fun x => negb (Ascii.eqb x d)) q = true ->
  Js.includes (String d q) b = false ->
  Js.removeFirst (String d q) (b +:+ String d q +:+ t) = b +:+ t.
Proof.
  intros Hq. induction b as [|f b IH]; intros Hb.
  - change ("" +:+ String d q +:+ t) with (String d q +:+ t).
    unfold Js.removeFirst at 1.
    destruct (String d q +:+ t) eqn:E; [discriminate E|].
    rewrite <- E, prefix_app_self. apply substringFrom_app.
  - rewrite !string_app_cons. cbn [Js.removeFirst].
    rewrite <- string_app_cons.
    change (String d q +:+ t) with (String d (q +:+ t)).
    rewrite (prefix_app_foreign d d q Hq).
    rewrite (includes_no_prefix _ _ Hb).
    cbn [Js.includes] in Hb. apply orb_false_iff in Hb.
    change (String d (q +:+ t)) with (String d q +:+ t).
    rewrite (IH (proj2 Hb)). reflexivity.
Qed.

Lemma prefix_shorter p x s :
  String.prefix (p +:+ x) s = true -> String.prefix p s = true.
Proof.
  revert s. induction p as [|e p IH]; intros s H; [apply prefix_nil|].
  rewrite string_app_cons in H. destruct s as [|f s]; [discriminate H|].
  cbn [String.prefix] in *.
  destruct (ascii_dec e f); [apply IH; exact H|discriminate H].
Qed.

Lemma includes_shorter p x s :
  Js.includes p s = false -> Js.includes (p +:+ x) s = false.
Proof.
  induction s as [|f s IH]; cbn [Js.includes]; intros H;
    apply orb_false_iff in H; destruct H as (Hp & Hs);
    apply orb_false_iff; (split; [|auto]);
    destruct (String.prefix (p +:+ x) _) eqn:E; try reflexivity;
    apply prefix_shorter in E; congruence.
Qed.

(** X3.  For a file name [base] that holds neither [.pdb] nor [.cif]:
    the views file of [base.pdb] and of [base.cif] is [base.views.json],
    and a name without extension gets [.views.json] appended; the views
    file of [base.pdb1] is [base1.views.json], because [.pdb] is removed
    first and leaves the [1] behind. *)
Theorem views_file_name (base : string) :
  Js.includes ".pdb" base = false ->
  Js.includes ".cif" base = false ->
  Handlers.getViewsJson (base +:+ ".pdb") = base +:+ ".views.json" /\
  Handlers.getViewsJson (base +:+ ".cif") = base +:+ ".views.json" /\
  Handlers.getViewsJson base = base +:+ ".views.json" /\
  Handlers.getViewsJson (base +:+ ".pdb1") = base +:+ "1.views.json".
Proof.
  intros Hpdb Hcif.
  assert (Hpdb1 : Js.includes ".pdb1" base = false)
    by exact (includes_shorter ".pdb" "1" base Hpdb).
  unfold Handlers.getViewsJson. cbv zeta. repeat split.
  - change (base +:+ ".pdb") with (base +:+ ".pdb" +:+ "").
    rewrite (removeFirst_behind "." "pdb" base "" eq_refl Hpdb).
    rewrite string_app_nil_r.
    rewrite (removeFirst_absent _ _ Hpdb1), (removeFirst_absent _ _ Hcif).
    reflexivity.
  - rewrite (removeFirst_absent ".pdb").
    2:{ rewrite (includes_app_foreign "." "." "pdb" eq_refl), Hpdb.
        reflexivity. }
    rewrite (removeFirst_absent ".pdb1").
    2:{ rewrite (includes_app_foreign "." "." "pdb1" eq_refl), Hpdb1.
        reflexivity. }
    change (base +:+ ".cif") with (base +:+ ".cif" +:+ "").
    rewrite (removeFirst_behind "." "cif" base "" eq_refl Hcif).
    rewrite string_app_nil_r. reflexivity.
  - rewrite (removeFirst_absent _ _ Hpdb), (removeFirst_absent _ _ Hpdb1),
      (removeFirst_absent _ _ Hcif). reflexivity.
  - change (base +:+ ".pdb1") with (base +:+ ".pdb" +:+ "1").
    rewrite (removeFirst_behind "." "pdb" base "1" eq_refl Hpdb).
    rewrite (removeFirst_absent ".pdb1").
    2:{ apply (includes_shorter ".pdb" "1").
        rewrite (includes_app_foreign "." "1" "pdb" eq_refl), Hpdb.
        reflexivity. }
    rewrite (removeFirst_absent ".cif").
    2:{ rewrite (includes_app_foreign "." "1" "cif" eq_refl), Hcif.
        reflexivity. }
    rewrite string_app_assoc. reflexivity.
Qed.

Lemma views_file_name_witness :
  Handlers.getViewsJson ("data/1mbo" +:+ ".pdb") =
    "data/1mbo" +:+ ".views.json" /\
  Handlers.getViewsJson ("data/1mbo" +:+ ".cif") =
    "data/1mbo" +:+ ".views.json" /\
  Handlers.getViewsJson "data/1mbo" = "data/1mbo" +:+ ".views.json" /\
  Handlers.getViewsJson ("data/1mbo" +:+ ".pdb1") =
    "data/1mbo" +:+ "1.views.json".
Proof. exact (views_file_name "data/1mbo" eq_refl eq_refl). Defined.

(* ===================================================================== *)
(** ** [removeQuotes] and [deleteNumbers] *)
(* ===================================================================== *)

Lemma removeQuotes_mismatch (q1 q2 : ascii) (body : string) :
  q1 <> q2 ->
  removeQuotes (String q1 (body +:+ String q2 "")) =
  String q1 (body +:+ String q2 "").
Proof.
  intros Hne.
  unfold removeQuotes, Js.charAt, Js.substr.
  cbn [String.length String.get].
  rewrite length_app_char. cbn [Nat.sub]. rewrite Nat.sub_0_r.
  change (String.get (S (String.length body))
            (String q1 (body +:+ String q2 "")))
    with (String.get (String.length body) (body +:+ String q2 "")).
  rewrite get_app_end.
  unfold Js.isStr, Js.strictEq, Js.dquote.
  destruct (String.eqb_spec (String q1 "") (String (ascii_of_nat 34) ""))
    as [E1|E1];
    destruct (String.eqb_spec (String q2 "") (String (ascii_of_nat 34) ""))
      as [E2|E2];
    destruct (String.eqb_spec (String q1 "") "'") as [E3|E3];
    destruct (String.eqb_spec (String q2 "") "'") as [E4|E4];
    cbn [andb]; try reflexivity; congruence.
Qed.

Lemma removeQuotes_plain (c : ascii) (t : string) :
  c <> "'"%char -> c <> ascii_of_nat 34 ->
  removeQuotes (String c t) = String c t.
Proof.
  intros H1 H2. unfold removeQuotes, Js.charAt.
  cbn [String.get]. unfold Js.isStr, Js.strictEq, Js.dquote.
  destruct (String.eqb_spec (String c "") (String (ascii_of_nat 34) ""))
    as [E1|E1]; [congruence|].
  destruct (String.eqb_spec (String c "") "'") as [E3|E3]; [congruence|].
  reflexivity.
Qed.

(** X4.  [removeQuotes] undoes quoting once: a text between two single
    quotes, or between two double quotes, comes back without them (inner
    quotes stay); a string that starts with one kind of quote and ends
    with the other, or that does not start with a quote, comes back as it
    is; the empty string comes back empty. *)
Theorem removeQuotes_strips_one_pair :
  (forall body, removeQuotes ("'" +:+ body +:+ "'") = body) /\
  (forall body, removeQuotes (Js.dquote +:+ body +:+ Js.dquote) = body) /\
  (forall body,
     removeQuotes ("'" +:+ body +:+ Js.dquote) = "'" +:+ body +:+ Js.dquote /\
     removeQuotes (Js.dquote +:+ body +:+ "'") = Js.dquote +:+ body +:+ "'") /\
  (forall c t,
     c <> "'"%char -> c <> ascii_of_nat 34 ->
     removeQuotes (String c t) = String c t) /\
  removeQuotes "" = "".
Proof.
  split; [exact removeQuotes_single|].
  split; [exact removeQuotes_double|].
  split; [|split; [exact removeQuotes_plain|reflexivity]].
  intros body. split.
  - apply (removeQuotes_mismatch "'" (ascii_of_nat 34) body). discriminate.
  - apply (removeQuotes_mismatch (ascii_of_nat 34) "'" body). discriminate.
Qed.

Lemma removeQuotes_witness :
  removeQuotes (String "M" "y Protein") = String "M" "y Protein".
Proof.
  apply (proj1 (proj2 (proj2 (proj2 removeQuotes_strips_one_pair))));
    discriminate.
Defined.

Lemma span_digits_run run b :
  allChars Js.isDigit run = true -> headIsDigit b = false ->
  Js.span Js.isDigit (run +:+ b) = (run, b).
Proof.
  intros Hrun Hb. induction run as [|x run IH].
  - change ("" +:+ b) with b. destruct b as [|y b]; [reflexivity|].
    cbn [headIsDigit] in Hb. cbn [Js.span]. rewrite Hb. reflexivity.
  - cbn [allChars] in Hrun. apply andb_true_iff in Hrun.
    destruct Hrun as (Hx & Hrun).
    rewrite string_app_cons. cbn [Js.span]. rewrite Hx, (IH Hrun).
    reflexivity.
Qed.

(** X5.  [deleteNumbers] deletes the first run of digits and nothing
    else: in [a ++ run ++ b], where [a] has no digit, [run] is a
    non-empty string of digits and [b] does not start with a digit, the
    result is [a ++ b], the digits further on in [b] included; a string
    without digits comes back as it is. *)
Theorem deleteNumbers_removes_first_run_only :
  (forall a run b,
     hasDigit a = false ->
     run <> "" -> allChars Js.isDigit run = true ->
     headIsDigit b = false ->
     deleteNumbers (a +:+ run +:+ b) = a +:+ b) /\
  (forall s, hasDigit s = false -> deleteNumbers s = s).
Proof.
  split; [|exact deleteNumbers_no_digit].
  intros a run b Ha Hne Hrun Hb. unfold deleteNumbers.
  induction a as [|x a IH].
  - change ("" +:+ run +:+ b) with (run +:+ b).
    change ("" +:+ b) with b.
    destruct run as [|y run]; [congruence|].
    cbn [allChars] in Hrun. apply andb_true_iff in Hrun.
    destruct Hrun as (Hy & Hrun).
    rewrite string_app_cons. cbn [Js.removeFirstDigits]. rewrite Hy.
    rewrite (span_digits_run run b Hrun Hb). reflexivity.
  - cbn [hasDigit] in Ha. apply orb_false_iff in Ha. destruct Ha as (Hx & Ha).
    rewrite !string_app_cons. cbn [Js.removeFirstDigits]. rewrite Hx.
    rewrite (IH Ha). reflexivity.
Qed.

Lemma deleteNumbers_witness :
  deleteNumbers ("H" +:+ "12" +:+ "B3") = "H" +:+ "B3" /\
  deleteNumbers "CA" = "CA".
Proof.
  split.
  - apply (proj1 deleteNumbers_removes_first_run_only);
      [reflexivity|discriminate|reflexivity|reflexivity].
  - apply (proj2 deleteNumbers_removes_first_run_only). reflexivity.
Defined.

(* ===================================================================== *)
(** ** Line breaks *)
(* ===================================================================== *)

Lemma splitLines_cons_plain c rest :
  Js.isLF c = false -> Js.isCR c = false -> rest <> "" ->
  Js.splitLines (String c rest) =
  match Js.splitLines rest with
  | [] => [String c ""]
  | l :: ls => String c l :: ls
  end.
Proof.
  intros Hlf Hcr Hne. destruct rest as [|c' rest']; [congruence|].
  cbn [Js.splitLines]. rewrite Hlf, Hcr. reflexivity.
Qed.

Lemma plainLine_cons c l :
  plainLine (String c l) = true ->
  Js.isCR c = false /\ Js.isLF c = false /\ plainLine l = true.
Proof.
  unfold plainLine. cbn [allChars]. intros H.
  apply andb_true_iff in H. destruct H as (Hc & Hl).
  apply andb_true_iff in Hc. destruct Hc as (Hcr & Hlf).
  apply negb_true_iff in Hcr, Hlf. repeat split; assumption.
Qed.

Lemma app_break_nonempty l (x : ascii) t : l +:+ String x t <> "".
Proof. destruct l; discriminate. Qed.

Lemma splitLines_plain l :
  plainLine l = true -> Js.splitLines l = [l].
Proof.
  induction l as [|c l IH]; intros Hl; [reflexivity|].
  apply plainLine_cons in Hl. destruct Hl as (Hcr & Hlf & Hl).
  destruct l as [|c' l'].
  - cbn [Js.splitLines]. rewrite Hlf. reflexivity.
  - rewrite splitLines_cons_plain by (assumption || discriminate).
    rewrite (IH Hl). reflexivity.
Qed.

Lemma splitLines_plain_lf l t :
  plainLine l = true ->
  Js.splitLines (l +:+ lf +:+ t) = l :: Js.splitLines t.
Proof.
  induction l as [|c l IH]; intros Hl.
  - reflexivity.
  - apply plainLine_cons in Hl. destruct Hl as (Hcr & Hlf & Hl).
    rewrite string_app_cons.
    rewrite splitLines_cons_plain
      by (assumption || apply app_break_nonempty).
    rewrite (IH Hl). reflexivity.
Qed.

Lemma splitLines_plain_crlf l t :
  plainLine l = true ->
  Js.splitLines (l +:+ crlf +:+ t) = l :: Js.splitLines t.
Proof.
  induction l as [|c l IH]; intros Hl.
  - reflexivity.
  - apply plainLine_cons in Hl. destruct Hl as (Hcr & Hlf & Hl).
    rewrite string_app_cons.
    rewrite splitLines_cons_plain
      by (assumption || apply app_break_nonempty).
    rewrite (IH Hl). reflexivity.
Qed.

Lemma splitLines_joinWith sep lines :
  (forall l t, plainLine l = true ->
     Js.splitLines (l +:+ sep +:+ t) = l :: Js.splitLines t) ->
  lines <> [] ->
  Forall (fun l => plainLine l = true) lines ->
  Js.splitLines (joinWith sep lines) = lines.
Proof.
  intros Hsep Hne Hall. induction Hall as [|l rest Hl Hrest IH]; [congruence|].
  cbn [joinWith]. destruct rest as [|l2 rest].
  - apply splitLines_plain. exact Hl.
  - rewrite (Hsep l _ Hl). f_equal. apply IH. discriminate.
Qed.

(** X6.  Line breaks: a text made of lines without carriage return and
    line feed, joined by line feeds or by carriage return and line feed,
    is split back into exactly those lines; so both parsers do the same
    to the two texts. *)
Theorem line_breaks_do_not_matter (lines : list string) :
  lines <> [] ->
  Forall (fun l => plainLine l = true) lines ->
  Js.splitLines (joinWith lf lines) = lines /\
  Js.splitLines (joinWith crlf lines) = lines /\
  (forall pdbId p,
     PdbParser.parsePdbData (joinWith crlf lines) pdbId p =
     PdbParser.parsePdbData (joinWith lf lines) pdbId p) /\
  (forall pdbId p,
     CifParser.parsePdbData (joinWith crlf lines) pdbId p =
     CifParser.parsePdbData (joinWith lf lines) pdbId p) /\
  Handlers.parsetTitleFromPdbText (joinWith crlf lines) =
  Handlers.parsetTitleFromPdbText (joinWith lf lines).
Proof.
  intros Hne Hall.
  pose proof (splitLines_joinWith lf lines splitLines_plain_lf Hne Hall) as H1.
  pose proof (splitLines_joinWith crlf lines splitLines_plain_crlf Hne Hall)
    as H2.
  split; [exact H1|]. split; [exact H2|].
  unfold PdbParser.parsePdbData, CifParser.parsePdbData,
    Handlers.parsetTitleFromPdbText.
  rewrite H1, H2. repeat split.
Qed.

Lemma line_breaks_witness :
  Js.splitLines (joinWith crlf ["TITLE     X"; Samples.atomN; "END"]) =
  ["TITLE     X"; Samples.atomN; "END"].
Proof.
  refine (proj1 (proj2 (line_breaks_do_not_matter
            ["TITLE     X"; Samples.atomN; "END"] _ _))).
  - discriminate.
  - repeat constructor.
Defined.

(* ===================================================================== *)
(** ** Secondary-structure records: what they write and what they keep *)
(* ===================================================================== *)

(** X7.  After a [SHEET] record, whose chain is read from column 21, start
    from columns 22-25 and end from columns 33-36, the residues reached by
    a walk from a residue of the current structure matching (chain,
    start) carry [E], each of them of that chain and with a number at
    most the end; all other residues are as before, and the flag is
    set. *)
Theorem sheet_record_paints_walks (line : string) (p : Parser) :
  Js.substr 0 5 line = "SHEET" ->
  let chain := Js.Str (Js.substr 21 1 line) in
  let resNumStart := Js.parseInt (Js.Str (Js.substr 22 4 line)) in
  let resNumEnd := Js.parseInt (Js.Str (Js.substr 33 4 line)) in
  let q := PdbParser.parseSecondaryStructureLine line p in
  hasSecondaryStructure q = true /\
  length (Soup.residues (soup q)) = length (Soup.residues (soup p)) /\
  forall j r, Soup.residues (soup p) !! j = Some r ->
    (reached (soup p) chain resNumStart resNumEnd j ->
       Soup.residues (soup q) !! j = Some (Soup.setSs "E" r) /\
       Soup.res_chain r = chain /\
       Js.le (Soup.res_resNum r) resNumEnd = true) /\
    (~ reached (soup p) chain resNumStart resNumEnd j ->
       Soup.residues (soup q) !! j = Some r).
Proof.
  intros Hsheet. cbv zeta.
  unfold PdbParser.parseSecondaryStructureLine. rewrite Hsheet.
  cbn [String.eqb Ascii.eqb Bool.eqb].
  cbn [withSoup setHasSecondaryStructure soup hasSecondaryStructure].
  destruct (paintRange_residues "E" (Js.Str (Js.substr 21 1 line))
              (Js.parseInt (Js.Str (Js.substr 22 4 line)))
              (Js.parseInt (Js.Str (Js.substr 33 4 line))) (soup p))
    as (Hlen & Hres).
  split; [reflexivity|]. split; [exact Hlen|].
  intros j r Hr. destruct (Hres j r Hr) as (Hin & Hout).
  split; [|exact Hout].
  intros Hreached. split; [apply Hin; exact Hreached|].
  destruct Hreached as (i & _ & Hle & Hall).
  destruct (Hall j Hle (Nat.le_refl j)) as (x & Hx & Hc).
  rewrite Hr in Hx. injection Hx as <-.
  unfold inWalk in Hc. apply andb_true_iff in Hc. destruct Hc as (Hnum & Hch).
  split; [apply strictEq_Str; exact Hch|exact Hnum].
Qed.

Lemma sheet_record_witness :
  let q := PdbParser.parseSecondaryStructureLine MoreSamples.sheetLine
             Samples.helixLoaded in
  hasSecondaryStructure q = true /\
  Soup.residues (soup q) !! 2 =
    Some (Soup.mkResidue 0 (Js.Str "A") (Js.Int 11) (Js.Str " ") "E") /\
  Soup.residues (soup q) !! 3 =
    Some (Soup.mkResidue 0 (Js.Str "A") (Js.Int 16) (Js.Str " ") Soup.coil).
Proof.
  destruct (sheet_record_paints_walks MoreSamples.sheetLine
              Samples.helixLoaded eq_refl) as (Hflag & _ & Hres).
  split; [exact Hflag|]. split.
  - refine (proj1 (proj1 (Hres 2
              (Soup.mkResidue 0 (Js.Str "A") (Js.Int 11) (Js.Str " ") Soup.coil)
              _) _)).
    + vm_compute. reflexivity.
    + exists 0. split.
      * eexists. split; vm_compute; reflexivity.
      * split; [lia|]. intros k Hk0 Hk1.
        assert (Hk : k = 0 \/ k = 1 \/ k = 2) by lia.
        destruct Hk as [-> | [-> | ->]]; eexists; split; vm_compute;
          reflexivity.
  - refine (proj2 (Hres 3
              (Soup.mkResidue 0 (Js.Str "A") (Js.Int 16) (Js.Str " ") Soup.coil)
              _) _).
    + vm_compute. reflexivity.
    + intros (i & _ & Hle & Hall).
      destruct (Hall 3 Hle (Nat.le_refl 3)) as (x & Hx & Hc).
      vm_compute in Hx. injection Hx as <-.
      vm_compute in Hc. discriminate Hc.
Defined.

Lemma ssOnly_refl r : ssOnly r r.
Proof. repeat split. left. reflexivity. Qed.

Lemma ssOnly_setSs code r0 r :
  code = "H" \/ code = "E" -> ssOnly r0 r -> ssOnly r0 (Soup.setSs code r).
Proof.
  intros Hcode (h1 & h2 & h3 & h4 & _).
  repeat split; try assumption. right. exact Hcode.
Qed.

Lemma walk_ssOnly code chain e rs0 fuel : forall i s,
  code = "H" \/ code = "E" ->
  Forall2 ssOnly rs0 (Soup.residues s) ->
  Forall2 ssOnly rs0 (Soup.residues (walk fuel code chain e i s)).
Proof.
  induction fuel as [|fuel IH]; intros i s Hcode Hs; [exact Hs|].
  cbn [walk]. destruct (Soup.residues s !! i) as [r|]; [|exact Hs].
  destruct (_ && _); [|exact Hs].
  apply IH; [exact Hcode|]. cbn [Soup.writeSs Soup.residues].
  apply Forall2_alter_r; [exact Hs|].
  intros x y _ _ Hxy. apply ssOnly_setSs; assumption.
Qed.

Lemma paintRange_ssOnly code chain st e rs0 s :
  code = "H" \/ code = "E" ->
  Forall2 ssOnly rs0 (Soup.residues s) ->
  Forall2 ssOnly rs0 (Soup.residues (paintRange code chain st e s)).
Proof.
  intros Hcode. unfold paintRange.
  generalize (Soup.findResidueIndices (Soup.iStructure s) chain st s).
  intros idxs. revert s.
  induction idxs as [|i idxs IH]; intros s Hs; [exact Hs|].
  cbn [fold_left]. apply IH. apply walk_ssOnly; assumption.
Qed.

(** The residues of a parser stay as [rs0] up to codes [H] and [E]. *)
Lemma pdb_ss_line_ssOnly rs0 line p :
  Forall2 ssOnly rs0 (Soup.residues (soup p)) ->
  Forall2 ssOnly rs0
    (Soup.residues (soup (PdbParser.parseSecondaryStructureLine line p))).
Proof.
  intros Hp. unfold PdbParser.parseSecondaryStructureLine.
  destruct (String.eqb _ "HELIX").
  - apply paintRange_ssOnly; [left; reflexivity|exact Hp].
  - destruct (String.eqb _ "SHEET"); [|exact Hp].
    apply paintRange_ssOnly; [right; reflexivity|exact Hp].
Qed.

Lemma pdb_ss_fold_ssOnly rs0 lines : forall p,
  Forall2 ssOnly rs0 (Soup.residues (soup p)) ->
  Forall2 ssOnly rs0
    (Soup.residues
       (soup (fold_left
                (fun q line => PdbParser.parseSecondaryStructureLine line q)
                lines p))).
Proof.
  induction lines as [|l lines IH]; intros p Hp; [exact Hp|].
  cbn [fold_left]. apply IH, pdb_ss_line_ssOnly, Hp.
Qed.

Lemma cif_helix_ssOnly rs0 lines : forall b p,
  Forall2 ssOnly rs0 (Soup.residues (soup p)) ->
  Forall2 ssOnly rs0 (Soup.residues (soup (CifParser.helixLoop b lines p))).
Proof.
  induction lines as [|l lines IH]; intros b p Hp; [exact Hp|].
  cbn [CifParser.helixLoop]. cbv zeta.
  destruct (negb (if negb b then _ else b)); [apply IH; exact Hp|].
  destruct (Js.startsWith "#" l); [exact Hp|].
  destruct (negb (Js.startsWith "_struct_conf" l)); [|apply IH; exact Hp].
  apply IH.
  cbn [withSoup setHasSecondaryStructure soup].
  apply paintRange_ssOnly; [left; reflexivity|exact Hp].
Qed.

Lemma cif_sheet_ssOnly rs0 lines : forall b p,
  Forall2 ssOnly rs0 (Soup.residues (soup p)) ->
  Forall2 ssOnly rs0 (Soup.residues (soup (CifParser.sheetLoop b lines p))).
Proof.
  induction lines as [|l lines IH]; intros b p Hp; [exact Hp|].
  cbn [CifParser.sheetLoop]. cbv zeta.
  destruct (negb (if negb b then _ else b)); [apply IH; exact Hp|].
  destruct (Js.startsWith "#" l); [exact Hp|].
  destruct (negb (String.eqb _ "_struct")); [|apply IH; exact Hp].
  apply IH.
  cbn [withSoup setHasSecondaryStructure soup].
  apply paintRange_ssOnly; [right; reflexivity|exact Hp].
Qed.

Lemma Forall2_ssOnly_refl rs : Forall2 ssOnly rs rs.
Proof. induction rs; constructor; [apply ssOnly_refl|assumption]. Qed.

(** X8.  A secondary-structure pass of either parser touches nothing but
    secondary-structure codes: the structures, the atoms and the two
    error fields are as before, there are as many residues as before,
    each with its structure, chain, number and insertion code, and a
    code that changed is [H] or [E]. *)
Theorem secondary_structure_pass_keeps_residues
    (lines : list string) (p : Parser) :
  (sameOutside p (PdbParser.parseSecondaryStructureLines lines p) /\
   Forall2 ssOnly (Soup.residues (soup p))
     (Soup.residues (soup (PdbParser.parseSecondaryStructureLines lines p))))
  /\
  (sameOutside p (CifParser.parseSecondaryStructureLines lines p) /\
   Forall2 ssOnly (Soup.residues (soup p))
     (Soup.residues (soup (CifParser.parseSecondaryStructureLines lines p)))).
Proof.
  split; split.
  - apply pdb_ss_frame.
  - unfold PdbParser.parseSecondaryStructureLines.
    apply pdb_ss_fold_ssOnly. apply Forall2_ssOnly_refl.
  - apply cif_ss_frame.
  - unfold CifParser.parseSecondaryStructureLines, CifParser.parseSheetLines,
      CifParser.parseHelixLines.
    apply cif_sheet_ssOnly, cif_helix_ssOnly. apply Forall2_ssOnly_refl.
Qed.

Lemma pdb_ss_line_flag line p :
  hasSecondaryStructure (PdbParser.parseSecondaryStructureLine line p) =
  hasSecondaryStructure p || isSsRecord line.
Proof.
  unfold PdbParser.parseSecondaryStructureLine, isSsRecord.
  destruct (String.eqb _ "HELIX");
    [cbn; rewrite orb_true_r; reflexivity|].
  destruct (String.eqb _ "SHEET"); cbn;
    [rewrite orb_true_r|rewrite orb_false_r]; reflexivity.
Qed.

Lemma pdb_ss_flag lines p :
  hasSecondaryStructure (PdbParser.parseSecondaryStructureLines lines p) =
  hasSecondaryStructure p || existsb isSsRecord lines.
Proof.
  unfold PdbParser.parseSecondaryStructureLines.
  change (hasSecondaryStructure p) with
    (hasSecondaryStructure
       (withSoup (fun s => Soup.assignResidueProperties (Soup.iStructure s) s)
          p)).
  generalize (withSoup
    (fun s => Soup.assignResidueProperties (Soup.iStructure s) s) p).
  induction lines as [|l lines IH]; intros p0.
  - cbn. rewrite orb_false_r. reflexivity.
  - cbn [fold_left existsb]. rewrite IH, pdb_ss_line_flag, orb_assoc.
    reflexivity.
Qed.

Lemma loadModels_flag pdbId title lines nModel models : forall iModel p,
  hasSecondaryStructure
    (PdbParser.loadModels pdbId title lines nModel iModel models p) =
  hasSecondaryStructure p ||
  (existsb isSsRecord lines && (0 <? length models)).
Proof.
  induction models as [|m models IH]; intros iModel p.
  - cbn. rewrite andb_false_r, orb_false_r. reflexivity.
  - cbn [PdbParser.loadModels]. cbv zeta. rewrite IH, pdb_ss_flag.
    match goal with
    | |- context [PdbParser.parseAtomLines m ?q] =>
        destruct (pdb_parseAtomLinesFrom_spec m 0 q) as (_ & _ & _ & _ & g);
        unfold PdbParser.parseAtomLines; rewrite g
    end.
    cbn [withSoup hasSecondaryStructure length].
    change (0 <? S (length models)) with true. rewrite andb_true_r.
    destruct (hasSecondaryStructure p); [reflexivity|].
    destruct (existsb isSsRecord lines); reflexivity.
Qed.

(** X9.  The flag of the PDB parser is set by the mere presence of a
    [HELIX] or [SHEET] line, whatever the residues are, and is never
    reset: after [parseSecondaryStructureLines] it is the flag before or
    the presence of such a line; after [parsePdbData], which makes one
    pass per model pushed, it is the flag before, or the presence of
    such a line when at least one model was pushed. *)
Theorem pdb_flag_set_by_any_record :
  (forall lines p,
     hasSecondaryStructure (PdbParser.parseSecondaryStructureLines lines p) =
     hasSecondaryStructure p || existsb isSsRecord lines) /\
  (forall pdbText pdbId p,
     exists n,
       length (Soup.structures
                 (soup (PdbParser.parsePdbData pdbText pdbId p))) =
         length (Soup.structures (soup p)) + n /\
       hasSecondaryStructure (PdbParser.parsePdbData pdbText pdbId p) =
         hasSecondaryStructure p ||
         (existsb isSsRecord (Js.splitLines pdbText) && (0 <? n))).
Proof.
  split; [exact pdb_ss_flag|].
  intros pdbText pdbId p. unfold PdbParser.parsePdbData.
  rewrite splitLines_length. cbv zeta.
  destruct (PdbParser.bucketLines _ _ _ _) as [models iModel].
  exists (length (PdbParser.dropEmptyModel models iModel)).
  rewrite loadModels_structures, loadModels_flag.
  rewrite length_app, length_map, length_seq. split; reflexivity.
Qed.

(* ===================================================================== *)
(** ** Records that paint nothing *)
(* ===================================================================== *)

Lemma walk_stops code chain e fuel i s :
  (forall r, Soup.residues s !! i = Some r -> inWalk chain e r = false) ->
  walk fuel code chain e i s = s.
Proof.
  intros H. destruct fuel as [|fuel]; [reflexivity|].
  cbn [walk]. destruct (Soup.residues s !! i) as [r|] eqn:E; [|reflexivity].
  specialize (H r eq_refl). unfold inWalk in H. rewrite H. reflexivity.
Qed.

Lemma walks_stop code chain e idxs s :
  (forall i r, i ∈ idxs -> Soup.residues s !! i = Some r ->
     inWalk chain e r = false) ->
  fold_left
    (fun s' iRes => walk (length (Soup.residues s')) code chain e iRes s')
    idxs s = s.
Proof.
  induction idxs as [|i idxs IH]; intros H; [reflexivity|].
  cbn [fold_left]. rewrite walk_stops.
  - apply IH. intros j r Hj. apply H. apply elem_of_cons. right. exact Hj.
  - intros r. apply H. apply elem_of_cons. left. reflexivity.
Qed.

Lemma find_members i chain st s j :
  j ∈ Soup.findResidueIndices i chain st s ->
  exists r, Soup.residues s !! j = Some r /\
    Soup.matches i chain st r = true.
Proof.
  unfold Soup.findResidueIndices. rewrite findFrom_spec, Nat.sub_0_r.
  intros (_ & H). exact H.
Qed.

Lemma numEq_Int n z : Js.numEq n (Js.Int z) = true -> n = Js.Int z.
Proof.
  destruct n as [| |x]; cbn; try discriminate.
  intros H. apply Z.eqb_eq in H. subst. reflexivity.
Qed.

(** X10.  A range that paints nothing leaves the store exactly as it
    was: when the start number is not a number, when the end number is
    not a number, when the end lies below the start, and when no
    residue of the current structure has the chain and start number.
    Nothing is reported in any of these cases. *)
Theorem range_without_effect (code : string) (chain : Js.value) (s : Soup.t) :
  (forall e, paintRange code chain Js.NaN e s = s) /\
  (forall st, paintRange code chain st Js.NaN s = s) /\
  (forall a b, (b < a)%Z ->
     paintRange code chain (Js.Int a) (Js.Int b) s = s) /\
  (forall st e,
     Forall (fun r => Soup.matches (Soup.iStructure s) chain st r = false)
       (Soup.residues s) ->
     paintRange code chain st e s = s).
Proof.
  split; [|split; [|split]].
  - intros e. unfold paintRange. apply walks_stop.
    intros i r Hi _. apply find_members in Hi.
    destruct Hi as (x & _ & Hm). unfold Soup.matches in Hm.
    apply andb_true_iff in Hm. destruct Hm as (_ & Hm).
    destruct (Soup.res_resNum x); discriminate Hm.
  - intros st. unfold paintRange. apply walks_stop.
    intros i r _ _. unfold inWalk, Js.le.
    destruct (Js.toNumber (Soup.res_resNum r)); reflexivity.
  - intros a b Hlt. unfold paintRange. apply walks_stop.
    intros i r Hi Hr. apply find_members in Hi.
    destruct Hi as (x & Hx & Hm). rewrite Hr in Hx. injection Hx as <-.
    unfold Soup.matches in Hm.
    apply andb_true_iff in Hm. destruct Hm as (_ & Hm).
    apply numEq_Int in Hm. unfold inWalk. rewrite Hm. cbn [Js.le Js.toNumber].
    replace (a <=? b)%Z with false by (symmetry; apply Z.leb_gt; exact Hlt).
    reflexivity.
  - intros st e Hall. unfold paintRange. apply walks_stop.
    intros i r Hi Hr. apply find_members in Hi.
    destruct Hi as (x & Hx & Hm). rewrite Hr in Hx. injection Hx as <-.
    rewrite Forall_forall in Hall.
    assert (Hin : r ∈ Soup.residues s)
      by (apply list_elem_of_lookup; exists i; exact Hr).
    rewrite (Hall r Hin) in Hm. discriminate Hm.
Qed.

Lemma range_without_effect_witness :
  soup (PdbParser.parseSecondaryStructureLine MoreSamples.backwardHelix
          Samples.helixLoaded) = soup Samples.helixLoaded /\
  paintRange "H" (Js.Str "B") (Js.Int 10) (Js.Int 15)
    (soup Samples.helixLoaded) = soup Samples.helixLoaded.
Proof.
  split.
  - refine (proj1 (proj2 (proj2 (range_without_effect "H" (Js.Str "A")
              (soup Samples.helixLoaded)))) 11%Z 10%Z _).
    reflexivity.
  - refine (proj2 (proj2 (proj2 (range_without_effect "H" (Js.Str "B")
              (soup Samples.helixLoaded)))) (Js.Int 10) (Js.Int 15) _).
    vm_compute. repeat constructor.
Defined.

(* ===================================================================== *)
(** ** [CifParser]: only the first loop of each kind is read *)
(* ===================================================================== *)

Lemma untilHash_idem lines : untilHash (untilHash lines) = untilHash lines.
Proof.
  induction lines as [|l lines IH]; [reflexivity|].
  cbn [untilHash]. destruct (Js.startsWith "#" l) eqn:E; [reflexivity|].
  cbn [untilHash]. rewrite E, IH. reflexivity.
Qed.

Lemma fromOpener_firstLoop opener lines :
  fromOpener opener (firstLoop opener lines) = firstLoop opener lines.
Proof.
  unfold firstLoop. induction lines as [|l lines IH]; [reflexivity|].
  cbn [fromOpener]. destruct (Js.startsWith opener l) eqn:E; [|exact IH].
  cbn [untilHash]. destruct (Js.startsWith "#" l); [reflexivity|].
  cbn [fromOpener]. rewrite E. reflexivity.
Qed.

Lemma helixLoop_open lines : forall p,
  CifParser.helixLoop true lines p =
  CifParser.helixLoop true (untilHash lines) p.
Proof.
  induction lines as [|l lines IH]; intros p; [reflexivity|].
  cbn [CifParser.helixLoop untilHash]. cbv zeta. cbn [negb].
  destruct (Js.startsWith "#" l) eqn:E; [reflexivity|].
  cbn [CifParser.helixLoop]. cbv zeta. cbn [negb]. rewrite E.
  destruct (negb (Js.startsWith "_struct_conf" l)); apply IH.
Qed.

Lemma helixLoop_closed lines : forall p,
  CifParser.helixLoop false lines p =
  CifParser.helixLoop true (fromOpener helixOpener lines) p.
Proof.
  unfold helixOpener.
  induction lines as [|l lines IH]; intros p; [reflexivity|].
  cbn [fromOpener]. cbn [CifParser.helixLoop]. cbv zeta. cbn [negb].
  destruct (Js.startsWith "_struct_conf.pdbx_PDB_helix_id" l) eqn:E.
  - cbn [negb CifParser.helixLoop]. reflexivity.
  - cbn [negb]. apply IH.
Qed.

Lemma sheetLoop_open lines : forall p,
  CifParser.sheetLoop true lines p =
  CifParser.sheetLoop true (untilHash lines) p.
Proof.
  induction lines as [|l lines IH]; intros p; [reflexivity|].
  cbn [CifParser.sheetLoop untilHash]. cbv zeta. cbn [negb].
  destruct (Js.startsWith "#" l) eqn:E; [reflexivity|].
  cbn [CifParser.sheetLoop]. cbv zeta. cbn [negb]. rewrite E.
  destruct (negb (String.eqb (Js.substr 0 6 l) "_struct")); apply IH.
Qed.

Lemma sheetLoop_closed lines : forall p,
  CifParser.sheetLoop false lines p =
  CifParser.sheetLoop true (fromOpener sheetOpener lines) p.
Proof.
  unfold sheetOpener.
  induction lines as [|l lines IH]; intros p; [reflexivity|].
  cbn [fromOpener]. cbn [CifParser.sheetLoop]. cbv zeta. cbn [negb].
  destruct (Js.startsWith "_struct_sheet_range.sheet_id" l) eqn:E.
  - cbn [negb CifParser.sheetLoop]. reflexivity.
  - cbn [negb]. apply IH.
Qed.

Lemma parseHelixLines_first_loop lines p :
  CifParser.parseHelixLines lines p =
  CifParser.parseHelixLines (firstLoop helixOpener lines) p.
Proof.
  unfold CifParser.parseHelixLines.
  rewrite (helixLoop_closed (firstLoop helixOpener lines)).
  rewrite fromOpener_firstLoop. unfold firstLoop.
  rewrite <- helixLoop_open. apply helixLoop_closed.
Qed.

Lemma parseSheetLines_first_loop lines p :
  CifParser.parseSheetLines lines p =
  CifParser.parseSheetLines (firstLoop sheetOpener lines) p.
Proof.
  unfold CifParser.parseSheetLines.
  rewrite (sheetLoop_closed (firstLoop sheetOpener lines)).
  rewrite fromOpener_firstLoop. unfold firstLoop.
  rewrite <- sheetLoop_open. apply sheetLoop_closed.
Qed.

Lemma firstLoop_without_opener opener lines :
  Forall (fun l => Js.startsWith opener l = false) lines ->
  firstLoop opener lines = [].
Proof.
  intros H. unfold firstLoop.
  induction H as [|l ls Hl _ IH]; [reflexivity|].
  cbn [fromOpener]. rewrite Hl. exact IH.
Qed.

(** X11.  [parseHelixLines] and [parseSheetLines] read nothing outside
    the first loop of their kind: each gives on the whole text what it
    gives on the lines of that loop alone.  In a text without the two
    opening lines the secondary-structure pass leaves the store as it
    was and the flag false. *)
Theorem cif_only_first_loops_are_read (lines : list string) (p : Parser) :
  CifParser.parseHelixLines lines p =
    CifParser.parseHelixLines (firstLoop helixOpener lines) p /\
  CifParser.parseSheetLines lines p =
    CifParser.parseSheetLines (firstLoop sheetOpener lines) p /\
  (Forall (fun l => Js.startsWith helixOpener l = false) lines ->
   Forall (fun l => Js.startsWith sheetOpener l = false) lines ->
   soup (CifParser.parseSecondaryStructureLines lines p) = soup p /\
   hasSecondaryStructure (CifParser.parseSecondaryStructureLines lines p) =
     false).
Proof.
  split; [apply parseHelixLines_first_loop|].
  split; [apply parseSheetLines_first_loop|].
  intros Hh Hs.
  unfold CifParser.parseSecondaryStructureLines.
  rewrite parseSheetLines_first_loop, parseHelixLines_first_loop.
  rewrite (firstLoop_without_opener _ _ Hh),
    (firstLoop_without_opener _ _ Hs).
  split; reflexivity.
Qed.

Lemma cif_only_first_loops_witness :
  soup (CifParser.parseSecondaryStructureLines
          [Samples.ligand1; Samples.ligand2] Samples.helixLoaded) =
    soup Samples.helixLoaded /\
  hasSecondaryStructure
    (CifParser.parseSecondaryStructureLines
       [Samples.ligand1; Samples.ligand2] Samples.helixLoaded) = false.
Proof.
  refine (proj2 (proj2 (cif_only_first_loops_are_read
            [Samples.ligand1; Samples.ligand2] Samples.helixLoaded)) _ _);
    repeat constructor.
Defined.

(* ===================================================================== *)
(** ** [PdbParser.parsePdbData]: the models of any text *)
(* ===================================================================== *)

Lemma atom_not_terminator l :
  PdbParser.isAtomLine l = true -> isTerminator l = false.
Proof.
  intros Ha. destruct (isTerminator l) eqn:Et; [|reflexivity].
  rewrite (terminator_not_atom l Et) in Ha. discriminate Ha.
Qed.

Lemma filter_snoc_atom c l :
  PdbParser.isAtomLine l = true ->
  List.filter PdbParser.isAtomLine (c ++ [l]) =
  List.filter PdbParser.isAtomLine c ++ [l].
Proof. intros H. rewrite List.filter_app. cbn [List.filter]. rewrite H. reflexivity. Qed.

Lemma filter_snoc_other c l :
  PdbParser.isAtomLine l = false ->
  List.filter PdbParser.isAtomLine (c ++ [l]) =
  List.filter PdbParser.isAtomLine c.
Proof.
  intros H. rewrite List.filter_app. cbn [List.filter]. rewrite H.
  apply app_nil_r.
Qed.

(** Without NMR header: one bucket more per terminator line, the last
    bucket holds the atom lines behind the last terminator, and the
    buckets hold the atom lines of the text in file order. *)
Lemma bucketLines_plain_spec lines : forall done c,
  exists done',
    PdbParser.bucketLines false lines
      (done ++ [List.filter PdbParser.isAtomLine c]) (length done) =
    (done' ++ [List.filter PdbParser.isAtomLine (lastSegment c lines)],
     length done') /\
    length done' = length done + length (List.filter isTerminator lines) /\
    concat (done' ++
            [List.filter PdbParser.isAtomLine (lastSegment c lines)]) =
    concat (done ++ [List.filter PdbParser.isAtomLine c]) ++
    List.filter PdbParser.isAtomLine lines.
Proof.
  induction lines as [|l lines IH]; intros done c.
  - exists done. cbn [lastSegment List.filter length].
    rewrite app_nil_r, Nat.add_0_r. repeat split.
  - cbn [PdbParser.bucketLines lastSegment].
    destruct (PdbParser.isAtomLine l) eqn:Ea.
    + rewrite (atom_not_terminator l Ea).
      rewrite alter_app_r_alt by lia. rewrite Nat.sub_diag.
      cbn [alter list_alter]. rewrite <- (filter_snoc_atom c l Ea).
      destruct (IH done (c ++ [l])) as (done' & Heq & Hlen & Hcat).
      exists done'. rewrite Heq. split; [reflexivity|]. split.
      * rewrite Hlen. cbn [List.filter].
        rewrite (atom_not_terminator l Ea). reflexivity.
      * rewrite Hcat. cbn [List.filter]. rewrite Ea.
        rewrite (filter_snoc_atom c l Ea).
        rewrite !concat_app. cbn [concat]. rewrite !app_nil_r.
        rewrite <- !app_assoc. reflexivity.
    + change (String.eqb (Js.substr 0 3 l) "END") with (isTerminator l).
      destruct (isTerminator l) eqn:Et.
      * destruct (IH (done ++ [List.filter PdbParser.isAtomLine c]) [])
          as (done' & Heq & Hlen & Hcat).
        exists done'.
        replace (length done + 1)
          with (length (done ++ [List.filter PdbParser.isAtomLine c]))
          by (rewrite length_app; reflexivity).
        change (@nil string) with (List.filter PdbParser.isAtomLine []) at 1.
        rewrite Heq. split; [reflexivity|]. split.
        -- rewrite Hlen, length_app. cbn [List.filter length].
           rewrite Et. cbn [length]. lia.
        -- rewrite Hcat. cbn [List.filter]. rewrite Ea.
           rewrite !concat_app. cbn [concat]. rewrite !app_nil_r.
           reflexivity.
      * rewrite <- (filter_snoc_other c l Ea).
        destruct (IH done (c ++ [l])) as (done' & Heq & Hlen & Hcat).
        exists done'. rewrite Heq. split; [reflexivity|]. split.
        -- rewrite Hlen. cbn [List.filter]. rewrite Et. reflexivity.
        -- rewrite Hcat. cbn [List.filter]. rewrite Ea. reflexivity.
Qed.

Lemma filter_empty_iff {A} (f : A -> bool) l :
  existsb f l = false -> List.filter f l = [].
Proof.
  induction l as [|x l IH]; [reflexivity|].
  cbn [existsb List.filter]. intros H. apply orb_false_iff in H.
  destruct H as (Hx & Hl). rewrite Hx. apply IH, Hl.
Qed.

(** The models that are loaded from a text without NMR header. *)
Lemma pdb_models_plain lines :
  exists models,
    (let '(ms, i) := PdbParser.bucketLines false lines [[]] 0 in
     PdbParser.dropEmptyModel ms i) = models /\
    length models = modelCount lines /\
    concat models = List.filter PdbParser.isAtomLine lines.
Proof.
  destruct (bucketLines_plain_spec lines [] []) as (done' & Heq & Hlen & Hcat).
  cbn [List.filter app length] in Heq, Hlen, Hcat.
  rewrite Heq. unfold modelCount.
  destruct (existsb PdbParser.isAtomLine (lastSegment [] lines)) eqn:E.
  - exists (done' ++ [List.filter PdbParser.isAtomLine (lastSegment [] lines)]).
    split; [apply dropEmptyModel_full, filter_nonempty, E|].
    split; [rewrite length_app, Hlen; reflexivity|exact Hcat].
  - rewrite (filter_empty_iff _ _ E) in *. exists done'.
    split; [apply dropEmptyModel_empty|].
    split; [rewrite Hlen; lia|].
    rewrite concat_app in Hcat. cbn [concat] in Hcat.
    rewrite !app_nil_r in Hcat. exact Hcat.
Qed.

(** X12.  For a text whose lines do not declare an NMR ensemble,
    [parsePdbData] pushes one structure per terminator line (a line that
    starts with [END]), and one more when an atom line follows the last
    terminator (or when there is no terminator and an atom line); with
    more than one structure the identifiers are the caller's identifier
    followed by [[1]], [[2]], ... in file order, with exactly one it is
    the caller's identifier as it is. *)
Theorem pdb_model_count_and_ids (pdbText pdbId : string) (p : Parser) :
  PdbParser.isNmr (Js.splitLines pdbText) = false ->
  let lines := Js.splitLines pdbText in
  let n := modelCount lines in
  Soup.structures (soup (PdbParser.parsePdbData pdbText pdbId p)) =
  Soup.structures (soup p) ++
  map (fun k => (PdbParser.structureId pdbId n k, PdbParser.parseTitle lines))
      (seq 0 n).
Proof.
  intros Hnmr. cbv zeta. unfold PdbParser.parsePdbData.
  rewrite splitLines_length, Hnmr. cbv zeta.
  destruct (pdb_models_plain (Js.splitLines pdbText))
    as (models & Hm & Hlen & _).
  destruct (PdbParser.bucketLines false _ _ _) as [ms i].
  rewrite Hm, loadModels_structures, Hlen. reflexivity.
Qed.

Lemma pdb_model_count_witness :
  Soup.structures
    (soup (PdbParser.parsePdbData MoreSamples.twoModelsText "1abc"
             (constructor Soup.empty))) =
  [("1abc[1]", "TWO MODELS"); ("1abc[2]", "TWO MODELS");
   ("1abc[3]", "TWO MODELS")].
Proof.
  rewrite (pdb_model_count_and_ids MoreSamples.twoModelsText "1abc"
             (constructor Soup.empty));
    vm_compute; reflexivity.
Defined.

(** X13.  For a text whose lines do not declare an NMR ensemble, no atom
    line is lost and none is read twice: over all the models,
    [parsePdbData] hands the atom lines of the text to [addAtom] once
    each, in file order, wherever the terminator lines are. *)
Theorem pdb_no_atom_line_is_lost (pdbText pdbId : string) (p : Parser) :
  PdbParser.isNmr (Js.splitLines pdbText) = false ->
  let lines := Js.splitLines pdbText in
  Soup.atoms (soup (PdbParser.parsePdbData pdbText pdbId p)) =
    Soup.atoms (soup p) ++
    omap pdbHandedAtom (List.filter PdbParser.isAtomLine lines) /\
  length (Soup.atoms (soup (PdbParser.parsePdbData pdbText pdbId p))) =
    length (Soup.atoms (soup p)) +
    length (List.filter PdbParser.isAtomLine lines).
Proof.
  intros Hnmr. cbv zeta.
  assert (H : Soup.atoms (soup (PdbParser.parsePdbData pdbText pdbId p)) =
    Soup.atoms (soup p) ++
    omap pdbHandedAtom
      (List.filter PdbParser.isAtomLine (Js.splitLines pdbText))).
  { unfold PdbParser.parsePdbData.
    rewrite splitLines_length, Hnmr. cbv zeta.
    destruct (pdb_models_plain (Js.splitLines pdbText))
      as (models & Hm & _ & Hcat).
    destruct (PdbParser.bucketLines false _ _ _) as [ms i].
    rewrite Hm, loadModels_atoms, Hcat, filter_idem. reflexivity. }
  split; [exact H|].
  rewrite H, length_app. f_equal.
  apply length_omap_total, pdbHandedAtom_total.
Qed.

Lemma pdb_no_atom_line_is_lost_witness :
  length (Soup.atoms
            (soup (PdbParser.parsePdbData MoreSamples.twoModelsText "1abc"
                     (constructor Soup.empty)))) = 3.
Proof.
  rewrite (proj2 (pdb_no_atom_line_is_lost MoreSamples.twoModelsText "1abc"
                    (constructor Soup.empty) ltac:(vm_compute; reflexivity))).
  vm_compute. reflexivity.
Defined.

(** With NMR header: one bucket, filled with the atom lines before the
    first terminator. *)
Lemma bucketLines_nmr_spec lines : forall done cur,
  PdbParser.bucketLines true lines (done ++ [cur]) (length done) =
  (done ++ [cur ++ List.filter PdbParser.isAtomLine (beforeTerminator lines)],
   length done).
Proof.
  induction lines as [|l lines IH]; intros done cur.
  - cbn. rewrite app_nil_r. reflexivity.
  - cbn [PdbParser.bucketLines beforeTerminator].
    destruct (PdbParser.isAtomLine l) eqn:Ea.
    + rewrite (atom_not_terminator l Ea).
      rewrite alter_app_r_alt by lia. rewrite Nat.sub_diag.
      cbn [alter list_alter]. rewrite IH. cbn [List.filter]. rewrite Ea.
      rewrite <- app_assoc. reflexivity.
    + change (String.eqb (Js.substr 0 3 l) "END") with (isTerminator l).
      destruct (isTerminator l) eqn:Et.
      * cbn [List.filter]. rewrite app_nil_r. reflexivity.
      * rewrite IH. cbn [List.filter]. rewrite Ea. reflexivity.
Qed.

(** X14.  For a text that declares an NMR ensemble (some line starts
    with [EXPDTA] and holds [NMR], anywhere in the text), [parsePdbData]
    reads the atom lines before the first terminator line only: it
    pushes one structure, under the caller's identifier as it is, when
    there is such an atom line, and none otherwise. *)
Theorem nmr_text_loads_at_most_one_model (pdbText pdbId : string) (p : Parser) :
  PdbParser.isNmr (Js.splitLines pdbText) = true ->
  let lines := Js.splitLines pdbText in
  let q := PdbParser.parsePdbData pdbText pdbId p in
  Soup.structures (soup q) =
    Soup.structures (soup p) ++
    (if existsb PdbParser.isAtomLine (beforeTerminator lines)
     then [(pdbId, PdbParser.parseTitle lines)] else []) /\
  Soup.atoms (soup q) =
    Soup.atoms (soup p) ++
    omap pdbHandedAtom
      (List.filter PdbParser.isAtomLine (beforeTerminator lines)).
Proof.
  intros Hnmr. cbv zeta. unfold PdbParser.parsePdbData.
  rewrite splitLines_length, Hnmr. cbv zeta.
  pose proof (bucketLines_nmr_spec (Js.splitLines pdbText) [] []) as Hb.
  cbn [app length] in Hb. rewrite Hb.
  destruct (existsb PdbParser.isAtomLine
              (beforeTerminator (Js.splitLines pdbText))) eqn:E.
  - rewrite dropEmptyModel_single by (apply filter_nonempty, E).
    rewrite loadModels_structures, loadModels_atoms.
    cbn [concat]. rewrite app_nil_r, filter_idem. split; reflexivity.
  - rewrite (filter_empty_iff _ _ E).
    pose proof (dropEmptyModel_empty []) as Hd. cbn [app length] in Hd.
    rewrite Hd. cbn [PdbParser.loadModels omap list_omap].
    rewrite !app_nil_r. split; reflexivity.
Qed.

Lemma nmr_text_witness :
  let q := PdbParser.parsePdbData MoreSamples.nmrLinesText "1abc"
             (constructor Soup.empty) in
  Soup.structures (soup q) = [("1abc", "")] /\
  length (Soup.atoms (soup q)) = 2.
Proof.
  cbv zeta.
  destruct (nmr_text_loads_at_most_one_model MoreSamples.nmrLinesText "1abc"
              (constructor Soup.empty) ltac:(vm_compute; reflexivity))
    as (Hs & Ha).
  rewrite Hs, Ha. vm_compute. split; reflexivity.
Defined.

(* ===================================================================== *)
(** ** [CifParser.parseAtomLines]: the lines that are kept *)
(* ===================================================================== *)

(** One turn of the loop: a line that is kept adds one atom, a line that
    is dropped records its line number, any other line does nothing. *)
Lemma cif_parseAtomLine_count i line p st :
  let q := fst (CifParser.parseAtomLine i line (p, st)) in
  length (Soup.atoms (soup q)) =
    length (Soup.atoms (soup p)) + (if cifKept line then 1 else 0) /\
  error q = (if cifDropped line then "line " +:+ Js.decimal i else error p).
Proof.
  unfold CifParser.parseAtomLine, cifKept, cifDropped. cbv zeta.
  destruct (CifParser.isAtomLine line); cbn [andb fst].
  2:{ split; [lia|reflexivity]. }
  destruct (CifParser.atomFields (Js.splitTokens line) st)
    as [[a st']|msg] eqn:E.
  - assert (Hlen : 3 < length (Js.splitTokens line)).
    { destruct (Nat.lt_ge_cases 3 (length (Js.splitTokens line)))
        as [H|H]; [exact H|].
      apply (cif_atomFields_throws _ st) in H. destruct H as [msg Hm].
      rewrite Hm in E. discriminate E. }
    rewrite (proj2 (Nat.ltb_lt _ _) Hlen).
    rewrite (proj2 (Nat.leb_gt _ _) Hlen).
    cbn [fst withSoup soup error Soup.addAtom Soup.atoms].
    rewrite length_app. split; reflexivity.
  - assert (Hlen : length (Js.splitTokens line) <= 3).
    { apply (cif_atomFields_throws _ st). exists msg. exact E. }
    rewrite (proj2 (Nat.leb_le _ _) Hlen).
    rewrite (proj2 (Nat.ltb_ge _ _) Hlen).
    cbn [fst setError soup error]. split; [lia|reflexivity].
Qed.

Lemma cif_parseAtomLinesFrom_count lines : forall i p st,
  let q := fst (CifParser.parseAtomLinesFrom i lines (p, st)) in
  length (Soup.atoms (soup q)) =
    length (Soup.atoms (soup p)) + length (List.filter cifKept lines) /\
  error q =
    match last (droppedAt i lines) with
    | Some k => "line " +:+ Js.decimal k
    | None => error p
    end.
Proof.
  induction lines as [|l lines IH]; intros i p st; cbv zeta.
  - cbn. split; [lia|reflexivity].
  - cbn [CifParser.parseAtomLinesFrom droppedAt List.filter].
    destruct (cif_parseAtomLine_count i l p st) as (Ha & He).
    destruct (CifParser.parseAtomLine i l (p, st)) as [p1 st1].
    cbn [fst] in Ha, He.
    destruct (IH (S i) p1 st1) as (IHa & IHe).
    rewrite IHa, IHe, Ha, He. split.
    + destruct (cifKept l); cbn [length]; lia.
    + destruct (cifDropped l); [|reflexivity].
      rewrite last_cons. destruct (last (droppedAt (S i) lines)); reflexivity.
Qed.

(** X15.  [CifParser.parsePdbData] on any text: an atom line with at
    least four tokens adds exactly one atom, an atom line with fewer adds
    none, and no other line adds any.  The [error] field afterwards names
    the last dropped line only ([line k], counted from 0); it is as
    before when no line was dropped.  Earlier dropped lines leave no
    trace. *)
Theorem cif_atom_lines_kept_or_reported (pdbText pdbId : string) (p : Parser) :
  let lines := Js.splitLines pdbText in
  let q := CifParser.parsePdbData pdbText pdbId p in
  length (Soup.atoms (soup q)) =
    length (Soup.atoms (soup p)) + length (List.filter cifKept lines) /\
  error q =
    match last (droppedAt 0 lines) with
    | Some k => "line " +:+ Js.decimal k
    | None => error p
    end.
Proof.
  cbv zeta. unfold CifParser.parsePdbData. rewrite splitLines_length.
  cbv zeta.
  match goal with
  | |- context [CifParser.parseSecondaryStructureLines ?ls ?q] =>
      destruct (cif_ss_frame ls q) as (_ & h2 & h3 & _); rewrite h2, h3
  end.
  unfold CifParser.parseAtomLines.
  match goal with
  | |- context [CifParser.parseAtomLinesFrom 0 ?ls (?q, ?st)] =>
      destruct (cif_parseAtomLinesFrom_count ls 0 q st) as (g1 & g2);
      rewrite g1, g2
  end.
  split; reflexivity.
Qed.

(** Four atom lines of which the second and the fourth are cut short: two
    atoms, and only the fourth line is named. *)
Example cif_cut_lines_report_the_last :
  let q := CifParser.parsePdbData (joinWith lf MoreSamples.cutLines) "1abc"
             (constructor Soup.empty) in
  length (Soup.atoms (soup q)) = 2 /\ error q = "line 3".
Proof. vm_compute. split; reflexivity. Qed.

(* ===================================================================== *)
(** ** [CifParser.parseTitle]: no title record *)
(* ===================================================================== *)

(** X16.  mmCIF lines of which none but possibly the last starts with
    [_struct.title], the last one carrying no value behind the key if it
    does: [parseTitle] runs off the end of the lines and the title is the
    empty string.  A bare key on the last line does not fail. *)
Theorem cif_title_absent (pre : list string) (final : string) :
  Forall (fun l => Js.startsWith "_struct.title" l = false) pre ->
  isOneLineTitle final = false ->
  CifParser.parseTitle pre = "" /\
  CifParser.parseTitle (pre ++ [final]) = "".
Proof.
  intros Hpre Hfinal. unfold CifParser.parseTitle. split.
  - destruct (parseTitleFrom_skip pre None [] Hpre) as (prev' & _ & Heq);
      [discriminate|].
    rewrite app_nil_r in Heq. rewrite Heq. reflexivity.
  - destruct (parseTitleFrom_skip pre None [final] Hpre)
      as (prev' & Hprev' & Heq); [discriminate|].
    rewrite Heq. cbn [CifParser.parseTitleFrom]. cbv zeta.
    unfold isOneLineTitle in Hfinal. rewrite Hfinal.
    destruct prev' as [l|]; [|reflexivity].
    rewrite (Hprev' l eq_refl). reflexivity.
Qed.

Lemma cif_title_absent_witness :
  CifParser.parseTitle ["data_1ABC"; "#"] = "" /\
  CifParser.parseTitle (["data_1ABC"; "#"] ++ ["_struct.title  "]) = "".
Proof.
  apply (cif_title_absent ["data_1ABC"; "#"] "_struct.title  ").
  - repeat constructor.
  - reflexivity.
Defined.

(* ===================================================================== *)
(** ** [CifParser.parseAtomLines]: files that number no residue *)
(* ===================================================================== *)

(** One turn of the loop on an atom line with the sentinel, when the
    counter holds an integer: the atom gets the counter or the counter
    plus one, and the counter is left at the number the atom got. *)
Lemma cif_sentinel_turn i line p st n :
  CifParser.isAtomLine line = true ->
  Js.index (Js.splitTokens line) 8 = Js.Str "." ->
  CifParser.nextResNum st = Js.Int n ->
  exists a st',
    CifParser.parseAtomLine i line (p, st) =
      (withSoup (Soup.addAtom a) p, st') /\
    (Soup.atom_resNum a = Js.Int n /\ CifParser.nextResNum st' = Js.Int n \/
     Soup.atom_resNum a = Js.Int (n + 1) /\
     CifParser.nextResNum st' = Js.Int (n + 1)).
Proof.
  intros Hatom H8 Hn.
  destruct (index_defined_below _ 8 6 _ H8) as [chain H6]; [lia|].
  destruct (index_defined_below _ 8 7 _ H8) as [entity H7]; [lia|].
  destruct (cif_sentinel_step i line p st chain entity) as (a & Hstep & Hnum).
  { repeat split; assumption. }
  eexists. eexists. split; [exact Hstep|].
  rewrite Hnum. unfold CifParser.resolveResNum. rewrite H8.
  change (Js.isStr (Js.Str ".") ".") with true. cbv iota zeta.
  destruct (negb _ || _); cbn [fst snd CifParser.nextResNum].
  - right. rewrite Hn. split; reflexivity.
  - left. split; exact Hn.
Qed.

(** The first atom line with the sentinel: the counter is still [null],
    no chain has been seen, and the atom gets the number 1. *)
Lemma cif_sentinel_first i line p :
  CifParser.isAtomLine line = true ->
  Js.index (Js.splitTokens line) 8 = Js.Str "." ->
  exists a st',
    CifParser.parseAtomLine i line (p, CifParser.initialNumbering) =
      (withSoup (Soup.addAtom a) p, st') /\
    Soup.atom_resNum a = Js.Int 1 /\
    CifParser.nextResNum st' = Js.Int 1.
Proof.
  intros Hatom H8.
  destruct (index_defined_below _ 8 6 _ H8) as [chain H6]; [lia|].
  destruct (index_defined_below _ 8 7 _ H8) as [entity H7]; [lia|].
  destruct (cif_sentinel_step i line p CifParser.initialNumbering
              chain entity) as (a & Hstep & Hnum).
  { repeat split; assumption. }
  eexists. eexists. split; [exact Hstep|].
  rewrite Hnum. unfold CifParser.resolveResNum. rewrite H8.
  split; reflexivity.
Qed.

Lemma cif_sentinel_lines_step lines : forall i p st n,
  Forall labelIsSentinel lines ->
  CifParser.nextResNum st = Js.Int n ->
  exists added,
    Soup.atoms (soup (fst (CifParser.parseAtomLinesFrom i lines (p, st)))) =
      Soup.atoms (soup p) ++ added /\
    length added = length (List.filter CifParser.isAtomLine lines) /\
    stepsFrom n (map Soup.atom_resNum added).
Proof.
  induction lines as [|l lines IH]; intros i p st n Hall Hn.
  - exists []. cbn. rewrite app_nil_r. repeat split.
  - inversion Hall as [|? ? Hl Hall']; subst.
    cbn [CifParser.parseAtomLinesFrom List.filter].
    destruct (CifParser.isAtomLine l) eqn:Ea.
    + destruct (cif_sentinel_turn i l p st n Ea (Hl Ea) Hn)
        as (a & st' & Hstep & Hcases).
      rewrite Hstep.
      destruct Hcases as [(Ha & Hn') | (Ha & Hn')];
        destruct (IH (S i) (withSoup (Soup.addAtom a) p) st' _ Hall' Hn')
          as (added & Hatoms & Hlen & Hsteps);
        exists (a :: added); rewrite Hatoms;
        cbn [withSoup soup Soup.addAtom Soup.atoms length map stepsFrom];
        rewrite <- app_assoc; (split; [reflexivity|]);
        (split; [rewrite Hlen; reflexivity|]).
      * left. split; assumption.
      * right. split; assumption.
    + replace (CifParser.parseAtomLine i l (p, st)) with (p, st)
        by (unfold CifParser.parseAtomLine; rewrite Ea; reflexivity).
      apply IH; assumption.
Qed.

(** X17.  mmCIF lines whose atom lines all carry the sentinel [.] as
    residue label: every atom line adds an atom, the first atom gets the
    residue number 1 (the counter starts as [null], and [null + 1] is 1),
    and each later atom gets the number of the atom before it or that
    number plus one.  The numbers of such a file are 1, 2, 3, ... without
    gaps, whatever the file says. *)
Theorem cif_sentinel_numbers_count_from_one (lines : list string) (p : Parser) :
  Forall labelIsSentinel lines ->
  exists added,
    Soup.atoms (soup (CifParser.parseAtomLines lines p)) =
      Soup.atoms (soup p) ++ added /\
    length added = length (List.filter CifParser.isAtomLine lines) /\
    countsFromOne (map Soup.atom_resNum added).
Proof.
  unfold CifParser.parseAtomLines. generalize 0 as i.
  induction lines as [|l lines IH]; intros i Hall.
  - exists []. cbn. rewrite app_nil_r. repeat split.
  - inversion Hall as [|? ? Hl Hall']; subst.
    cbn [CifParser.parseAtomLinesFrom List.filter].
    destruct (CifParser.isAtomLine l) eqn:Ea.
    + destruct (cif_sentinel_first i l p Ea (Hl Ea))
        as (a & st' & Hstep & Ha & Hn').
      rewrite Hstep.
      destruct (cif_sentinel_lines_step lines (S i)
                  (withSoup (Soup.addAtom a) p) st' 1 Hall' Hn')
        as (added & Hatoms & Hlen & Hsteps).
      exists (a :: added). rewrite Hatoms.
      cbn [withSoup soup Soup.addAtom Soup.atoms length map countsFromOne].
      rewrite <- app_assoc. split; [reflexivity|].
      split; [rewrite Hlen; reflexivity|]. split; assumption.
    + replace (CifParser.parseAtomLine i l (p, CifParser.initialNumbering))
        with (p, CifParser.initialNumbering)
        by (unfold CifParser.parseAtomLine; rewrite Ea; reflexivity).
      apply IH; assumption.
Qed.

Lemma cif_sentinel_numbers_witness :
  exists added,
    Soup.atoms (soup (CifParser.parseAtomLines
                        ["data_1ABC"; Samples.ligand1; Samples.ligand2]
                        (constructor Soup.empty))) =
      Soup.atoms (soup (constructor Soup.empty)) ++ added /\
    length added =
      length (List.filter CifParser.isAtomLine
                ["data_1ABC"; Samples.ligand1; Samples.ligand2]) /\
    countsFromOne (map Soup.atom_resNum added).
Proof.
  apply (cif_sentinel_numbers_count_from_one
           ["data_1ABC"; Samples.ligand1; Samples.ligand2]
           (constructor Soup.empty)).
  constructor; [intros H; vm_compute in H; discriminate H|].
  constructor; [intros _; vm_compute; reflexivity|].
  constructor; [intros _; vm_compute; reflexivity|].
  constructor.
Defined.

(* ===================================================================== *)
(** ** [PdbParser.parsePdbData]: nothing is ever reported *)
(* ===================================================================== *)

Lemma loadModels_error pdbId title lines nModel models : forall iModel p,
  error (PdbParser.loadModels pdbId title lines nModel iModel models p) =
  error p.
Proof.
  induction models as [|m models IH]; intros iModel p; [reflexivity|].
  cbn [PdbParser.loadModels]. cbv zeta. rewrite IH.
  match goal with
  | |- context [PdbParser.parseSecondaryStructureLines lines ?q] =>
      destruct (pdb_ss_frame lines q) as (_ & _ & h & _); rewrite h
  end.
  match goal with
  | |- context [PdbParser.parseAtomLines m ?q] =>
      destruct (pdb_parseAtomLinesFrom_spec m 0 q) as (_ & _ & g & _);
      unfold PdbParser.parseAtomLines; rewrite g
  end.
  reflexivity.
Qed.

(** X18.  [PdbParser.parsePdbData] reports nothing, whatever the text:
    the [error] field and the [parsingError] field are afterwards what
    they were before.  The [catch] branch of [parseAtomLines] cannot be
    reached, since no assignment of its [try] block can throw, and the
    test for a text of zero lines cannot succeed. *)
Theorem pdb_parser_never_reports (pdbText pdbId : string) (p : Parser) :
  let q := PdbParser.parsePdbData pdbText pdbId p in
  error q = error p /\ parsingError q = parsingError p.
Proof.
  cbv zeta. unfold PdbParser.parsePdbData. rewrite splitLines_length.
  cbv zeta. destruct (PdbParser.bucketLines _ _ _ _) as [models iModel].
  split; [apply loadModels_error|apply loadModels_parsingError].
Qed.

(* ===================================================================== *)
(** ** The rows of the mmCIF loops *)
(* ===================================================================== *)








